(** * Driver dispatch of the food-delivery marketplace

    A shallow embedding of the dispatch core of the application:
    - [delivery/models.py]      (module [models])
    - [delivery/assignment.py]  (module [assignment])
    - [delivery/services.py]    (module [services])
    - [delivery/tasks.py]       (module [tasks])
    - [delivery/views.py]       (module [views])
    - [core/utils/task_helper.py] (module [task_helper])

    Conventions of the embedding.
    - Primary keys are integers ([Z]).
    - [DecimalField] values and Python floats are idealised as rationals
      ([Q]); a nullable column is an [option].  Where the arithmetic of
      floats can fail ([math.sqrt] in the Haversine formula) or a column
      keeps fewer digits than the float saved to it ([distance_km]), the
      model says so with a parameter: see [haversine_km] and
      [distance_column] in module [assignment].
    - [timezone.now()] is an explicit argument [now], a number of
      microseconds; a nullable [DateTimeField] is an [option Z].
    - The database is a record of tables, each a list of rows in storage
      order.  Django runs in autocommit mode here (no [ATOMIC_REQUESTS], no
      [transaction.atomic] in the dispatch code), so a write that happened
      before an exception stays written.
    - Outbound notifications (WebSocket messages, e-mail threads, task
      submissions) are recorded in an event log. *)

From Stdlib Require Import List ZArith QArith Qabs Qround Bool String Lia.
From Stdlib Require Import Sorting.Sorted Permutation.
Import ListNotations.

Local Open Scope Z_scope.

(** ** Python exceptions and a state/log/exception monad *)

Inductive Exc : Type :=
| TypeError (msg : string)
| ValueError (msg : string)
| ImportError (name : string)
| DoesNotExist (model : string)
| OperationalError (msg : string)
| RuntimeError (msg : string).

Inductive outcome (A : Type) : Type :=
| Return (a : A)
| Raise (e : Exc).
Arguments Return {A} a.
Arguments Raise {A} e.

Definition is_return {A : Type} (o : outcome A) : bool :=
  match o with
  | Return _ => true
  | Raise _ => false
  end.

(** ** Data model ([delivery/models.py], [orders/models.py], [users/models.py]) *)

Module models.

(** [Delivery.STATUS_CHOICES] *)
Inductive Status : Type :=
| pending | assigned | accepted | picked_up | en_route
| arrived | delivered | cancelled | failed.

Definition Status_eqb (a b : Status) : bool :=
  match a, b with
  | pending, pending | assigned, assigned | accepted, accepted
  | picked_up, picked_up | en_route, en_route | arrived, arrived
  | delivered, delivered | cancelled, cancelled | failed, failed => true
  | _, _ => false
  end.

(** [Order.STATUS_CHOICES] *)
Inductive OrderStatus : Type :=
| o_pending | o_confirmed | o_preparing | o_ready
| o_out_for_delivery | o_delivered | o_cancelled.

(** The columns of [users.User] that dispatch reads. *)
Record User : Type := {
  user_id : Z;
  is_driver : bool;
  is_verified_driver : bool;
  is_active : bool
}.

(** The columns of [restaurants.Restaurant] that dispatch reads. *)
Record Restaurant : Type := {
  latitude : option Q;
  longitude : option Q
}.

(** [orders.Order], with its restaurant joined in ([select_related]). *)
Record Order : Type := {
  order_pk : Z;
  restaurant : Restaurant;
  order_delivery_latitude : option Q;
  order_delivery_longitude : option Q;
  order_status : OrderStatus;
  delivered_at : option Z
}.

(** [delivery.Delivery]: the columns dispatch reads or writes. *)
Record Delivery : Type := {
  id : Z;
  order_id : Z;
  driver : option Z;
  status : Status;
  pickup_latitude : option Q;
  pickup_longitude : option Q;
  delivery_latitude : option Q;
  delivery_longitude : option Q;
  actual_pickup_time : option Z;
  actual_delivery_time : option Z;
  distance_km : option Q;
  driver_notes : string;
  assigned_at : option Z;
  accepted_at : option Z
}.

(** [delivery.DriverAvailability], keyed by its one-to-one [driver]. *)
Record DriverAvailability : Type := {
  av_driver : Z;
  is_available : bool;
  is_online : bool;
  current_latitude : option Q;
  current_longitude : option Q;
  total_deliveries : Z;
  successful_deliveries : Z;
  cancelled_deliveries : Z;
  average_rating : Q
}.

(** The tables. *)
Record DB : Type := {
  orders : list Order;
  users : list User;
  deliveries : list Delivery;
  availabilities : list DriverAvailability
}.

(** Outbound, fire-and-forget effects. *)
Inductive Event : Type :=
| NotifyDriverNewDelivery (driver_pk delivery_pk : Z)
| NotifyCustomerOrderStatus (order : Z) (kind : string)
| NotifyVendorOrderUpdate (order : Z) (kind : string)
| NotifyDriverDeliveryReassigned (driver_pk delivery_pk : Z) (reason : string)
| SendEmailAsync (email_func : string) (order : Z)
| RunTaskSafe (task_func : string) (arg : Z).

(** *** Field updates *)

Definition with_driver (v : option Z) (d : Delivery) : Delivery :=
  {| id := id d; order_id := order_id d; driver := v; status := status d;
     pickup_latitude := pickup_latitude d; pickup_longitude := pickup_longitude d;
     delivery_latitude := delivery_latitude d; delivery_longitude := delivery_longitude d;
     actual_pickup_time := actual_pickup_time d;
     actual_delivery_time := actual_delivery_time d;
     distance_km := distance_km d; driver_notes := driver_notes d;
     assigned_at := assigned_at d; accepted_at := accepted_at d |}.

Definition with_status (v : Status) (d : Delivery) : Delivery :=
  {| id := id d; order_id := order_id d; driver := driver d; status := v;
     pickup_latitude := pickup_latitude d; pickup_longitude := pickup_longitude d;
     delivery_latitude := delivery_latitude d; delivery_longitude := delivery_longitude d;
     actual_pickup_time := actual_pickup_time d;
     actual_delivery_time := actual_delivery_time d;
     distance_km := distance_km d; driver_notes := driver_notes d;
     assigned_at := assigned_at d; accepted_at := accepted_at d |}.

Definition with_route (plat plon dlat dlon dist : option Q) (d : Delivery) : Delivery :=
  {| id := id d; order_id := order_id d; driver := driver d; status := status d;
     pickup_latitude := plat; pickup_longitude := plon;
     delivery_latitude := dlat; delivery_longitude := dlon;
     actual_pickup_time := actual_pickup_time d;
     actual_delivery_time := actual_delivery_time d;
     distance_km := dist; driver_notes := driver_notes d;
     assigned_at := assigned_at d; accepted_at := accepted_at d |}.

Definition with_distance_km (v : option Q) (d : Delivery) : Delivery :=
  {| id := id d; order_id := order_id d; driver := driver d; status := status d;
     pickup_latitude := pickup_latitude d; pickup_longitude := pickup_longitude d;
     delivery_latitude := delivery_latitude d; delivery_longitude := delivery_longitude d;
     actual_pickup_time := actual_pickup_time d;
     actual_delivery_time := actual_delivery_time d;
     distance_km := v; driver_notes := driver_notes d;
     assigned_at := assigned_at d; accepted_at := accepted_at d |}.

Definition with_actual_pickup_time (v : option Z) (d : Delivery) : Delivery :=
  {| id := id d; order_id := order_id d; driver := driver d; status := status d;
     pickup_latitude := pickup_latitude d; pickup_longitude := pickup_longitude d;
     delivery_latitude := delivery_latitude d; delivery_longitude := delivery_longitude d;
     actual_pickup_time := v;
     actual_delivery_time := actual_delivery_time d;
     distance_km := distance_km d; driver_notes := driver_notes d;
     assigned_at := assigned_at d; accepted_at := accepted_at d |}.

Definition with_actual_delivery_time (v : option Z) (d : Delivery) : Delivery :=
  {| id := id d; order_id := order_id d; driver := driver d; status := status d;
     pickup_latitude := pickup_latitude d; pickup_longitude := pickup_longitude d;
     delivery_latitude := delivery_latitude d; delivery_longitude := delivery_longitude d;
     actual_pickup_time := actual_pickup_time d;
     actual_delivery_time := v;
     distance_km := distance_km d; driver_notes := driver_notes d;
     assigned_at := assigned_at d; accepted_at := accepted_at d |}.

Definition with_driver_notes (v : string) (d : Delivery) : Delivery :=
  {| id := id d; order_id := order_id d; driver := driver d; status := status d;
     pickup_latitude := pickup_latitude d; pickup_longitude := pickup_longitude d;
     delivery_latitude := delivery_latitude d; delivery_longitude := delivery_longitude d;
     actual_pickup_time := actual_pickup_time d;
     actual_delivery_time := actual_delivery_time d;
     distance_km := distance_km d; driver_notes := v;
     assigned_at := assigned_at d; accepted_at := accepted_at d |}.

Definition with_assigned_at (v : option Z) (d : Delivery) : Delivery :=
  {| id := id d; order_id := order_id d; driver := driver d; status := status d;
     pickup_latitude := pickup_latitude d; pickup_longitude := pickup_longitude d;
     delivery_latitude := delivery_latitude d; delivery_longitude := delivery_longitude d;
     actual_pickup_time := actual_pickup_time d;
     actual_delivery_time := actual_delivery_time d;
     distance_km := distance_km d; driver_notes := driver_notes d;
     assigned_at := v; accepted_at := accepted_at d |}.

Definition with_accepted_at (v : option Z) (d : Delivery) : Delivery :=
  {| id := id d; order_id := order_id d; driver := driver d; status := status d;
     pickup_latitude := pickup_latitude d; pickup_longitude := pickup_longitude d;
     delivery_latitude := delivery_latitude d; delivery_longitude := delivery_longitude d;
     actual_pickup_time := actual_pickup_time d;
     actual_delivery_time := actual_delivery_time d;
     distance_km := distance_km d; driver_notes := driver_notes d;
     assigned_at := assigned_at d; accepted_at := v |}.

Definition with_is_available (v : bool) (a : DriverAvailability) : DriverAvailability :=
  {| av_driver := av_driver a; is_available := v; is_online := is_online a;
     current_latitude := current_latitude a; current_longitude := current_longitude a;
     total_deliveries := total_deliveries a;
     successful_deliveries := successful_deliveries a;
     cancelled_deliveries := cancelled_deliveries a;
     average_rating := average_rating a |}.

Definition with_is_online (v : bool) (a : DriverAvailability) : DriverAvailability :=
  {| av_driver := av_driver a; is_available := is_available a; is_online := v;
     current_latitude := current_latitude a; current_longitude := current_longitude a;
     total_deliveries := total_deliveries a;
     successful_deliveries := successful_deliveries a;
     cancelled_deliveries := cancelled_deliveries a;
     average_rating := average_rating a |}.

Definition with_counters (t s c : Z) (a : DriverAvailability) : DriverAvailability :=
  {| av_driver := av_driver a; is_available := is_available a; is_online := is_online a;
     current_latitude := current_latitude a; current_longitude := current_longitude a;
     total_deliveries := t; successful_deliveries := s; cancelled_deliveries := c;
     average_rating := average_rating a |}.

Definition with_order_status (v : OrderStatus) (o : Order) : Order :=
  {| order_pk := order_pk o; restaurant := restaurant o;
     order_delivery_latitude := order_delivery_latitude o;
     order_delivery_longitude := order_delivery_longitude o;
     order_status := v; delivered_at := delivered_at o |}.

Definition with_delivered_at (v : option Z) (o : Order) : Order :=
  {| order_pk := order_pk o; restaurant := restaurant o;
     order_delivery_latitude := order_delivery_latitude o;
     order_delivery_longitude := order_delivery_longitude o;
     order_status := order_status o; delivered_at := v |}.

Definition with_orders (v : list Order) (db : DB) : DB :=
  {| orders := v; users := users db; deliveries := deliveries db;
     availabilities := availabilities db |}.

Definition with_deliveries (v : list Delivery) (db : DB) : DB :=
  {| orders := orders db; users := users db; deliveries := v;
     availabilities := availabilities db |}.

Definition with_availabilities (v : list DriverAvailability) (db : DB) : DB :=
  {| orders := orders db; users := users db; deliveries := deliveries db;
     availabilities := v |}.

(** *** The monad: database state, event log, exceptions *)

Definition M (A : Type) : Type := DB -> outcome A * DB * list Event.

Definition ret {A} (a : A) : M A := fun db => (Return a, db, []).

Definition raise {A} (e : Exc) : M A := fun db => (Raise e, db, []).

Definition bind {A B} (m : M A) (k : A -> M B) : M B :=
  fun db =>
    match m db with
    | (Return a, db1, l1) =>
        match k a db1 with
        | (r, db2, l2) => (r, db2, l1 ++ l2)
        end
    | (Raise e, db1, l1) => (Raise e, db1, l1)
    end.

(** [try: m except Exception as e: h e] *)
Definition catch {A} (m : M A) (h : Exc -> M A) : M A :=
  fun db =>
    match m db with
    | (Return a, db1, l1) => (Return a, db1, l1)
    | (Raise e, db1, l1) =>
        match h e db1 with
        | (r, db2, l2) => (r, db2, l1 ++ l2)
        end
    end.

Definition get_db : M DB := fun db => (Return db, db, []).
Definition put_db (db' : DB) : M unit := fun _ => (Return tt, db', []).
Definition emit (e : Event) : M unit := fun db => (Return tt, db, [e]).
Definition lift {A} (o : outcome A) : M A := fun db => (o, db, []).

Declare Scope monad_scope.
Delimit Scope monad_scope with monad.
Notation "x <- m ;; k" := (bind m (fun x => k))
  (at level 61, m at next level, right associativity) : monad_scope.
Notation "m ;; k" := (bind m (fun _ => k))
  (at level 61, right associativity) : monad_scope.
Local Open Scope monad_scope.

(** *** Queries of the ORM *)

(** [Order.objects.get(id=...)]; [None] stands for [Order.DoesNotExist]. *)
Definition Order_get (db : DB) (pk : Z) : option Order :=
  find (fun o => order_pk o =? pk) (orders db).

(** [Delivery.objects.get(id=...)] *)
Definition Delivery_get (db : DB) (pk : Z) : option Delivery :=
  find (fun d => id d =? pk) (deliveries db).

(** [Delivery.objects.get(order_id=...)], also [order.delivery]. *)
Definition Delivery_get_by_order (db : DB) (oid : Z) : option Delivery :=
  find (fun d => order_id d =? oid) (deliveries db).

(** [DriverAvailability.objects.get(driver=...)], also [driver.availability]. *)
Definition DriverAvailability_get (db : DB) (drv : Z) : option DriverAvailability :=
  find (fun a => av_driver a =? drv) (availabilities db).

Definition User_get (db : DB) (pk : Z) : option User :=
  find (fun u => user_id u =? pk) (users db).

(** [UPDATE ... WHERE id = pk] on each table. *)
Definition update_delivery (pk : Z) (f : Delivery -> Delivery) (db : DB) : DB :=
  with_deliveries
    (map (fun row => if id row =? pk then f row else row) (deliveries db)) db.

Definition update_availability (drv : Z) (f : DriverAvailability -> DriverAvailability)
  (db : DB) : DB :=
  with_availabilities
    (map (fun row => if av_driver row =? drv then f row else row) (availabilities db)) db.

Definition update_order (pk : Z) (f : Order -> Order) (db : DB) : DB :=
  with_orders
    (map (fun row => if order_pk row =? pk then f row else row) (orders db)) db.

(** The next value of the auto-increment primary key of [Delivery]. *)
Definition next_delivery_id (db : DB) : Z :=
  1 + fold_right (fun d m => Z.max (id d) m) 0 (deliveries db).

(** [Delivery.objects.create(...)]: unset columns take their defaults. *)
Definition new_delivery (pk oid : Z) : Delivery :=
  {| id := pk; order_id := oid; driver := None; status := pending;
     pickup_latitude := None; pickup_longitude := None;
     delivery_latitude := None; delivery_longitude := None;
     actual_pickup_time := None; actual_delivery_time := None;
     distance_km := None; driver_notes := EmptyString;
     assigned_at := None; accepted_at := None |}.

Definition insert_delivery (d : Delivery) (db : DB) : DB :=
  with_deliveries (deliveries db ++ [d]) db.

(** [instance.save()] and [instance.save(update_fields=[...])]: the row of
    the instance's key receives the listed columns of the instance. *)
Definition Delivery_save (self : Delivery) (cols : Delivery -> Delivery -> Delivery)
  : M unit :=
  fun db => (Return tt, update_delivery (id self) (cols self) db, []).

Definition DriverAvailability_save (self : DriverAvailability)
  (cols : DriverAvailability -> DriverAvailability -> DriverAvailability) : M unit :=
  fun db => (Return tt, update_availability (av_driver self) (cols self) db, []).

Definition Order_save (self : Order) (cols : Order -> Order -> Order) : M unit :=
  fun db => (Return tt, update_order (order_pk self) (cols self) db, []).

(** [save()] without [update_fields] writes every column. *)
Definition all_columns {A} (self _row : A) : A := self.

(** *** [Order.mark_as_delivered] ([orders/models.py]) *)

Definition Order_mark_as_delivered (now : Z) (self : Order) : M Order :=
  let self := with_delivered_at (Some now) (with_order_status o_delivered self) in
  Order_save self
    (fun s row => with_delivered_at (delivered_at s)
                    (with_order_status (order_status s) row)) ;;
  ret self.

(** [self.order]: the foreign key is followed with a query. *)
Definition Delivery_order (self : Delivery) : M Order :=
  db <- get_db ;;
  match Order_get db (order_id self) with
  | Some o => ret o
  | None => raise (DoesNotExist "Order")
  end.

(** *** Methods of [DriverAvailability] *)

Definition go_online (self : DriverAvailability) : M DriverAvailability :=
  let self := with_is_available true (with_is_online true self) in
  DriverAvailability_save self
    (fun s row => with_is_available (is_available s)
                    (with_is_online (is_online s) row)) ;;
  ret self.

Definition go_offline (self : DriverAvailability) : M DriverAvailability :=
  let self := with_is_available false (with_is_online false self) in
  DriverAvailability_save self
    (fun s row => with_is_available (is_available s)
                    (with_is_online (is_online s) row)) ;;
  ret self.

Definition increment_deliveries (self : DriverAvailability) (successful : bool)
  : M DriverAvailability :=
  let self :=
    if successful
    then with_counters (total_deliveries self + 1) (successful_deliveries self + 1)
           (cancelled_deliveries self) self
    else with_counters (total_deliveries self + 1) (successful_deliveries self)
           (cancelled_deliveries self + 1) self in
  DriverAvailability_save self
    (fun s row => with_counters (total_deliveries s) (successful_deliveries s)
                    (cancelled_deliveries s) row) ;;
  ret self.

(** *** Methods of [Delivery] *)

Definition is_active_status (s : Status) : bool :=
  match s with
  | assigned | accepted | picked_up | en_route => true
  | _ => false
  end.

Definition truthy_driver (d : option Z) : bool :=
  match d with Some _ => true | None => false end.

Definition assign_to_driver (now : Z) (self : Delivery) (drv : Z) : M Delivery :=
  let self :=
    with_assigned_at (Some now) (with_status assigned (with_driver (Some drv) self)) in
  Delivery_save self
    (fun s row => with_assigned_at (assigned_at s)
                    (with_status (status s) (with_driver (driver s) row))) ;;
  ret self.

Definition accept_delivery (now : Z) (self : Delivery) : M Delivery :=
  let self := with_accepted_at (Some now) (with_status accepted self) in
  Delivery_save self
    (fun s row => with_accepted_at (accepted_at s) (with_status (status s) row)) ;;
  match driver self with
  | Some drv =>
      db <- get_db ;;
      match DriverAvailability_get db drv with
      | Some availability =>
          let availability := with_is_available false availability in
          DriverAvailability_save availability
            (fun s row => with_is_available (is_available s) row)
      | None => ret tt
      end
  | None => ret tt
  end ;;
  ret self.

Definition mark_picked_up (now : Z) (self : Delivery) : M Delivery :=
  let self := with_actual_pickup_time (Some now) (with_status picked_up self) in
  Delivery_save self
    (fun s row => with_actual_pickup_time (actual_pickup_time s)
                    (with_status (status s) row)) ;;
  emit (SendEmailAsync "send_out_for_delivery_email" (order_id self)) ;;
  emit (NotifyCustomerOrderStatus (order_id self) "picked_up") ;;
  emit (NotifyVendorOrderUpdate (order_id self) "picked_up") ;;
  ret self.

Definition mark_en_route (self : Delivery) : M Delivery :=
  let self := with_status en_route self in
  Delivery_save self (fun s row => with_status (status s) row) ;;
  emit (NotifyCustomerOrderStatus (order_id self) "en_route") ;;
  emit (NotifyVendorOrderUpdate (order_id self) "en_route") ;;
  ret self.

Definition mark_delivered (now : Z) (self : Delivery) : M Delivery :=
  let self := with_actual_delivery_time (Some now) (with_status delivered self) in
  Delivery_save self
    (fun s row => with_actual_delivery_time (actual_delivery_time s)
                    (with_status (status s) row)) ;;
  order <- Delivery_order self ;;
  Order_mark_as_delivered now order ;;
  emit (SendEmailAsync "send_order_delivered_email" (order_id self)) ;;
  emit (NotifyCustomerOrderStatus (order_id self) "delivered") ;;
  emit (NotifyVendorOrderUpdate (order_id self) "delivered") ;;
  match driver self with
  | Some drv =>
      catch
        (db <- get_db ;;
         match DriverAvailability_get db drv with
         | Some availability =>
             availability <-
               (if is_online availability
                then
                  let availability := with_is_available true availability in
                  DriverAvailability_save availability
                    (fun s row => with_is_available (is_available s) row) ;;
                  ret availability
                else ret availability) ;;
             increment_deliveries availability true ;;
             ret tt
         | None => raise (DoesNotExist "DriverAvailability")
         end)
        (fun _ => ret tt)
  | None => ret tt
  end ;;
  ret self.

(** *** Further members of [delivery/models.py] *)

(** [Delivery.is_completed] *)
Definition is_completed (self : Delivery) : bool := Status_eqb (status self) delivered.

(** [DriverAvailability.success_rate] *)
Definition success_rate (self : DriverAvailability) : Q :=
  if total_deliveries self =? 0 then 0%Q
  else ((inject_Z (successful_deliveries self) / inject_Z (total_deliveries self))
        * inject_Z 100)%Q.

(** [DriverAvailability.objects.get_or_create(driver=...)]: a new row takes
    the defaults of the columns. *)
Definition new_availability (drv : Z) : DriverAvailability :=
  {| av_driver := drv; is_available := false; is_online := false;
     current_latitude := None; current_longitude := None;
     total_deliveries := 0; successful_deliveries := 0; cancelled_deliveries := 0;
     average_rating := 0%Q |}.

Definition DriverAvailability_get_or_create (drv : Z) : M DriverAvailability :=
  db <- get_db ;;
  match DriverAvailability_get db drv with
  | Some availability => ret availability
  | None =>
      put_db (with_availabilities (availabilities db ++ [new_availability drv]) db) ;;
      ret (new_availability drv)
  end.

End models.

(** ** Matching and assignment ([delivery/assignment.py]) *)

Module assignment.
Import models.
Local Open Scope monad_scope.

(** An entry of [nearby_drivers]: the dict with keys ['driver'],
    ['availability'] and ['distance']. *)
Record Candidate : Type := {
  c_driver : Z;
  c_availability : DriverAvailability;
  c_distance : Q
}.

(** Truth value of a nullable [Decimal]: [None] and zero are false. *)
Definition truthy (x : option Q) : bool :=
  match x with
  | Some q => negb (Qeq_bool q 0)
  | None => false
  end.

(** [float(x)] *)
Definition float (x : option Q) : outcome Q :=
  match x with
  | Some q => Return q
  | None => Raise (TypeError "float() argument must be a string or a real number, not 'NoneType'")
  end.

(** The sort key [(-x['availability'].average_rating, x['distance'])] and
    the order [<] of Python tuples on it. *)
Definition sort_key (x : Candidate) : Q * Q :=
  (Qopp (average_rating (c_availability x)), c_distance x).

Definition Qlt_bool (a b : Q) : bool := negb (Qle_bool b a).

Definition tuple_lt (k1 k2 : Q * Q) : bool :=
  if Qeq_bool (fst k1) (fst k2) then Qlt_bool (snd k1) (snd k2)
  else Qlt_bool (fst k1) (fst k2).

(** [list.sort(key=...)] is a stable sort; on a total preorder every stable
    sort returns the same list, here computed by insertion. *)
Fixpoint insert_by_key (x : Candidate) (l : list Candidate) : list Candidate :=
  match l with
  | [] => [x]
  | y :: l' =>
      if tuple_lt (sort_key y) (sort_key x) then y :: insert_by_key x l'
      else x :: y :: l'
  end.

Definition sort_by_key (l : list Candidate) : list Candidate :=
  fold_right insert_by_key [] l.

Section Matching.

(** The value [R * c] of the Haversine formula on four floats, when the
    arithmetic goes through, and [None] when [math.sqrt] is handed a
    negative number and raises [ValueError]: rounding can push [a] above 1
    for two points that are nearly antipodal, and the stored coordinates of
    a driver are not range-checked.  The trigonometry is not computed in
    the model: the function is a parameter. *)
Variable haversine_km : Q -> Q -> Q -> Q -> option Q.

(** The value that the column [distance_km], a
    [DecimalField(max_digits=5, decimal_places=2)], holds once a float has
    been saved to it: the float rounded to two decimal places.  The
    instance in memory keeps the float.  The rounding is done by the ORM
    and the database, not by the dispatch code: the function is a
    parameter. *)
Variable distance_column : Q -> Q.

(** The row that [save()] and [objects.create()] leave for an instance
    whose [distance_km] has been set to a float. *)
Definition stored_row (d : Delivery) : Delivery :=
  with_distance_km (option_map distance_column (distance_km d)) d.

Definition calculate_distance (lat1 lon1 lat2 lon2 : option Q) : outcome Q :=
  match float lat1 with
  | Raise e => Raise e
  | Return lat1 =>
  match float lon1 with
  | Raise e => Raise e
  | Return lon1 =>
  match float lat2 with
  | Raise e => Raise e
  | Return lat2 =>
  match float lon2 with
  | Raise e => Raise e
  | Return lon2 =>
      match haversine_km lat1 lon1 lat2 lon2 with
      | Some distance => Return distance
      | None => Raise (ValueError "math domain error")
      end
  end end end end.

(** The first query of [find_available_drivers]. *)
Definition online_verified_active (db : DB) : list DriverAvailability :=
  filter
    (fun a =>
       is_online a &&
       match User_get db (av_driver a) with
       | Some u => is_verified_driver u && is_active u
       | None => false
       end)
    (availabilities db).

Definition active_delivery_count (db : DB) (drv : Z) : nat :=
  List.length
    (filter
       (fun d =>
          match driver d with
          | Some x => x =? drv
          | None => false
          end && is_active_status (status d))
       (deliveries db)).

Definition truly_available (db : DB) : list DriverAvailability :=
  filter
    (fun a => is_available a || Nat.eqb (active_delivery_count db (av_driver a)) 0)
    (online_verified_active db).

(** The loop that fills [nearby_drivers]. *)
Fixpoint nearby_loop (restaurant_lat restaurant_lon : option Q) (radius_km : Q)
  (l : list DriverAvailability) : outcome (list Candidate) :=
  match l with
  | [] => Return []
  | a :: rest =>
      if truthy (current_latitude a) && truthy (current_longitude a) then
        match calculate_distance restaurant_lat restaurant_lon
                (current_latitude a) (current_longitude a) with
        | Raise e => Raise e
        | Return distance =>
            match nearby_loop restaurant_lat restaurant_lon radius_km rest with
            | Raise e => Raise e
            | Return tl =>
                if Qle_bool distance radius_km
                then Return ({| c_driver := av_driver a; c_availability := a;
                                c_distance := distance |} :: tl)
                else Return tl
            end
        end
      else
        match nearby_loop restaurant_lat restaurant_lon radius_km rest with
        | Raise e => Raise e
        | Return tl =>
            Return ({| c_driver := av_driver a; c_availability := a;
                       c_distance := (radius_km * (8 # 10))%Q |} :: tl)
        end
  end.

Definition find_available_drivers (db : DB) (restaurant_lat restaurant_lon : option Q)
  (radius_km : Q) : outcome (list Candidate) :=
  match nearby_loop restaurant_lat restaurant_lon radius_km (truly_available db) with
  | Raise e => Raise e
  | Return nearby_drivers => Return (sort_by_key nearby_drivers)
  end.

Definition notify_driver_new_delivery (delivery : Delivery) : M unit :=
  match driver delivery with
  | None => ret tt
  | Some drv => emit (NotifyDriverNewDelivery drv (id delivery))
  end.

Definition assign_delivery_to_driver (now : Z) (order_id : Z) : M (option Delivery) :=
  db <- get_db ;;
  match Order_get db order_id with
  | None => ret None
  | Some order =>
      let existing_delivery := Delivery_get_by_order db order_id in
      if match existing_delivery with
         | Some d => truthy_driver (driver d)
         | None => false
         end
      then ret existing_delivery
      else
        if negb (truthy (latitude (restaurant order)))
           || negb (truthy (longitude (restaurant order)))
        then ret None
        else
          nearby_drivers <-
            lift (find_available_drivers db (latitude (restaurant order))
                    (longitude (restaurant order)) (10 # 1)) ;;
          match nearby_drivers with
          | [] => ret None
          | best :: _ =>
              let best_driver := c_driver best in
              let distance := c_distance best in
              let fill (d : Delivery) : Delivery :=
                with_assigned_at (Some now)
                  (with_route (latitude (restaurant order)) (longitude (restaurant order))
                     (order_delivery_latitude order) (order_delivery_longitude order)
                     (Some distance)
                     (with_status assigned (with_driver (Some best_driver) d))) in
              delivery <-
                match existing_delivery with
                | Some d =>
                    let delivery := fill d in
                    Delivery_save (stored_row delivery) all_columns ;;
                    ret delivery
                | None =>
                    let delivery := fill (new_delivery (next_delivery_id db) order_id) in
                    put_db (insert_delivery (stored_row delivery) db) ;;
                    ret delivery
                end ;;
              (let order := with_order_status o_confirmed order in
               Order_save order all_columns) ;;
              notify_driver_new_delivery delivery ;;
              ret (Some delivery)
          end
  end.

Definition reassign_delivery (now : Z) (delivery_id : Z) : M (option Delivery) :=
  db <- get_db ;;
  match Delivery_get db delivery_id with
  | None => ret None
  | Some delivery =>
      match driver delivery with
      | Some drv =>
          db <- get_db ;;
          match DriverAvailability_get db drv with
          | Some availability =>
              let availability := with_is_available true availability in
              DriverAvailability_save availability all_columns
          | None => ret tt
          end
      | None => ret tt
      end ;;
      db <- get_db ;;
      nearby_drivers <-
        lift (find_available_drivers db (pickup_latitude delivery)
                (pickup_longitude delivery) (10 # 1)) ;;
      match nearby_drivers with
      | [] =>
          let delivery := with_driver None (with_status pending delivery) in
          Delivery_save delivery all_columns ;;
          ret None
      | best :: _ =>
          let new_driver := c_driver best in
          let delivery :=
            with_assigned_at (Some now)
              (with_status assigned (with_driver (Some new_driver) delivery)) in
          Delivery_save delivery all_columns ;;
          notify_driver_new_delivery delivery ;;
          ret (Some delivery)
      end
  end.

End Matching.

(** [get_pending_deliveries] *)
Definition get_pending_deliveries (db : DB) : list Delivery :=
  filter
    (fun d => Status_eqb (status d) pending && negb (truthy_driver (driver d)))
    (deliveries db).

End assignment.

(** ** The assignment service ([delivery/services.py]) *)

Module services.
Import models assignment.
Local Open Scope monad_scope.

(** The dict returned by [process_delivery_assignment]; an absent key is
    [None]. *)
Record AssignmentResult : Type := {
  success : bool;
  error : option string;
  retry : option bool;
  delivery_id : option Z;
  driver_id : option Z;
  already_assigned : option bool
}.

(** [str(e)] *)
Definition Exc_str (e : Exc) : string :=
  match e with
  | TypeError msg => msg
  | ValueError msg => msg
  | ImportError name => ("cannot import name '" ++ name ++ "'")%string
  | DoesNotExist model => (model ++ " matching query does not exist.")%string
  | OperationalError msg => msg
  | RuntimeError msg => msg
  end.

Definition failure (msg : string) (again : bool) : AssignmentResult :=
  {| success := false; error := Some msg; retry := Some again;
     delivery_id := None; driver_id := None; already_assigned := None |}.

Definition manual_note (reason : string) : string :=
  (reason ++ " - requires manual assignment")%string.

Definition _mark_for_manual_assignment (order_id : Z) (reason : string) : M unit :=
  catch
    (db <- get_db ;;
     match Delivery_get_by_order db order_id with
     | None =>
         put_db
           (insert_delivery
              (with_driver_notes (manual_note reason)
                 (with_status pending (new_delivery (next_delivery_id db) order_id)))
              db)
     | Some delivery_record =>
         let delivery_record :=
           with_driver_notes (manual_note reason) (with_status pending delivery_record) in
         Delivery_save delivery_record all_columns
     end)
    (fun _ => ret tt).

Definition _send_assignment_notifications (delivery : Delivery) (drv : Z) : M unit :=
  emit (NotifyDriverNewDelivery drv (id delivery)) ;;
  emit (NotifyCustomerOrderStatus (order_id delivery) "driver_assigned") ;;
  emit (SendEmailAsync "send_driver_new_delivery_email" (order_id delivery)).

Section Service.

Variable haversine_km : Q -> Q -> Q -> Q -> option Q.
Variable distance_column : Q -> Q.

Definition process_delivery_assignment (now : Z) (order_id : Z)
  (max_retries current_retry : Z) : M AssignmentResult :=
  catch
    (db <- get_db ;;
     match Order_get db order_id with
     | None => ret (failure "Order not found" false)
     | Some order =>
         match
           match Delivery_get_by_order db order_id with
           | Some existing_delivery =>
               if truthy_driver (driver existing_delivery)
                  && negb (Status_eqb (status existing_delivery) pending)
               then Some existing_delivery
               else None
           | None => None
           end
         with
         | Some existing_delivery =>
             ret {| success := true; error := None; retry := None;
                    delivery_id := Some (id existing_delivery); driver_id := None;
                    already_assigned := Some true |}
         | None =>
             let online_drivers_count := List.length (online_verified_active db) in
             if Nat.eqb online_drivers_count 0 then
               if current_retry >=? max_retries then
                 _mark_for_manual_assignment order_id "No drivers online" ;;
                 ret (failure "No drivers online" false)
               else ret (failure "No drivers online" true)
             else
               delivery <- assign_delivery_to_driver haversine_km distance_column
                   now order_id ;;
               let no_suitable_driver : M AssignmentResult :=
                 if current_retry >=? max_retries then
                   _mark_for_manual_assignment order_id "All drivers busy" ;;
                   ret (failure "All drivers busy" false)
                 else ret (failure "All drivers busy" true) in
               match delivery with
               | Some delivery =>
                   match driver delivery with
                   | Some drv =>
                       _send_assignment_notifications delivery drv ;;
                       ret {| success := true; error := None; retry := None;
                              delivery_id := Some (id delivery); driver_id := Some drv;
                              already_assigned := None |}
                   | None => no_suitable_driver
                   end
               | None => no_suitable_driver
               end
         end
     end)
    (fun e => ret (failure (Exc_str e) true)).

End Service.

End services.

(** ** Scheduled tasks ([delivery/tasks.py]) *)

Module tasks.
Import models assignment.
Local Open Scope monad_scope.

(** The names that [core/utils/websocket_notifications.py] defines. *)
Definition websocket_notifications : list string :=
  [ "_send_websocket_message"; "_fire_and_forget_notification";
    "notify_customer_order_status"; "notify_vendor_new_order";
    "notify_vendor_order_update"; "notify_driver_new_delivery";
    "notify_driver_delivery_update"; "notify_driver_order_ready";
    "notify_customer_driver_location"; "notify_order_participants" ]%string.

(** [from module import name]: an [ImportError] when the module has no
    such name. *)
Definition import_from (module : list string) (name : string) : M unit :=
  if existsb (String.eqb name) module then ret tt else raise (ImportError name).

(** [timedelta.total_seconds()] of a difference in microseconds. *)
Definition total_seconds (delta : Z) : Q := delta # 1000000.

(** [timezone.now() - delivery.assigned_at] *)
Definition since (now : Z) (t : option Z) : outcome Z :=
  match t with
  | Some t => Return (now - t)
  | None =>
      Raise (TypeError
        "unsupported operand type(s) for -: 'datetime.datetime' and 'NoneType'")
  end.

(** The dicts returned by [check_assignment_timeout]. *)
Inductive TimeoutResult : Type :=
| Reassigned (reassigned : bool)
| ActionNone (current : Status)
| DeliveryNotFound.

Section Timeout.

Variable haversine_km : Q -> Q -> Q -> Q -> option Q.

(** [settings.DELIVERY_ASSIGNMENT_TIMEOUT], when the attribute is set. *)
Variable DELIVERY_ASSIGNMENT_TIMEOUT : option Z.

Definition check_assignment_timeout (now : Z) (delivery_id : Z) : M TimeoutResult :=
  db <- get_db ;;
  match Delivery_get db delivery_id with
  | None => ret DeliveryNotFound
  | Some delivery =>
      if Status_eqb (status delivery) assigned then
        let timeout :=
          match DELIVERY_ASSIGNMENT_TIMEOUT with Some t => t | None => 300 end in
        delta <- lift (since now (assigned_at delivery)) ;;
        let time_since_assignment := total_seconds delta in
        if Qle_bool (inject_Z timeout) time_since_assignment then
          match driver delivery with
          | Some drv =>
              import_from websocket_notifications "notify_driver_delivery_reassigned" ;;
              emit (NotifyDriverDeliveryReassigned drv (id delivery)
                      "Not accepted within time limit")
          | None => ret tt
          end ;;
          new_delivery <- reassign_delivery haversine_km now delivery_id ;;
          match new_delivery with
          | Some new_delivery =>
              match driver new_delivery with
              | Some _ =>
                  emit (RunTaskSafe "notify_driver_new_delivery" (id new_delivery)) ;;
                  ret (Reassigned true)
              | None => ret (Reassigned false)
              end
          | None => ret (Reassigned false)
          end
        else ret (ActionNone (status delivery))
      else ret (ActionNone (status delivery))
  end.

End Timeout.

(** What a run of [assign_delivery_async] ends with: the returned dict, or
    [raise self.retry(countdown=...)]. *)
Inductive AsyncOutcome : Type :=
| Done (result : services.AssignmentResult)
| RetryIn (countdown : Z).

Section Async.

Variable haversine_km : Q -> Q -> Q -> Q -> option Q.
Variable distance_column : Q -> Q.

(** The task is declared with [max_retries=3]; [retries] is
    [self.request.retries]. *)
Definition assign_delivery_async (now : Z) (order_id : Z) (retries : Z)
  : M AsyncOutcome :=
  result <- services.process_delivery_assignment haversine_km distance_column
      now order_id 3 retries ;;
  if services.success result then ret (Done result)
  else
    match services.retry result with
    | Some true => ret (RetryIn (30 * (retries + 1)))
    | _ => ret (Done result)
    end.

End Async.

End tasks.

(** ** The driver's rejection endpoint ([delivery/views.py]) *)

Module views.
Import models.
Local Open Scope monad_scope.

Inductive Response : Type :=
| JsonResponse (status_code : Z) (success : bool)
| Http404.

Definition reject_delivery (request_user : User) (delivery_id : Z) : M Response :=
  if negb (is_driver request_user) then ret (JsonResponse 403 false)
  else
    db <- get_db ;;
    match
      find
        (fun d =>
           (id d =? delivery_id)
           && match driver d with
              | Some x => x =? user_id request_user
              | None => false
              end
           && (Status_eqb (status d) assigned || Status_eqb (status d) pending))
        (deliveries db)
    with
    | None => ret Http404
    | Some delivery =>
        let delivery := with_driver None (with_status pending delivery) in
        Delivery_save delivery all_columns ;;
        db <- get_db ;;
        match DriverAvailability_get db (user_id request_user) with
        | Some availability =>
            if is_online availability then
              let availability := with_is_available true availability in
              DriverAvailability_save availability
                (fun s row => with_is_available (is_available s) row)
            else ret tt
        | None => ret tt
        end ;;
        emit (NotifyCustomerOrderStatus (order_id delivery) "rejected") ;;
        emit (RunTaskSafe "assign_delivery_async" (order_id delivery)) ;;
        ret (JsonResponse 200 true)
    end.

End views.

(** ** Safe task execution ([core/utils/task_helper.py]) *)

Module task_helper.

(** Where the work ended up. *)
Inductive Tier : Type :=
| Queue
| WorkerThread
| Inline.

Section RunTaskSafe.

Context {Args Ret : Type}.

(** [settings.ENABLE_CELERY], when the attribute is set. *)
Variable ENABLE_CELERY : option bool.
(** [task_func.delay] on the arguments: the id of the queued task, or an exception. *)
Variable delay : Args -> outcome Z.
(** [threading.Thread(target=sync_func, args=args).start()] *)
Variable thread_start : Args -> outcome unit.
(** [sync_func] called on the arguments by the caller. *)
Variable sync_func : Args -> outcome Ret.

Definition fallback (args : Args) : bool * option Tier :=
  match thread_start args with
  | Return _ => (true, Some WorkerThread)
  | Raise _ =>
      match sync_func args with
      | Return _ => (true, Some Inline)
      | Raise _ => (false, None)
      end
  end.

Definition run_task_safe (args : Args) : bool * option Tier :=
  let enable_celery := match ENABLE_CELERY with Some b => b | None => true end in
  if enable_celery then
    match delay args with
    | Return _ => (true, Some Queue)
    | Raise _ => fallback args
    end
  else fallback args.

End RunTaskSafe.

End task_helper.

(** ** The driver's other endpoints of [delivery/views.py] *)

Module views_driver.
Import models.
Local Open Scope monad_scope.

Inductive Reply : Type :=
| Json (status_code : Z) (success : bool)
| Toggled (status_text : string) (available : bool)
| StatusUpdated (current : Status)
| Http404.

Definition toggle_driver_availability (request_user : User) : M Reply :=
  if negb (is_driver request_user) then ret (Json 403 false)
  else
    availability <- DriverAvailability_get_or_create (user_id request_user) ;;
    if is_online availability then
      availability <- go_offline availability ;;
      ret (Toggled "offline" (is_available availability))
    else
      availability <- go_online availability ;;
      ret (Toggled "online" (is_available availability)).

Definition is_user (request_user : User) (d : option Z) : bool :=
  match d with
  | Some x => x =? user_id request_user
  | None => false
  end.

(** The parameters of [notify_customer_order_status(order, status, message)]
    of [core/utils/websocket_notifications.py]. *)
Definition notify_customer_order_status_params : list string :=
  [ "order"; "status"; "message" ]%string.

(** A call [f(..., k1=..., k2=...)] of a function without a catch-all for
    keywords: a [TypeError] at the first keyword that is no parameter of
    [f]. *)
Definition call_with_keywords (f : string) (params keywords : list string) : M unit :=
  match find (fun k => negb (existsb (String.eqb k) params)) keywords with
  | Some k =>
      raise (TypeError (f ++ "() got an unexpected keyword argument '" ++ k ++ "'"))
  | None => ret tt
  end.

Definition accept_delivery (now : Z) (request_user : User) (delivery_id : Z)
  : M Reply :=
  if negb (is_driver request_user) then ret (Json 403 false)
  else
    db <- get_db ;;
    match
      find
        (fun d =>
           (id d =? delivery_id)
           && (Status_eqb (status d) pending || Status_eqb (status d) assigned))
        (deliveries db)
    with
    | None => ret Http404
    | Some delivery =>
        if truthy_driver (driver delivery) && negb (is_user request_user (driver delivery))
        then ret (Json 400 false)
        else
          let refusal : option Z :=
            if negb (truthy_driver (driver delivery))
               || negb (is_user request_user (driver delivery))
            then
              match DriverAvailability_get db (user_id request_user) with
              | Some availability =>
                  if negb (is_online availability) then Some 400
                  else if negb (truthy_driver (driver delivery))
                          && negb (is_available availability)
                  then Some 400
                  else None
              | None => Some 400
              end
            else None in
          match refusal with
          | Some code => ret (Json code false)
          | None =>
              delivery <-
                (if negb (truthy_driver (driver delivery)) then
                   delivery <- assign_to_driver now delivery (user_id request_user) ;;
                   db <- get_db ;;
                   match DriverAvailability_get db (user_id request_user) with
                   | Some availability =>
                       let availability := with_is_available false availability in
                       DriverAvailability_save availability
                         (fun s row => with_is_available (is_available s) row)
                   | None => ret tt
                   end ;;
                   ret delivery
                 else ret delivery) ;;
              delivery <- models.accept_delivery now delivery ;;
              order <- Delivery_order delivery ;;
              call_with_keywords "notify_customer_order_status"
                notify_customer_order_status_params
                [ "driver_name"; "driver_phone" ]%string ;;
              emit (NotifyCustomerOrderStatus (order_pk order) "accepted") ;;
              ret (Json 200 true)
          end
    end.

(** [delivery.order.status = 'out_for_delivery'] followed by
    [delivery.order.save(update_fields=['status'])]. *)
Definition sync_order_out_for_delivery (delivery : Delivery) : M unit :=
  order <- Delivery_order delivery ;;
  let order := with_order_status o_out_for_delivery order in
  Order_save order (fun s row => with_order_status (order_status s) row).

(** [new_status == s], where [new_status] is [request.POST.get('status')]
    ([None] when the field is absent). *)
Definition status_is (new_status : option string) (s : string) : bool :=
  match new_status with
  | Some x => String.eqb x s
  | None => false
  end.

Definition update_delivery_status (now : Z) (request_user : User) (delivery_id : Z)
  (new_status : option string) : M Reply :=
  db <- get_db ;;
  match
    find (fun d => (id d =? delivery_id) && is_user request_user (driver d))
      (deliveries db)
  with
  | None => ret Http404
  | Some delivery =>
      if status_is new_status "picked_up" then
        delivery <- mark_picked_up now delivery ;;
        sync_order_out_for_delivery delivery ;;
        ret (StatusUpdated (status delivery))
      else if status_is new_status "en_route" then
        delivery <- mark_en_route delivery ;;
        sync_order_out_for_delivery delivery ;;
        ret (StatusUpdated (status delivery))
      else if status_is new_status "delivered" then
        delivery <- mark_delivered now delivery ;;
        ret (StatusUpdated (status delivery))
      else ret (Json 400 false)
  end.

End views_driver.

(** ** The REST endpoints of [delivery/api_views.py] *)

Module api_views.
Import models assignment.
Local Open Scope monad_scope.

Inductive Reply : Type :=
| Response (status_code : Z)
| Http404.

Definition owned_by (request_user : User) (delivery_id : Z) (d : Delivery) : bool :=
  (id d =? delivery_id)
  && match driver d with
     | Some x => x =? user_id request_user
     | None => false
     end.

Definition accept_delivery (now : Z) (request_user : User) (delivery_id : Z)
  : M Reply :=
  if negb (is_driver request_user) then ret (Response 403)
  else
    db <- get_db ;;
    match find (owned_by request_user delivery_id) (deliveries db) with
    | None => ret Http404
    | Some delivery =>
        if negb (Status_eqb (status delivery) assigned) then ret (Response 400)
        else
          delivery <- models.accept_delivery now delivery ;;
          order <- Delivery_order delivery ;;
          (let order := with_order_status o_confirmed order in
           Order_save order all_columns) ;;
          ret (Response 200)
    end.

Section Reject.

Variable haversine_km : Q -> Q -> Q -> Q -> option Q.

Definition reject_delivery (now : Z) (request_user : User) (delivery_id : Z)
  : M Reply :=
  if negb (is_driver request_user) then ret (Response 403)
  else
    db <- get_db ;;
    match find (owned_by request_user delivery_id) (deliveries db) with
    | None => ret Http404
    | Some delivery =>
        if negb (Status_eqb (status delivery) assigned) then ret (Response 400)
        else
          match DriverAvailability_get db (user_id request_user) with
          | Some availability =>
              let availability := with_is_available true availability in
              DriverAvailability_save availability all_columns
          | None => ret tt
          end ;;
          reassign_delivery haversine_km now (id delivery) ;;
          ret (Response 200)
    end.

End Reject.

(** [new_status in ['picked_up', 'en_route', 'delivered']], where
    [new_status] is [request.data.get('status')]. *)
Definition allowed_status (new_status : option string) : bool :=
  views_driver.status_is new_status "picked_up"
  || views_driver.status_is new_status "en_route"
  || views_driver.status_is new_status "delivered".

Definition update_delivery_status (now : Z) (request_user : User) (delivery_id : Z)
  (new_status : option string) : M Reply :=
  if negb (is_driver request_user) then ret (Response 403)
  else
    db <- get_db ;;
    match find (owned_by request_user delivery_id) (deliveries db) with
    | None => ret Http404
    | Some delivery =>
        if negb (allowed_status new_status) then ret (Response 400)
        else
          (if views_driver.status_is new_status "picked_up" then
             delivery <- mark_picked_up now delivery ;;
             views_driver.sync_order_out_for_delivery delivery
           else if views_driver.status_is new_status "en_route" then
             delivery <- mark_en_route delivery ;;
             views_driver.sync_order_out_for_delivery delivery
           else if views_driver.status_is new_status "delivered" then
             mark_delivered now delivery ;;
             db <- get_db ;;
             match DriverAvailability_get db (user_id request_user) with
             | Some availability =>
                 let availability := with_is_available true availability in
                 availability <- increment_deliveries availability true ;;
                 DriverAvailability_save availability all_columns
             | None => ret tt
             end
           else ret tt) ;;
          ret (Response 200)
    end.

End api_views.

(** ** Sample data *)

Module scenario.
Import models assignment.

(** A stand-in for the Haversine value in concrete runs: about 111 km per
    degree along each axis, and a failure of the arithmetic for the point
    opposite on the globe. *)
Definition antipodal (lat1 lon1 lat2 lon2 : Q) : bool :=
  Qeq_bool (lat1 + lat2) 0 && Qeq_bool (Qabs (lon2 - lon1)) 180.

Definition grid_km (lat1 lon1 lat2 lon2 : Q) : option Q :=
  if antipodal lat1 lon1 lat2 lon2 then None
  else Some (111 * (Qabs (lat2 - lat1) + Qabs (lon2 - lon1)))%Q.

(** A stand-in for the column [distance_km] in concrete runs: the nearest
    hundredth. *)
Definition two_places (x : Q) : Q :=
  Qfloor (x * 100 + (1 # 2)) # 100.

Definition driver_user (pk : Z) : User :=
  {| user_id := pk; is_driver := true; is_verified_driver := true; is_active := true |}.

Definition availability_row (pk : Z) (available online : bool)
  (lat lon : option Q) (rating : Q) : DriverAvailability :=
  {| av_driver := pk; is_available := available; is_online := online;
     current_latitude := lat; current_longitude := lon;
     total_deliveries := 0; successful_deliveries := 0; cancelled_deliveries := 0;
     average_rating := rating |}.

(** Order 1 of a restaurant at (6.5244, 3.3792). *)
Definition order1 : Order :=
  {| order_pk := 1;
     restaurant := {| latitude := Some (65244 # 10000); longitude := Some (33792 # 10000) |};
     order_delivery_latitude := Some (66 # 10);
     order_delivery_longitude := Some (34 # 10);
     order_status := o_pending; delivered_at := None |}.

Definition delivery_row (pk oid : Z) (drv : option Z) (st : Status)
  (at_ : option Z) : Delivery :=
  with_assigned_at at_
    (with_route (Some (65244 # 10000)) (Some (33792 # 10000)) None None None
       (with_status st (with_driver drv (new_delivery pk oid)))).

(** Driver 7, online and available, rated 4.5, location unknown. *)
Definition driver7 : DriverAvailability :=
  availability_row 7 true true None None (45 # 10).

(** A confirmed order, no delivery yet, one driver online. *)
Definition db_fresh : DB :=
  {| orders := [order1]; users := [driver_user 7]; deliveries := [];
     availabilities := [driver7] |}.

(** The same order with nobody online. *)
Definition db_nobody : DB :=
  {| orders := [order1]; users := [driver_user 7]; deliveries := [];
     availabilities := [availability_row 7 false false None None (45 # 10)] |}.

(** Order 1 assigned to driver 7 at time 0; the driver has since gone
    offline. *)
Definition db_assigned_offline : DB :=
  {| orders := [order1]; users := [driver_user 7];
     deliveries := [delivery_row 1 1 (Some 7) assigned (Some 0)];
     availabilities := [availability_row 7 false false None None (45 # 10)] |}.

(** Order 1 assigned to driver 7 at time 0; the driver is online and
    flagged busy. *)
Definition db_assigned_busy : DB :=
  {| orders := [order1]; users := [driver_user 7];
     deliveries := [delivery_row 1 1 (Some 7) assigned (Some 0)];
     availabilities := [availability_row 7 false true None None (45 # 10)] |}.

(** Order 1 assigned to driver 7 at time 0; the driver is online and
    available. *)
Definition db_assigned : DB :=
  {| orders := [order1]; users := [driver_user 7];
     deliveries := [delivery_row 1 1 (Some 7) assigned (Some 0)];
     availabilities := [driver7] |}.

(** A delivery of order 1 still pending, without a driver. *)
Definition db_pending : DB :=
  {| orders := [order1]; users := [driver_user 7];
     deliveries := [delivery_row 1 1 None pending None];
     availabilities := [driver7] |}.

(** Two located drivers: driver 8 rated 4.8 at about 3 km, driver 9 rated
    4.2 at about 1 km; and driver 10 on the equator, far away. *)
Definition db_two_rated : DB :=
  {| orders := [order1];
     users := [driver_user 8; driver_user 9; driver_user 10];
     deliveries := [];
     availabilities :=
       [ availability_row 9 true true (Some (65334 # 10000)) (Some (33792 # 10000)) (42 # 10);
         availability_row 8 true true (Some (65514 # 10000)) (Some (33792 # 10000)) (48 # 10);
         availability_row 10 true true (Some 0%Q) (Some (33792 # 10000)) (30 # 10) ] |}.

(** The same three drivers and driver 11, whose stored position is the point
    opposite the restaurant of order 1. *)
Definition db_antipode : DB :=
  {| orders := [order1];
     users := [driver_user 8; driver_user 9; driver_user 10; driver_user 11];
     deliveries := [];
     availabilities :=
       availabilities db_two_rated
       ++ [ availability_row 11 true true (Some (- (65244 # 10000))%Q)
              (Some (- (1766208 # 10000))%Q) (50 # 10) ] |}.

(** A broker that refuses the submission, a host that cannot start a
    thread, and a fallback that completes. *)
Definition broker_down (_ : Z) : outcome Z :=
  Raise (OperationalError "Error 111 connecting to localhost:6379. Connection refused.").

Definition no_thread (_ : Z) : outcome unit :=
  Raise (RuntimeError "can't start new thread").

Definition fallback_completes (_ : Z) : outcome bool := Return true.

(** Order 2 of a restaurant on the equator (latitude 0), with driver 7
    online. *)
Definition order2 : Order :=
  {| order_pk := 2;
     restaurant := {| latitude := Some 0%Q; longitude := Some (33792 # 10000) |};
     order_delivery_latitude := None; order_delivery_longitude := None;
     order_status := o_pending; delivered_at := None |}.

Definition db_equator : DB :=
  {| orders := [order2]; users := [driver_user 7]; deliveries := [];
     availabilities := [driver7] |}.

(** Order 1 accepted by driver 7, who therefore is flagged busy; the driver
    has 4 deliveries on record, 3 of them successful. *)
Definition driver7_busy : DriverAvailability :=
  {| av_driver := 7; is_available := false; is_online := true;
     current_latitude := None; current_longitude := None;
     total_deliveries := 4; successful_deliveries := 3; cancelled_deliveries := 1;
     average_rating := 45 # 10 |}.

Definition db_accepted : DB :=
  {| orders := [order1]; users := [driver_user 7];
     deliveries := [delivery_row 1 1 (Some 7) accepted (Some 0)];
     availabilities := [driver7_busy] |}.

End scenario.

(** * Properties *)

Import models assignment services tasks views task_helper.

(** ** Vocabulary of the statements *)

(** Lexicographic order on the sort key [(-rating, distance)]: [x] may
    stand before [y] in an ascending list. *)
Definition key_le (x y : Candidate) : Prop :=
  (- average_rating (c_availability x) < - average_rating (c_availability y))%Q \/
  ((- average_rating (c_availability x) == - average_rating (c_availability y))%Q /\
   (c_distance x <= c_distance y)%Q).

(** The same in terms of the comparison the sort performs: [y < x] is
    false. *)
Definition ordered_by_lt (x y : Candidate) : Prop :=
  tuple_lt (sort_key y) (sort_key x) = false.

(** A row of [DriverAvailability] that passes both filters of
    [find_available_drivers]: online, verified and active, and either
    flagged available or without an active delivery. *)
Definition qualifies (db : DB) (a : DriverAvailability) : Prop :=
  In a (availabilities db) /\
  is_online a = true /\
  (exists u, User_get db (av_driver a) = Some u /\
             is_verified_driver u = true /\ is_active u = true) /\
  (is_available a = true \/ active_delivery_count db (av_driver a) = 0%nat).

(** The entry made for a driver without a usable location. *)
Definition synthetic (radius_km : Q) (a : DriverAvailability) : Candidate :=
  {| c_driver := av_driver a; c_availability := a;
     c_distance := (radius_km * (8 # 10))%Q |}.

Definition located (a : DriverAvailability) : bool :=
  truthy (current_latitude a) && truthy (current_longitude a).

(** What [mark_delivered] writes to the row of a delivery. *)
Definition delivered_row (now : Z) (row : Delivery) : Delivery :=
  with_actual_delivery_time (Some now) (with_status delivered row).

(** The database after the release step of [reassign_delivery] for a
    delivery whose driver is [p]. *)
Definition released (db : DB) (p : option Z) : DB :=
  match p with
  | Some drv =>
      match DriverAvailability_get db drv with
      | Some a => update_availability drv (all_columns (with_is_available true a)) db
      | None => db
      end
  | None => db
  end.

(** The timeout in force, in seconds, for a given value of the setting
    [DELIVERY_ASSIGNMENT_TIMEOUT]. *)
Definition timeout_seconds (setting : option Z) : Z :=
  match setting with Some t => t | None => 300 end.

(** The delivery is still [assigned] and the timeout has run out. *)
Definition timed_out (setting : option Z) (now : Z) (delivery : Delivery) : Prop :=
  status delivery = assigned /\
  exists t, assigned_at delivery = Some t /\
            (inject_Z (timeout_seconds setting) <= total_seconds (now - t))%Q.

(** The Haversine value for a row whose two coordinates are set, when the
    arithmetic goes through. *)
Definition distance_of (haversine_km : Q -> Q -> Q -> Q -> option Q) (lat lon : Q)
  (a : DriverAvailability) : option Q :=
  match current_latitude a, current_longitude a with
  | Some la, Some lo => haversine_km lat lon la lo
  | _, _ => None
  end.

Definition located_distance (haversine_km : Q -> Q -> Q -> Q -> option Q) (lat lon : Q)
  (a : DriverAvailability) : Q :=
  match distance_of haversine_km lat lon a with
  | Some distance => distance
  | None => 0%Q
  end.

(** The Haversine arithmetic goes through for every row of [l] that has a
    usable location. *)
Definition distances_defined (haversine_km : Q -> Q -> Q -> Q -> option Q)
  (lat lon : Q) (l : list DriverAvailability) : bool :=
  forallb
    (fun a =>
       negb (located a)
       || match distance_of haversine_km lat lon a with
          | Some _ => true
          | None => false
          end)
    l.

(** The entry made for a driver with a usable location. *)
Definition located_entry (haversine_km : Q -> Q -> Q -> Q -> option Q) (lat lon : Q)
  (a : DriverAvailability) : Candidate :=
  {| c_driver := av_driver a; c_availability := a;
     c_distance := located_distance haversine_km lat lon a |}.

(** The delivery that [assign_delivery_to_driver] writes for an order, from
    the row [d] it starts with and the first candidate. *)
Definition assigned_row (now : Z) (order : Order) (best : Candidate) (d : Delivery)
  : Delivery :=
  with_assigned_at (Some now)
    (with_route (latitude (restaurant order)) (longitude (restaurant order))
       (order_delivery_latitude order) (order_delivery_longitude order)
       (Some (c_distance best))
       (with_status assigned (with_driver (Some (c_driver best)) d))).

(** The counters of a driver add up: every delivery on record is either
    successful or cancelled. *)
Definition counts_consistent (a : DriverAvailability) : Prop :=
  total_deliveries a = successful_deliveries a + cancelled_deliveries a.

(** The row of a driver after [mark_delivered] has counted a delivery. *)
Definition counted_row (a : DriverAvailability) : DriverAvailability :=
  with_counters (total_deliveries a + 1) (successful_deliveries a + 1)
    (cancelled_deliveries a)
    (if is_online a then with_is_available true a else a).

(** Unfolding of the monadic definitions. *)
Ltac run :=
  unfold process_delivery_assignment, assign_delivery_to_driver, reassign_delivery,
    check_assignment_timeout, _mark_for_manual_assignment,
    _send_assignment_notifications, notify_driver_new_delivery,
    models.catch, models.bind, models.ret, models.raise, models.get_db,
    models.put_db, models.emit, models.lift, Delivery_save,
    DriverAvailability_save, Order_save;
  simpl.

Ltac run_model :=
  unfold mark_delivered, accept_delivery, mark_picked_up, mark_en_route,
    assign_to_driver, Delivery_order, Order_mark_as_delivered,
    increment_deliveries, reject_delivery,
    models.catch, models.bind, models.ret, models.raise, models.get_db,
    models.put_db, models.emit, models.lift, Delivery_save,
    DriverAvailability_save, Order_save;
  simpl.

Ltac run_service :=
  unfold process_delivery_assignment, models.catch, models.bind, models.get_db,
    models.ret.

(** ** The order of the sort key *)

Lemma Qlt_bool_iff (a b : Q) : Qlt_bool a b = true <-> (a < b)%Q.
Proof.
  unfold Qlt_bool. rewrite negb_true_iff. split; intro H.
  - apply Qnot_le_lt. intro Hle. apply Qle_bool_iff in Hle. congruence.
  - destruct (Qle_bool b a) eqn:E; trivial.
    apply Qle_bool_iff in E. exfalso. exact (Qlt_not_le _ _ H E).
Qed.

Lemma Qlt_bool_false_iff (a b : Q) : Qlt_bool a b = false <-> (b <= a)%Q.
Proof.
  unfold Qlt_bool. rewrite negb_false_iff. apply Qle_bool_iff.
Qed.

Lemma tuple_lt_false_iff (k1 k2 : Q * Q) :
  tuple_lt k1 k2 = false <->
  (fst k2 < fst k1 \/ (fst k1 == fst k2 /\ snd k2 <= snd k1))%Q.
Proof.
  unfold tuple_lt. destruct (Qeq_bool (fst k1) (fst k2)) eqn:E.
  - apply Qeq_bool_iff in E. rewrite Qlt_bool_false_iff. split.
    + intro H. right. split; assumption.
    + intros [H | [_ H]]; trivial.
      rewrite E in H. exfalso. exact (Qlt_irrefl _ H).
  - apply Qeq_bool_neq in E. rewrite Qlt_bool_false_iff. split.
    + intro H. left. apply Qle_lt_or_eq in H. destruct H as [H | H]; trivial.
      exfalso. apply E. symmetry. exact H.
    + intros [H | [H _]].
      * apply Qlt_le_weak. exact H.
      * contradiction.
Qed.

Lemma ordered_by_lt_key_le (x y : Candidate) : ordered_by_lt x y <-> key_le x y.
Proof.
  unfold ordered_by_lt, key_le. rewrite tuple_lt_false_iff. simpl.
  split; (intros [H | [E L]]; [left; exact H | right; split; [symmetry; exact E | exact L]]).
Qed.

Lemma StronglySorted_weaken {A : Type} (R R' : A -> A -> Prop) (l : list A) :
  (forall x y, R x y -> R' x y) -> StronglySorted R l -> StronglySorted R' l.
Proof.
  intros HR. induction 1 as [| x l Hs IH Hx]; constructor; [exact IH |].
  eapply Forall_impl; [| exact Hx]. intros y Hy. apply HR. exact Hy.
Qed.

Lemma ordered_by_lt_trans (x y z : Candidate) : ordered_by_lt x y -> ordered_by_lt y z -> ordered_by_lt x z.
Proof.
  unfold ordered_by_lt. rewrite !tuple_lt_false_iff.
  intros [H1 | [E1 L1]] [H2 | [E2 L2]].
  - left. eapply Qlt_trans; eassumption.
  - left. rewrite E2. exact H1.
  - left. rewrite <- E1. exact H2.
  - right. split.
    + rewrite E2. exact E1.
    + eapply Qle_trans; eassumption.
Qed.

Lemma ordered_by_lt_total (x y : Candidate) :
  tuple_lt (sort_key y) (sort_key x) = true -> ordered_by_lt y x.
Proof.
  unfold ordered_by_lt. intro H.
  destruct (tuple_lt (sort_key x) (sort_key y)) eqn:E; trivial.
  exfalso. revert H E. unfold tuple_lt.
  rewrite (Qeq_bool_comm (fst (sort_key x)) (fst (sort_key y))).
  destruct (Qeq_bool (fst (sort_key y)) (fst (sort_key x)));
    rewrite !Qlt_bool_iff; intros A B; exact (Qlt_irrefl _ (Qlt_trans _ _ _ A B)).
Qed.

Lemma insert_by_key_Forall (P : Candidate -> Prop) (x : Candidate) (l : list Candidate) :
  P x -> Forall P l -> Forall P (insert_by_key x l).
Proof.
  intros Hx Hl. induction Hl as [| y l' Hy Hl' IH]; simpl.
  - constructor; [assumption | constructor].
  - destruct (tuple_lt (sort_key y) (sort_key x)); repeat constructor; assumption.
Qed.

Lemma insert_by_key_sorted (x : Candidate) (l : list Candidate) :
  StronglySorted ordered_by_lt l -> StronglySorted ordered_by_lt (insert_by_key x l).
Proof.
  induction 1 as [| y l' Hs IH Hy]; simpl.
  - constructor; constructor.
  - destruct (tuple_lt (sort_key y) (sort_key x)) eqn:E.
    + constructor; [exact IH |].
      apply insert_by_key_Forall; [| exact Hy].
      apply ordered_by_lt_total. exact E.
    + constructor; [constructor; assumption |].
      constructor; [exact E |].
      eapply Forall_impl; [| exact Hy].
      intros z Hz. eapply ordered_by_lt_trans; [exact E | exact Hz].
Qed.

Lemma sort_by_key_sorted (l : list Candidate) : StronglySorted ordered_by_lt (sort_by_key l).
Proof.
  induction l as [| x l IH]; simpl.
  - constructor.
  - apply insert_by_key_sorted. exact IH.
Qed.

Lemma insert_by_key_perm (x : Candidate) (l : list Candidate) :
  Permutation (x :: l) (insert_by_key x l).
Proof.
  induction l as [| y l IH]; simpl.
  - apply Permutation_refl.
  - destruct (tuple_lt (sort_key y) (sort_key x)).
    + eapply perm_trans; [apply perm_swap |]. apply perm_skip. exact IH.
    + apply Permutation_refl.
Qed.

Lemma sort_by_key_perm (l : list Candidate) : Permutation l (sort_by_key l).
Proof.
  induction l as [| x l IH]; simpl.
  - apply perm_nil.
  - eapply perm_trans; [apply perm_skip; exact IH |]. apply insert_by_key_perm.
Qed.

(** In a list sorted by the key, an entry never comes after one of lower
    rating. *)
Lemma sorted_rating_order (l : list Candidate) :
  StronglySorted ordered_by_lt l ->
  forall (i j : nat) (a b : Candidate),
    nth_error l i = Some a -> nth_error l j = Some b ->
    (average_rating (c_availability b) < average_rating (c_availability a))%Q ->
    (i < j)%nat.
Proof.
  induction 1 as [| x l Hs IH Hx]; intros i j a b Hi Hj Hr.
  - destruct i; discriminate.
  - destruct i as [| i], j as [| j]; simpl in Hi, Hj.
    + exfalso. assert (a = b) by congruence. subst. exact (Qlt_irrefl _ Hr).
    + lia.
    + exfalso. injection Hj as ->. apply nth_error_In in Hi.
      rewrite Forall_forall in Hx. specialize (Hx a Hi).
      unfold ordered_by_lt in Hx. apply tuple_lt_false_iff in Hx. simpl in Hx.
      destruct Hx as [H | [H _]].
      * apply Qopp_lt_compat in Hr. exact (Qlt_irrefl _ (Qlt_trans _ _ _ Hr H)).
      * apply Qopp_lt_compat in Hr. rewrite H in Hr. exact (Qlt_irrefl _ Hr).
    + apply -> Nat.succ_lt_mono. eapply IH; eassumption.
Qed.

(** ** The candidate list *)

Lemma qualifies_truly_available (db : DB) (a : DriverAvailability) :
  qualifies db a <-> In a (truly_available db).
Proof.
  unfold qualifies, truly_available, online_verified_active.
  rewrite !filter_In, !andb_true_iff, orb_true_iff, Nat.eqb_eq. split.
  - intros (Hin & Hon & (u & Hu & Hv & Ha) & Hav).
    rewrite Hu, Hv, Ha. auto.
  - intros ((Hin & Hon & Hu) & Hav).
    destruct (User_get db (av_driver a)) as [u |] eqn:E; [| discriminate].
    apply andb_true_iff in Hu. destruct Hu as [Hv Ha].
    repeat split; trivial. exists u. auto.
Qed.

Section CandidateFacts.

Variable haversine_km : Q -> Q -> Q -> Q -> option Q.

Lemma located_coordinates (a : DriverAvailability) :
  located a = true ->
  exists la lo, current_latitude a = Some la /\ current_longitude a = Some lo.
Proof.
  unfold located, truthy. intro H. apply andb_true_iff in H. destruct H as [H1 H2].
  destruct (current_latitude a) as [la |]; [| discriminate].
  destruct (current_longitude a) as [lo |]; [| discriminate].
  exists la, lo. split; reflexivity.
Qed.

Lemma calculate_distance_located (lat lon : Q) (a : DriverAvailability) :
  located a = true ->
  calculate_distance haversine_km (Some lat) (Some lon)
    (current_latitude a) (current_longitude a)
  = match distance_of haversine_km lat lon a with
    | Some distance => Return distance
    | None => Raise (ValueError "math domain error")
    end.
Proof.
  intro H. destruct (located_coordinates a H) as (la & lo & Hla & Hlo).
  unfold distance_of. rewrite Hla, Hlo. reflexivity.
Qed.

(** With pickup coordinates given, the loop completes exactly when the
    Haversine arithmetic goes through for every located row; otherwise the
    [ValueError] of [math.sqrt] leaves the loop. *)
Lemma nearby_loop_outcome (lat lon radius_km : Q) (l : list DriverAvailability) :
  if distances_defined haversine_km lat lon l
  then exists c, nearby_loop haversine_km (Some lat) (Some lon) radius_km l = Return c
  else nearby_loop haversine_km (Some lat) (Some lon) radius_km l
       = Raise (ValueError "math domain error").
Proof.
  induction l as [| a l IH]; simpl.
  - eexists. reflexivity.
  - fold (located a). destruct (located a) eqn:Ea; simpl.
    + rewrite (calculate_distance_located lat lon a Ea).
      destruct (distance_of haversine_km lat lon a) as [distance |]; simpl;
        [| reflexivity].
      destruct (distances_defined haversine_km lat lon l).
      * destruct IH as [c IH]. rewrite IH.
        destruct (Qle_bool distance radius_km); eexists; reflexivity.
      * rewrite IH. reflexivity.
    + destruct (distances_defined haversine_km lat lon l).
      * destruct IH as [c IH]. rewrite IH. eexists. reflexivity.
      * rewrite IH. reflexivity.
Qed.

Lemma find_available_drivers_outcome (db : DB) (lat lon radius_km : Q) :
  if distances_defined haversine_km lat lon (truly_available db)
  then exists l, find_available_drivers haversine_km db (Some lat) (Some lon) radius_km
                 = Return l
  else find_available_drivers haversine_km db (Some lat) (Some lon) radius_km
       = Raise (ValueError "math domain error").
Proof.
  unfold find_available_drivers.
  pose proof (nearby_loop_outcome lat lon radius_km (truly_available db)) as Ho.
  destruct (distances_defined haversine_km lat lon (truly_available db)).
  - destruct Ho as [c Hc]. rewrite Hc. eexists. reflexivity.
  - rewrite Ho. reflexivity.
Qed.

Lemma find_available_drivers_returns (db : DB) (lat lon radius_km : Q) :
  distances_defined haversine_km lat lon (truly_available db) = true ->
  exists l, find_available_drivers haversine_km db (Some lat) (Some lon) radius_km
            = Return l.
Proof.
  intro H. pose proof (find_available_drivers_outcome db lat lon radius_km) as Ho.
  rewrite H in Ho. exact Ho.
Qed.

(** A located row whose distance cannot be computed stops the loop. *)
Lemma distances_defined_false (lat lon : Q) (l : list DriverAvailability)
  (a : DriverAvailability) :
  In a l -> located a = true -> distance_of haversine_km lat lon a = None ->
  distances_defined haversine_km lat lon l = false.
Proof.
  intros Hin Hloc Hnone. unfold distances_defined.
  destruct (forallb _ l) eqn:E; [| reflexivity].
  rewrite forallb_forall in E. specialize (E a Hin).
  rewrite Hloc, Hnone in E. discriminate.
Qed.

(** When the loop completes, the distance of every located row of its
    input was computed. *)
Lemma nearby_loop_distance_of (lat lon radius_km : Q) (l : list DriverAvailability)
  (c : list Candidate) (a : DriverAvailability) :
  nearby_loop haversine_km (Some lat) (Some lon) radius_km l = Return c ->
  In a l -> located a = true ->
  exists distance, distance_of haversine_km lat lon a = Some distance.
Proof.
  intros Hc Hin Hloc.
  destruct (distance_of haversine_km lat lon a) as [distance |] eqn:E;
    [exists distance; reflexivity |].
  pose proof (nearby_loop_outcome lat lon radius_km l) as Ho.
  rewrite (distances_defined_false lat lon l a Hin Hloc E) in Ho.
  rewrite Ho in Hc. discriminate.
Qed.

(** A row without a usable location enters the list with the synthetic
    distance, whenever the loop completes. *)
Lemma nearby_loop_unlocated (rlat rlon : option Q) (radius_km : Q)
  (l : list DriverAvailability) (c : list Candidate) (a : DriverAvailability) :
  nearby_loop haversine_km rlat rlon radius_km l = Return c ->
  In a l -> located a = false -> In (synthetic radius_km a) c.
Proof.
  revert c. induction l as [| b l IH]; intros c Hc Hin Hloc; [contradiction |].
  simpl in Hc. fold (located b) in Hc.
  destruct Hin as [-> | Hin].
  - rewrite Hloc in Hc.
    destruct (nearby_loop haversine_km rlat rlon radius_km l); [| discriminate].
    injection Hc as <-. left. reflexivity.
  - destruct (located b).
    + destruct (calculate_distance _ _ _ _ _); [| discriminate].
      destruct (nearby_loop haversine_km rlat rlon radius_km l) as [tl |];
        [| discriminate].
      specialize (IH tl eq_refl Hin Hloc).
      destruct (Qle_bool _ _); injection Hc as <-; [right |]; exact IH.
    + destruct (nearby_loop haversine_km rlat rlon radius_km l) as [tl |];
        [| discriminate].
      injection Hc as <-. right. exact (IH tl eq_refl Hin Hloc).
Qed.

(** Every entry made for such a row carries the synthetic distance. *)
Lemma nearby_loop_unlocated_only (rlat rlon : option Q) (radius_km : Q)
  (l : list DriverAvailability) (c : list Candidate) (x : Candidate) :
  nearby_loop haversine_km rlat rlon radius_km l = Return c ->
  In x c -> located (c_availability x) = false ->
  x = synthetic radius_km (c_availability x).
Proof.
  revert c. induction l as [| b l IH]; intros c Hc Hin Hloc; simpl in Hc.
  - injection Hc as <-. contradiction.
  - fold (located b) in Hc. destruct (located b) eqn:Eb.
    + destruct (calculate_distance _ _ _ _ _); [| discriminate].
      destruct (nearby_loop haversine_km rlat rlon radius_km l) as [tl |];
        [| discriminate].
      destruct (Qle_bool _ _); injection Hc as <-.
      * destruct Hin as [<- | Hin]; [simpl in Hloc; congruence |].
        exact (IH tl eq_refl Hin Hloc).
      * exact (IH tl eq_refl Hin Hloc).
    + destruct (nearby_loop haversine_km rlat rlon radius_km l) as [tl |];
        [| discriminate].
      injection Hc as <-. destruct Hin as [<- | Hin]; [reflexivity |].
      exact (IH tl eq_refl Hin Hloc).
Qed.

End CandidateFacts.

(** ** Idempotent assignment *)

Lemma Status_eqb_eq (a b : Status) : Status_eqb a b = true <-> a = b.
Proof.
  destruct a, b; simpl; split; intro H; try reflexivity; discriminate.
Qed.

Lemma Status_eqb_neq (a b : Status) : Status_eqb a b = false <-> a <> b.
Proof.
  rewrite <- Status_eqb_eq. destruct (Status_eqb a b); split; congruence.
Qed.

Section Idempotence.

Variable haversine_km : Q -> Q -> Q -> Q -> option Q.
Variable distance_column : Q -> Q.

(** C1 (as amended).  When the order's delivery already has a driver and a
    status other than [pending], [process_delivery_assignment] answers
    success with the delivery's id and [already_assigned = True], without a
    [driver_id] key; [assign_delivery_to_driver] returns that same delivery.
    Neither writes to the database (so no second row is made and the stored
    driver is the same) nor sends anything. *)
Theorem assign_again_is_noop (now : Z) (oid max_retries current_retry : Z) (db : DB)
  (order : Order) (d : Delivery) (drv : Z) :
  Order_get db oid = Some order ->
  Delivery_get_by_order db oid = Some d ->
  driver d = Some drv ->
  status d <> pending ->
  process_delivery_assignment haversine_km distance_column
      now oid max_retries current_retry db
  = (Return {| success := true; error := None; retry := None;
               delivery_id := Some (id d); driver_id := None;
               already_assigned := Some true |}, db, [])
  /\ assign_delivery_to_driver haversine_km distance_column
      now oid db = (Return (Some d), db, []).
Proof.
  intros Ho Hd Hdrv Hst. apply Status_eqb_neq in Hst. split.
  - run. rewrite Ho, Hd, Hdrv, Hst. reflexivity.
  - run. rewrite Ho, Hd, Hdrv. reflexivity.
Qed.

End Idempotence.

(** A run of the theorem: order 1 already assigned to driver 7. *)
Lemma assign_again_is_noop_witness :
  process_delivery_assignment scenario.grid_km scenario.two_places
      2000 1 3 0 scenario.db_assigned
  = (Return {| success := true; error := None; retry := None;
               delivery_id := Some 1; driver_id := None;
               already_assigned := Some true |}, scenario.db_assigned, [])
  /\ assign_delivery_to_driver scenario.grid_km scenario.two_places
      2000 1 scenario.db_assigned
     = (Return (Some (scenario.delivery_row 1 1 (Some 7) assigned (Some 0))),
        scenario.db_assigned, []).
Proof.
  apply (assign_again_is_noop scenario.grid_km scenario.two_places
      2000 1 3 0 scenario.db_assigned
           scenario.order1 (scenario.delivery_row 1 1 (Some 7) assigned (Some 0)) 7).
  - reflexivity.
  - reflexivity.
  - reflexivity.
  - discriminate.
Defined.

(** C1 (as stated) fails: the first call assigns driver 7 and answers with
    [driver_id = 7]; the second call, on the state the first one left,
    answers success for the same delivery but carries no [driver_id]. *)
Lemma assign_twice_driver_id_differs :
  exists r1 db1 ev1 r2 db2 ev2 d,
    process_delivery_assignment scenario.grid_km scenario.two_places
        1000 1 3 0 scenario.db_fresh
      = (Return r1, db1, ev1) /\
    process_delivery_assignment scenario.grid_km scenario.two_places 2000 1 3 0 db1
      = (Return r2, db2, ev2) /\
    Delivery_get_by_order db1 1 = Some d /\ driver d = Some 7 /\ status d = assigned /\
    success r1 = true /\ success r2 = true /\
    delivery_id r1 = Some 1 /\ delivery_id r2 = Some 1 /\
    driver_id r1 = Some 7 /\ driver_id r2 = None /\
    driver_id r2 <> driver_id r1.
Proof.
  do 7 eexists. split; [vm_compute; reflexivity |]. split; [vm_compute; reflexivity |].
  split; [vm_compute; reflexivity |].
  repeat split; try reflexivity. discriminate.
Qed.

(** ** Status transitions *)

(** C2 (as amended).  The transition methods of [Delivery] do not look at
    the current status and nothing is rejected: whatever the status of
    [self], [mark_delivered] (given the delivery's order exists) returns
    normally with status [delivered] and [actual_delivery_time = now], the
    other columns of the delivery as they were, and writes exactly these two
    columns to the delivery's row; [accept_delivery], [mark_picked_up],
    [mark_en_route] and [assign_to_driver] likewise return normally with
    their target status. *)
Theorem transitions_are_unchecked (now : Z) (self : Delivery) (db : DB) :
  (forall order : Order,
      Order_get db (order_id self) = Some order ->
      exists db' ev,
        mark_delivered now self db = (Return (delivered_row now self), db', ev) /\
        deliveries db' = deliveries (update_delivery (id self) (delivered_row now) db)) /\
  fst (fst (accept_delivery now self db))
    = Return (with_accepted_at (Some now) (with_status accepted self)) /\
  fst (fst (mark_picked_up now self db))
    = Return (with_actual_pickup_time (Some now) (with_status picked_up self)) /\
  fst (fst (mark_en_route self db)) = Return (with_status en_route self) /\
  (forall drv : Z,
      fst (fst (assign_to_driver now self drv db))
      = Return (with_assigned_at (Some now)
                  (with_status assigned (with_driver (Some drv) self)))).
Proof.
  split; [| repeat split].
  - intros order Ho. run_model. unfold Order_get in *. simpl. rewrite Ho. simpl.
    destruct (driver self) as [drv |]; simpl.
    + unfold DriverAvailability_get; simpl.
      destruct (find _ (availabilities db)) as [a |]; simpl.
      * destruct (is_online a); simpl; do 2 eexists; split; reflexivity.
      * do 2 eexists; split; reflexivity.
    + do 2 eexists; split; reflexivity.
  - run_model. destruct (driver self) as [drv |]; simpl; [| reflexivity].
    unfold DriverAvailability_get; simpl.
    destruct (find _ (availabilities db)); reflexivity.
Qed.

(** A run of the theorem: the pending delivery of order 1. *)
Lemma transitions_are_unchecked_witness :
  exists db' ev,
    mark_delivered 5000 (scenario.delivery_row 1 1 None pending None) scenario.db_pending
      = (Return (delivered_row 5000 (scenario.delivery_row 1 1 None pending None)),
         db', ev) /\
    deliveries db'
      = deliveries (update_delivery 1 (delivered_row 5000) scenario.db_pending).
Proof.
  exact (proj1 (transitions_are_unchecked 5000
                  (scenario.delivery_row 1 1 None pending None) scenario.db_pending)
           scenario.order1 eq_refl).
Defined.

(** C2 (as stated) fails: [mark_delivered] on a delivery that is still
    [pending] raises nothing; it returns the delivery as [delivered] and
    the stored row changes from [pending] to [delivered]. *)
Lemma mark_delivered_from_pending_is_accepted :
  exists self' db' ev row,
    status (scenario.delivery_row 1 1 None pending None) = pending /\
    mark_delivered 5000 (scenario.delivery_row 1 1 None pending None) scenario.db_pending
      = (Return self', db', ev) /\
    status self' = delivered /\
    Delivery_get db' 1 = Some row /\ status row = delivered /\
    actual_delivery_time row = Some 5000.
Proof.
  do 4 eexists. split; [reflexivity |]. split; [vm_compute; reflexivity |].
  split; [reflexivity |]. split; [vm_compute; reflexivity |]. split; reflexivity.
Qed.

(** ** Reading a row back after an update *)

Lemma find_map_key {A : Type} (key : A -> Z) (k : Z) (g : A -> A) (l : list A) :
  (forall x, key (g x) = key x) ->
  find (fun x => key x =? k) (map g l) = option_map g (find (fun x => key x =? k) l).
Proof.
  intro Hg. induction l as [| x l IH]; simpl; [reflexivity |].
  rewrite Hg. destruct (key x =? k); [reflexivity | exact IH].
Qed.

Lemma DriverAvailability_get_update (db : DB) (drv k : Z)
  (f : DriverAvailability -> DriverAvailability) :
  (forall row, av_driver row = drv -> av_driver (f row) = drv) ->
  DriverAvailability_get (update_availability drv f db) k
  = option_map (fun row => if av_driver row =? drv then f row else row)
      (DriverAvailability_get db k).
Proof.
  intro Hf. unfold DriverAvailability_get, update_availability. simpl.
  apply (find_map_key av_driver). intro x.
  destruct (av_driver x =? drv) eqn:E; [| reflexivity].
  apply Z.eqb_eq in E. rewrite (Hf x E). symmetry. exact E.
Qed.

Lemma DriverAvailability_get_key (db : DB) (k : Z) (a : DriverAvailability) :
  DriverAvailability_get db k = Some a -> av_driver a = k.
Proof.
  unfold DriverAvailability_get. intro H. apply find_some in H.
  apply Z.eqb_eq. exact (proj2 H).
Qed.

Lemma released_get (db : DB) (p n : Z) :
  DriverAvailability_get (released db (Some p)) n
  = if n =? p then option_map (with_is_available true) (DriverAvailability_get db n)
    else DriverAvailability_get db n.
Proof.
  simpl. destruct (DriverAvailability_get db p) as [a |] eqn:Ea.
  - pose proof (DriverAvailability_get_key _ _ _ Ea) as Ka.
    rewrite DriverAvailability_get_update by (intros; exact Ka).
    destruct (DriverAvailability_get db n) as [b |] eqn:Eb; simpl.
    + pose proof (DriverAvailability_get_key _ _ _ Eb) as Kb. rewrite Kb.
      destruct (n =? p) eqn:E; [| reflexivity].
      apply Z.eqb_eq in E. subst n. unfold all_columns. congruence.
    + destruct (n =? p); reflexivity.
  - destruct (n =? p) eqn:E; [| reflexivity].
    apply Z.eqb_eq in E. subst n. rewrite Ea. reflexivity.
Qed.

Section ReassignFacts.

Variable haversine_km : Q -> Q -> Q -> Q -> option Q.
Variable distance_column : Q -> Q.

(** [assign_delivery_to_driver] writes no row of [DriverAvailability]. *)
Lemma assign_delivery_to_driver_availabilities (now oid : Z) (db : DB) :
  availabilities (snd (fst (assign_delivery_to_driver haversine_km distance_column
      now oid db)))
  = availabilities db.
Proof.
  run. destruct (Order_get db oid) as [order |]; simpl; [| reflexivity].
  destruct (Delivery_get_by_order db oid) as [d |]; simpl.
  - destruct (truthy_driver (driver d)); simpl; [reflexivity |].
    destruct (negb (truthy (latitude (restaurant order)))
              || negb (truthy (longitude (restaurant order)))); simpl; [reflexivity |].
    destruct (find_available_drivers _ _ _ _ _) as [[| best rest] | e]; reflexivity.
  - destruct (negb (truthy (latitude (restaurant order)))
              || negb (truthy (longitude (restaurant order)))); simpl; [reflexivity |].
    destruct (find_available_drivers _ _ _ _ _) as [[| best rest] | e]; reflexivity.
Qed.

(** The only row of [DriverAvailability] that [reassign_delivery] writes is
    the release of the delivery's previous driver. *)
Lemma reassign_delivery_availabilities (now did : Z) (db : DB) (delivery : Delivery) :
  Delivery_get db did = Some delivery ->
  availabilities (snd (fst (reassign_delivery haversine_km now did db)))
  = availabilities (released db (driver delivery)).
Proof.
  intro Hd. run. rewrite Hd. simpl.
  destruct (driver delivery) as [p |]; simpl.
  - destruct (DriverAvailability_get db p) as [a |] eqn:Ea; simpl.
    + rewrite (DriverAvailability_get_key _ _ _ Ea).
      destruct (find_available_drivers _ _ _ _ _) as [[| best rest] | e]; reflexivity.
    + destruct (find_available_drivers _ _ _ _ _) as [[| best rest] | e]; reflexivity.
  - destruct (find_available_drivers _ _ _ _ _) as [[| best rest] | e]; reflexivity.
Qed.

End ReassignFacts.

(** ** Restoring availability when a driver is released *)

Lemma DriverAvailability_get_update_delivery (db : DB) (pk k : Z)
  (f : Delivery -> Delivery) :
  DriverAvailability_get (update_delivery pk f db) k = DriverAvailability_get db k.
Proof. reflexivity. Qed.

Lemma DriverAvailability_get_update_order (db : DB) (pk k : Z) (f : Order -> Order) :
  DriverAvailability_get (update_order pk f db) k = DriverAvailability_get db k.
Proof. reflexivity. Qed.

Create Rewrite HintDb db_read.

#[local] Hint Rewrite DriverAvailability_get_update_delivery
  DriverAvailability_get_update_order : db_read.

(** [Delivery.mark_delivered] guards the flag: for a driver who is offline
    the row keeps its [is_available] (and stays offline). *)
Lemma mark_delivered_keeps_offline_driver (now : Z) (self : Delivery) (db : DB)
  (drv : Z) (a : DriverAvailability) :
  driver self = Some drv ->
  DriverAvailability_get db drv = Some a ->
  is_online a = false ->
  exists a',
    DriverAvailability_get (snd (fst (mark_delivered now self db))) drv = Some a' /\
    is_available a' = is_available a /\ is_online a' = false.
Proof.
  intros Hdrv Ha Hoff. pose proof (DriverAvailability_get_key _ _ _ Ha) as Ka.
  run_model. unfold Order_get. simpl.
  destruct (find _ (orders db)) as [o |]; simpl.
  - rewrite Hdrv. simpl. autorewrite with db_read. rewrite Ha, Hoff. simpl.
    rewrite DriverAvailability_get_update by (intros row Hr; exact Hr).
    autorewrite with db_read. rewrite Ha. simpl. rewrite Ka, Z.eqb_refl.
    eexists. split; [reflexivity |]. simpl. auto.
  - exists a. split; [exact Ha | auto].
Qed.

(** [reject_delivery] of [delivery/views.py] guards the flag the same way. *)
Lemma reject_delivery_keeps_offline_driver (request_user : User) (did : Z) (db : DB)
  (a : DriverAvailability) :
  DriverAvailability_get db (user_id request_user) = Some a ->
  is_online a = false ->
  DriverAvailability_get (snd (fst (reject_delivery request_user did db)))
    (user_id request_user) = Some a.
Proof.
  intros Ha Hoff. run_model.
  destruct (is_driver request_user); simpl; [| exact Ha].
  destruct (find _ (deliveries db)) as [d |]; simpl; [| exact Ha].
  autorewrite with db_read. rewrite Ha, Hoff. simpl. exact Ha.
Qed.

(** C3 (the defect).  [reassign_delivery] does not guard the flag.  Order 1
    is assigned to driver 7, who is offline and not available; reassigning
    the delivery finds nobody, leaves it pending, and has set driver 7's
    [is_available] to true although [is_online] is still false. *)
Theorem reassign_delivery_releases_offline_driver :
  exists a db' ev a',
    DriverAvailability_get scenario.db_assigned_offline 7 = Some a /\
    is_online a = false /\ is_available a = false /\
    reassign_delivery scenario.grid_km 400000000 1 scenario.db_assigned_offline
      = (Return None, db', ev) /\
    DriverAvailability_get db' 7 = Some a' /\
    is_online a' = false /\ is_available a' = true.
Proof.
  do 4 eexists. split; [reflexivity |]. split; [reflexivity |]. split; [reflexivity |].
  split; [vm_compute; reflexivity |]. split; [vm_compute; reflexivity |].
  split; reflexivity.
Qed.

(** ** Assignment and the driver's availability flag *)

Lemma DriverAvailability_get_ext (db db' : DB) (k : Z) :
  availabilities db' = availabilities db ->
  DriverAvailability_get db' k = DriverAvailability_get db k.
Proof.
  unfold DriverAvailability_get. intros ->. reflexivity.
Qed.

(** C7 (as amended).  [assign_delivery_to_driver] writes no row of
    [DriverAvailability].  [reassign_delivery] writes only the release of the
    delivery's previous driver: when it returns a delivery, the chosen
    driver's row is as before if that driver is not the previous one, and has
    [is_available = True] if it is the previous driver; the flag is never set
    to false.  [Delivery.accept_delivery] returns the delivery with status
    [accepted] and [accepted_at = now] and sets the flag of the delivery's
    driver to false. *)
Theorem assignment_does_not_claim_driver (haversine_km : Q -> Q -> Q -> Q -> option Q)
  (distance_column : Q -> Q)
  (now : Z) (db : DB) :
  (forall oid : Z,
      availabilities (snd (fst (assign_delivery_to_driver haversine_km distance_column
          now oid db)))
      = availabilities db) /\
  (forall (did : Z) (delivery new : Delivery) (n : Z) (db' : DB) (ev : list Event),
      Delivery_get db did = Some delivery ->
      reassign_delivery haversine_km now did db = (Return (Some new), db', ev) ->
      driver new = Some n ->
      DriverAvailability_get db' n
      = if match driver delivery with Some p => n =? p | None => false end
        then option_map (with_is_available true) (DriverAvailability_get db n)
        else DriverAvailability_get db n) /\
  (forall (self : Delivery) (drv : Z),
      driver self = Some drv ->
      exists db' ev,
        accept_delivery now self db
        = (Return (with_accepted_at (Some now) (with_status accepted self)), db', ev) /\
        DriverAvailability_get db' drv
        = option_map (with_is_available false) (DriverAvailability_get db drv)).
Proof.
  split; [| split].
  - intro oid. apply assign_delivery_to_driver_availabilities.
  - intros did delivery new n db' ev Hd Hr Hn.
    pose proof (reassign_delivery_availabilities haversine_km now did db delivery Hd) as Hav.
    rewrite Hr in Hav. simpl in Hav.
    rewrite (DriverAvailability_get_ext _ _ n Hav).
    destruct (driver delivery) as [p |]; [apply released_get | reflexivity].
  - intros self drv Hdrv. run_model. rewrite Hdrv. simpl.
    autorewrite with db_read.
    destruct (DriverAvailability_get db drv) as [a |] eqn:Ea; simpl.
    + do 2 eexists. split; [reflexivity |].
      rewrite DriverAvailability_get_update by (intros row Hr; exact Hr).
      autorewrite with db_read. rewrite Ea. simpl.
      rewrite (DriverAvailability_get_key _ _ _ Ea), Z.eqb_refl. reflexivity.
    + do 2 eexists. split; [reflexivity |].
      autorewrite with db_read. rewrite Ea. reflexivity.
Qed.

(** A run of the theorem: the pending delivery of order 1 is reassigned to
    driver 7, whose row is left as it was. *)
Lemma assignment_does_not_claim_driver_witness :
  DriverAvailability_get
    (snd (fst (reassign_delivery scenario.grid_km 1000 1 scenario.db_pending))) 7
  = DriverAvailability_get scenario.db_pending 7.
Proof.
  exact (proj1 (proj2 (assignment_does_not_claim_driver scenario.grid_km scenario.two_places
      1000
                         scenario.db_pending))
           1 (scenario.delivery_row 1 1 None pending None)
           (with_assigned_at (Some 1000)
              (with_status assigned
                 (with_driver (Some 7) (scenario.delivery_row 1 1 None pending None))))
           7 _ _ eq_refl eq_refl eq_refl).
Defined.

(** C7 (as stated) fails for [reassign_delivery]: order 1 is assigned to
    driver 7, online and flagged busy; reassigning the delivery releases
    driver 7 and then chooses driver 7 again, whose [is_available] has gone
    from false to true. *)
Lemma reassign_delivery_changes_chosen_driver_flag :
  exists new db' ev a a',
    reassign_delivery scenario.grid_km 400000000 1 scenario.db_assigned_busy
      = (Return (Some new), db', ev) /\
    driver new = Some 7 /\
    DriverAvailability_get scenario.db_assigned_busy 7 = Some a /\
    is_available a = false /\
    DriverAvailability_get db' 7 = Some a' /\
    is_available a' = true.
Proof.
  do 5 eexists. split; [vm_compute; reflexivity |]. split; [reflexivity |].
  split; [reflexivity |]. split; [reflexivity |].
  split; [vm_compute; reflexivity | reflexivity].
Qed.

(** ** Retry budget and the manual-assignment marker *)

Lemma find_replace {A : Type} (p : A -> bool) (key : A -> Z) (d d' : A) (l : list A) :
  find p l = Some d -> p d' = true ->
  find p (map (fun row => if key row =? key d then d' else row) l) = Some d'.
Proof.
  intros Hf Hp. induction l as [| x l IH]; simpl in *; [discriminate |].
  destruct (p x) eqn:Ex.
  - injection Hf as ->. rewrite Z.eqb_refl, Hp. reflexivity.
  - destruct (key x =? key d); [rewrite Hp; reflexivity |].
    rewrite Ex. exact (IH Hf).
Qed.

Lemma find_app_new {A : Type} (p : A -> bool) (d : A) (l : list A) :
  find p l = None -> p d = true -> find p (l ++ [d]) = Some d.
Proof.
  intros Hf Hp. induction l as [| x l IH]; simpl in *.
  - rewrite Hp. reflexivity.
  - destruct (p x); [discriminate | exact (IH Hf)].
Qed.

(** [_mark_for_manual_assignment] returns, and afterwards the order has a
    delivery that is [pending] and carries the note: the reason followed by
    [ - requires manual assignment]. *)
Lemma mark_for_manual_assignment_marks (oid : Z) (reason : string) (db : DB) :
  exists db' d,
    _mark_for_manual_assignment oid reason db = (Return tt, db', []) /\
    Delivery_get_by_order db' oid = Some d /\
    status d = pending /\
    driver_notes d = (reason ++ " - requires manual assignment")%string.
Proof.
  unfold _mark_for_manual_assignment, models.catch, models.bind, models.get_db,
    models.put_db, Delivery_save. simpl.
  destruct (Delivery_get_by_order db oid) as [d |] eqn:Ed; simpl.
  - eexists.
    exists (with_driver_notes (manual_note reason) (with_status pending d)).
    split; [reflexivity |]. split; [| split; reflexivity].
    unfold Delivery_get_by_order, update_delivery, all_columns in *. simpl.
    apply (find_replace (fun x => order_id x =? oid) id d); [exact Ed |].
    simpl. apply find_some in Ed. exact (proj2 Ed).
  - eexists.
    exists (with_driver_notes (manual_note reason)
              (with_status pending (new_delivery (next_delivery_id db) oid))).
    split; [reflexivity |]. split; [| split; reflexivity].
    unfold Delivery_get_by_order, insert_delivery in *. simpl.
    apply find_app_new; [exact Ed |]. simpl. apply Z.eqb_refl.
Qed.

(** Drivers are online but none is a candidate: [assign_delivery_to_driver]
    returns [None] and writes nothing. *)
Lemma assign_without_candidate (haversine_km : Q -> Q -> Q -> Q -> option Q)
  (distance_column : Q -> Q)
  (now oid : Z) (db : DB) (order : Order) :
  Order_get db oid = Some order ->
  (forall d, Delivery_get_by_order db oid = Some d -> driver d = None) ->
  find_available_drivers haversine_km db (latitude (restaurant order))
    (longitude (restaurant order)) (10 # 1) = Return [] ->
  assign_delivery_to_driver haversine_km distance_column now oid db = (Return None, db, []).
Proof.
  intros Ho Hd Hnone. run. rewrite Ho.
  destruct (Delivery_get_by_order db oid) as [d |]; simpl.
  - rewrite (Hd d eq_refl). simpl.
    destruct (negb _ || negb _); [reflexivity |]. rewrite Hnone. reflexivity.
  - destruct (negb _ || negb _); [reflexivity |]. rewrite Hnone. reflexivity.
Qed.

(** C6.  Let the order exist and not be assigned already.  When no driver
    is online, or when drivers are online but [assign_delivery_to_driver]
    comes back empty-handed, [process_delivery_assignment] returns a failure
    that is retryable as long as [current_retry < max_retries]; from
    [current_retry >= max_retries] on the failure is not retryable and the
    order's delivery is [pending] with the manual-assignment note in
    [driver_notes]: the text of the reason (['No drivers online'] or
    ['All drivers busy'], the same as the reply's error) followed by
    [ - requires manual assignment]. *)
Theorem retry_escalation (haversine_km : Q -> Q -> Q -> Q -> option Q)
  (distance_column : Q -> Q)
  (now oid max_retries current_retry : Z) (db : DB) (order : Order) :
  Order_get db oid = Some order ->
  (forall d, Delivery_get_by_order db oid = Some d ->
             driver d = None \/ status d = pending) ->
  (online_verified_active db = [] \/
   (online_verified_active db <> [] /\
    fst (fst (assign_delivery_to_driver haversine_km distance_column
        now oid db)) = Return None)) ->
  exists res db' ev reason,
    process_delivery_assignment haversine_km distance_column
        now oid max_retries current_retry db
      = (Return res, db', ev) /\
    success res = false /\ error res = Some reason /\
    (reason = "No drivers online"%string \/ reason = "All drivers busy"%string) /\
    (current_retry < max_retries -> retry res = Some true) /\
    (max_retries <= current_retry ->
       retry res = Some false /\
       exists d, Delivery_get_by_order db' oid = Some d /\
                 status d = pending /\
                 driver_notes d = (reason ++ " - requires manual assignment")%string).
Proof.
  intros Ho Hna Hcause.
  unfold process_delivery_assignment, models.catch, models.bind, models.get_db,
    models.ret.
  rewrite Ho.
  assert (Hcheck :
    match Delivery_get_by_order db oid with
    | Some existing_delivery =>
        if truthy_driver (driver existing_delivery)
           && negb (Status_eqb (status existing_delivery) pending)
        then Some existing_delivery else None
    | None => None
    end = None).
  { destruct (Delivery_get_by_order db oid) as [d |]; [| reflexivity].
    destruct (Hna d eq_refl) as [H | H]; rewrite H; simpl; [reflexivity |].
    rewrite andb_false_r. reflexivity. }
  rewrite Hcheck. clear Hcheck.
  destruct Hcause as [Hnone | [Hsome Hassign]].
  - rewrite Hnone. simpl.
    destruct (Z.geb_spec current_retry max_retries) as [Hge | Hlt].
    + destruct (mark_for_manual_assignment_marks oid "No drivers online" db)
        as (db' & d & Hm & Hd).
      rewrite Hm. simpl. exists (failure "No drivers online" false), db'.
      do 2 eexists. split; [reflexivity |]. simpl.
      repeat split; auto; try lia. exists d. exact Hd.
    + exists (failure "No drivers online" true), db.
      do 2 eexists. split; [reflexivity |]. simpl.
      repeat split; auto; lia.
  - destruct (online_verified_active db) as [| a l]; [contradiction |]. simpl.
    destruct (assign_delivery_to_driver haversine_km distance_column
        now oid db) as [[r db1] ev1].
    simpl in Hassign. subst r.
    destruct (Z.geb_spec current_retry max_retries) as [Hge | Hlt].
    + destruct (mark_for_manual_assignment_marks oid "All drivers busy" db1)
        as (db' & d & Hm & Hd).
      rewrite Hm. simpl. exists (failure "All drivers busy" false), db'.
      do 2 eexists. split; [reflexivity |]. simpl.
      repeat split; auto; try lia. exists d. exact Hd.
    + exists (failure "All drivers busy" true), db1.
      do 2 eexists. split; [reflexivity |]. simpl.
      repeat split; auto; lia.
Qed.

(** A run of the theorem: nobody is online and the budget of 3 is used up. *)
Lemma retry_escalation_witness :
  exists res db' ev reason,
    process_delivery_assignment scenario.grid_km scenario.two_places
        1000 1 3 3 scenario.db_nobody
      = (Return res, db', ev) /\
    success res = false /\ error res = Some reason /\
    (reason = "No drivers online"%string \/ reason = "All drivers busy"%string) /\
    (3 < 3 -> retry res = Some true) /\
    (3 <= 3 ->
       retry res = Some false /\
       exists d, Delivery_get_by_order db' 1 = Some d /\
                 status d = pending /\
                 driver_notes d = (reason ++ " - requires manual assignment")%string).
Proof.
  apply (retry_escalation scenario.grid_km scenario.two_places
      1000 1 3 3 scenario.db_nobody scenario.order1).
  - reflexivity.
  - intros d Hd. vm_compute in Hd. discriminate.
  - left. reflexivity.
Defined.

(** ** The timeout check *)

Section TimeoutFacts.

Variable haversine_km : Q -> Q -> Q -> Q -> option Q.
Variable DELIVERY_ASSIGNMENT_TIMEOUT : option Z.

(** Outside that case the task changes nothing and sends nothing. *)
Lemma check_assignment_timeout_no_change (now did : Z) (db : DB) (delivery : Delivery) :
  Delivery_get db did = Some delivery ->
  ~ timed_out DELIVERY_ASSIGNMENT_TIMEOUT now delivery ->
  snd (fst (check_assignment_timeout haversine_km DELIVERY_ASSIGNMENT_TIMEOUT now did db))
    = db /\
  snd (check_assignment_timeout haversine_km DELIVERY_ASSIGNMENT_TIMEOUT now did db) = [].
Proof.
  intros Hd Hnot. unfold check_assignment_timeout, models.bind, models.get_db,
    models.lift, models.ret. rewrite Hd.
  destruct (Status_eqb (status delivery) assigned) eqn:Es; [| split; reflexivity].
  apply Status_eqb_eq in Es.
  destruct (assigned_at delivery) as [t |] eqn:Et; simpl; [| split; reflexivity].
  fold (timeout_seconds DELIVERY_ASSIGNMENT_TIMEOUT).
  destruct (Qle_bool (inject_Z (timeout_seconds DELIVERY_ASSIGNMENT_TIMEOUT))
              (total_seconds (now - t))) eqn:El;
    [| split; reflexivity].
  exfalso. apply Hnot. split; [exact Es |]. exists t. split; [exact Et |].
  apply Qle_bool_iff. exact El.
Qed.

(** In that case, for a delivery without a driver, the task runs
    [reassign_delivery] once. *)
Lemma check_assignment_timeout_driverless (now did : Z) (db : DB) (delivery : Delivery) :
  Delivery_get db did = Some delivery ->
  timed_out DELIVERY_ASSIGNMENT_TIMEOUT now delivery ->
  driver delivery = None ->
  snd (fst (check_assignment_timeout haversine_km DELIVERY_ASSIGNMENT_TIMEOUT now did db))
    = snd (fst (reassign_delivery haversine_km now did db)).
Proof.
  intros Hd (Hs & t & Ht & Hle) Hdrv.
  unfold check_assignment_timeout, models.bind, models.get_db, models.lift, models.ret.
  rewrite Hd, Hs, Ht. simpl. fold (timeout_seconds DELIVERY_ASSIGNMENT_TIMEOUT).
  apply Qle_bool_iff in Hle. rewrite Hle, Hdrv. simpl.
  destruct (reassign_delivery haversine_km now did db) as [[[[nd |] | e] db1] ev1];
    simpl; try reflexivity.
  destruct (driver nd); reflexivity.
Qed.

(** In that case, for a delivery that has a driver, the import of the
    notification helper fails: the task raises [ImportError] before anything
    is sent or written, and [reassign_delivery] is not reached. *)
Lemma check_assignment_timeout_import_error (now did : Z) (db : DB)
  (delivery : Delivery) (drv : Z) :
  Delivery_get db did = Some delivery ->
  timed_out DELIVERY_ASSIGNMENT_TIMEOUT now delivery ->
  driver delivery = Some drv ->
  check_assignment_timeout haversine_km DELIVERY_ASSIGNMENT_TIMEOUT now did db
  = (Raise (ImportError "notify_driver_delivery_reassigned"), db, []).
Proof.
  intros Hd (Hs & t & Ht & Hle) Hdrv.
  unfold check_assignment_timeout, models.bind, models.get_db, models.lift, models.ret.
  rewrite Hd, Hs, Ht. simpl. fold (timeout_seconds DELIVERY_ASSIGNMENT_TIMEOUT).
  apply Qle_bool_iff in Hle. rewrite Hle, Hdrv. reflexivity.
Qed.

End TimeoutFacts.

(** C8 (the defect).  Order 1 was assigned to driver 7 at time 0 and is
    still [assigned] 301 seconds later, past the default timeout of 300.
    [check_assignment_timeout] raises [ImportError]: no notification is
    sent, [reassign_delivery] does not run and the database is untouched,
    although a reassignment would have changed it. *)
Theorem check_assignment_timeout_fails_before_reassigning :
  timed_out None 301000000 (scenario.delivery_row 1 1 (Some 7) assigned (Some 0)) /\
  check_assignment_timeout scenario.grid_km None 301000000 1 scenario.db_assigned
  = (Raise (ImportError "notify_driver_delivery_reassigned"), scenario.db_assigned, []) /\
  snd (fst (reassign_delivery scenario.grid_km 301000000 1 scenario.db_assigned))
  <> scenario.db_assigned.
Proof.
  split; [| split].
  - split; [reflexivity |]. exists 0. split; [reflexivity |].
    unfold Qle, total_seconds, timeout_seconds. simpl. lia.
  - vm_compute. reflexivity.
  - vm_compute. intro H. discriminate H.
Qed.

(** ** The three tiers of [run_task_safe] *)

(** C9.  With the queue enabled and the submission accepted,
    [run_task_safe] returns true and the work is on the queue.  Otherwise
    (queue disabled, or the submission raised) it starts the fallback on a
    worker thread and returns true when the thread has started; when the
    thread cannot be started it calls the fallback itself and returns
    whether that call completed.  It returns false exactly when the queue
    took nothing, the thread did not start and the call raised. *)
Theorem three_tier_fallback {Args Ret : Type} (ENABLE_CELERY : option bool)
  (delay : Args -> outcome Z) (thread_start : Args -> outcome unit)
  (sync_func : Args -> outcome Ret) (args : Args) :
  let enabled := match ENABLE_CELERY with Some b => b | None => true end in
  let queued := enabled && is_return (delay args) in
  let result := run_task_safe ENABLE_CELERY delay thread_start sync_func args in
  (queued = true -> result = (true, Some Queue)) /\
  (queued = false -> is_return (thread_start args) = true ->
     result = (true, Some WorkerThread)) /\
  (queued = false -> is_return (thread_start args) = false ->
     result = (is_return (sync_func args),
               if is_return (sync_func args) then Some Inline else None)) /\
  (fst result = false <->
     queued = false /\ is_return (thread_start args) = false /\
     is_return (sync_func args) = false).
Proof.
  unfold run_task_safe, fallback.
  destruct ENABLE_CELERY as [[|] |]; simpl;
    destruct (delay args), (thread_start args), (sync_func args); simpl;
    repeat split; intros; try reflexivity; try discriminate;
    repeat match goal with H : _ /\ _ |- _ => destruct H end; try discriminate.
Qed.

(** A run of the theorem: the broker is down and no thread can be started,
    so the fallback runs inline. *)
Lemma three_tier_fallback_witness :
  run_task_safe (Some true) scenario.broker_down scenario.no_thread
    scenario.fallback_completes 1
  = (true, Some Inline).
Proof.
  exact (proj1 (proj2 (proj2
           (three_tier_fallback (Some true) scenario.broker_down scenario.no_thread
              scenario.fallback_completes 1)))
           eq_refl eq_refl).
Defined.

(** ** Ranking and inclusion of candidates *)

(** C4.  For pickup coordinates that are given, [find_available_drivers]
    returns whenever the Haversine arithmetic goes through for the located
    drivers that pass the filters, and every list it returns holds the
    qualifying candidates (the entries the loop collected, each exactly
    once) in ascending order of the key [(-rating, distance)]; hence of two
    entries with different ratings the one of higher rating comes first,
    whatever their distances. *)
Theorem matcher_ranking (haversine_km : Q -> Q -> Q -> Q -> option Q) (db : DB)
  (lat lon radius_km : Q) :
  (distances_defined haversine_km lat lon (truly_available db) = true ->
   exists l,
     find_available_drivers haversine_km db (Some lat) (Some lon) radius_km = Return l) /\
  (forall l : list Candidate,
     find_available_drivers haversine_km db (Some lat) (Some lon) radius_km = Return l ->
     exists nearby,
       nearby_loop haversine_km (Some lat) (Some lon) radius_km (truly_available db)
         = Return nearby /\
       Permutation nearby l /\
       StronglySorted key_le l /\
       forall (i j : nat) (a b : Candidate),
         nth_error l i = Some a -> nth_error l j = Some b ->
         (average_rating (c_availability b) < average_rating (c_availability a))%Q ->
         (i < j)%nat).
Proof.
  split; [apply find_available_drivers_returns |].
  intros l Hl. unfold find_available_drivers in Hl.
  destruct (nearby_loop haversine_km (Some lat) (Some lon) radius_km (truly_available db))
    as [nearby |]; [| discriminate].
  injection Hl as <-. exists nearby.
  split; [reflexivity |].
  split; [apply sort_by_key_perm |].
  split.
  - apply (StronglySorted_weaken ordered_by_lt).
    + intros x y. apply ordered_by_lt_key_le.
    + apply sort_by_key_sorted.
  - apply sorted_rating_order. apply sort_by_key_sorted.
Qed.

(** A run of the theorem: driver 8 (rated 4.8, about 3 km away) is listed
    before driver 9 (rated 4.2, about 1 km away). *)
Lemma matcher_ranking_witness :
  exists l a b,
    find_available_drivers scenario.grid_km scenario.db_two_rated
      (Some (65244 # 10000)) (Some (33792 # 10000)) (10 # 1) = Return l /\
    nth_error l 0 = Some a /\ nth_error l 1 = Some b /\
    c_driver a = 8 /\ c_driver b = 9 /\ (0 < 1)%nat.
Proof.
  destruct (matcher_ranking scenario.grid_km scenario.db_two_rated
              (65244 # 10000) (33792 # 10000) (10 # 1))
    as [Hreturns Hsorted].
  destruct (Hreturns eq_refl) as [l Hl].
  destruct (Hsorted l Hl) as (nearby & _ & _ & _ & Hrank).
  vm_compute in Hl. injection Hl as Hl. subst l.
  do 3 eexists. split; [vm_compute; reflexivity |].
  split; [reflexivity |]. split; [reflexivity |].
  split; [reflexivity |]. split; [reflexivity |].
  eapply Hrank; [reflexivity | reflexivity |].
  unfold Qlt. simpl. lia.
Defined.

(** C5.  A qualifying driver whose [current_latitude] is null is in every
    list that [find_available_drivers] returns, with the distance
    [radius_km * 0.8]; and the call does return such a list whenever the
    Haversine arithmetic goes through for the located drivers that pass the
    filters. *)
Theorem unknown_location_inclusion (haversine_km : Q -> Q -> Q -> Q -> option Q)
  (db : DB) (lat lon radius_km : Q) (a : DriverAvailability) :
  qualifies db a ->
  current_latitude a = None ->
  (forall l : list Candidate,
     find_available_drivers haversine_km db (Some lat) (Some lon) radius_km = Return l ->
     In {| c_driver := av_driver a; c_availability := a;
           c_distance := (radius_km * (8 # 10))%Q |} l) /\
  (distances_defined haversine_km lat lon (truly_available db) = true ->
   exists l,
     find_available_drivers haversine_km db (Some lat) (Some lon) radius_km = Return l /\
     In {| c_driver := av_driver a; c_availability := a;
           c_distance := (radius_km * (8 # 10))%Q |} l).
Proof.
  intros Hq Hlat. apply qualifies_truly_available in Hq.
  assert (Hin : forall l : list Candidate,
    find_available_drivers haversine_km db (Some lat) (Some lon) radius_km = Return l ->
    In {| c_driver := av_driver a; c_availability := a;
          c_distance := (radius_km * (8 # 10))%Q |} l).
  { intros l Hl. unfold find_available_drivers in Hl.
    destruct (nearby_loop haversine_km (Some lat) (Some lon) radius_km
                (truly_available db)) as [nearby |] eqn:Hn; [| discriminate].
    injection Hl as <-.
    eapply Permutation_in; [apply sort_by_key_perm |].
    apply (nearby_loop_unlocated haversine_km _ _ _ _ _ a Hn Hq).
    unfold located. rewrite Hlat. reflexivity. }
  split; [exact Hin |].
  intro Hdef.
  destruct (find_available_drivers_returns haversine_km db lat lon radius_km Hdef)
    as [l Hl].
  exists l. split; [exact Hl | exact (Hin l Hl)].
Qed.

(** A run of the theorem: driver 7 has no location and is listed at 8 km
    for the radius of 10 km. *)
Lemma unknown_location_inclusion_witness :
  exists l,
    find_available_drivers scenario.grid_km scenario.db_fresh
      (Some (65244 # 10000)) (Some (33792 # 10000)) (10 # 1) = Return l /\
    In {| c_driver := 7; c_availability := scenario.driver7;
          c_distance := ((10 # 1) * (8 # 10))%Q |} l.
Proof.
  apply (unknown_location_inclusion scenario.grid_km scenario.db_fresh
           (65244 # 10000) (33792 # 10000) (10 # 1) scenario.driver7).
  - split; [left; reflexivity |]. split; [reflexivity |].
    split; [exists (scenario.driver_user 7); repeat split | left; reflexivity].
  - reflexivity.
  - reflexivity.
Defined.

(** C10.  A qualifying driver whose [current_latitude] or
    [current_longitude] is zero is treated as having no location: in every
    list that [find_available_drivers] returns the driver is present with
    the distance [radius_km * 0.8], and every entry of that driver carries
    this distance, so neither the Haversine value nor the radius decides
    about the driver; and the call does return such a list whenever the
    Haversine arithmetic goes through for the located drivers that pass the
    filters (the driver in question is not one of them). *)
Theorem zero_coordinate_is_unknown_location
  (haversine_km : Q -> Q -> Q -> Q -> option Q)
  (db : DB) (lat lon radius_km : Q) (a : DriverAvailability) (z : Q) :
  qualifies db a ->
  current_latitude a = Some z \/ current_longitude a = Some z ->
  (z == 0)%Q ->
  (forall l : list Candidate,
     find_available_drivers haversine_km db (Some lat) (Some lon) radius_km = Return l ->
     In (synthetic radius_km a) l /\
     forall x, In x l -> c_availability x = a ->
               c_distance x = (radius_km * (8 # 10))%Q) /\
  (distances_defined haversine_km lat lon (truly_available db) = true ->
   exists l,
     find_available_drivers haversine_km db (Some lat) (Some lon) radius_km = Return l /\
     In (synthetic radius_km a) l /\
     forall x, In x l -> c_availability x = a ->
               c_distance x = (radius_km * (8 # 10))%Q).
Proof.
  intros Hq Hz Hz0. apply qualifies_truly_available in Hq.
  assert (Hloc : located a = false).
  { apply Qeq_bool_iff in Hz0. unfold located, truthy.
    destruct Hz as [-> | ->]; rewrite Hz0; simpl; [reflexivity |].
    apply andb_false_r. }
  assert (Hin : forall l : list Candidate,
    find_available_drivers haversine_km db (Some lat) (Some lon) radius_km = Return l ->
    In (synthetic radius_km a) l /\
    forall x, In x l -> c_availability x = a ->
              c_distance x = (radius_km * (8 # 10))%Q).
  { intros l Hl. unfold find_available_drivers in Hl.
    destruct (nearby_loop haversine_km (Some lat) (Some lon) radius_km
                (truly_available db)) as [nearby |] eqn:Hn; [| discriminate].
    injection Hl as <-. split.
    - eapply Permutation_in; [apply sort_by_key_perm |].
      exact (nearby_loop_unlocated haversine_km _ _ _ _ _ a Hn Hq Hloc).
    - intros x Hx Hxa.
      apply (Permutation_in x (Permutation_sym (sort_by_key_perm nearby))) in Hx.
      rewrite <- Hxa in Hloc.
      rewrite (nearby_loop_unlocated_only haversine_km _ _ _ _ _ x Hn Hx Hloc).
      reflexivity. }
  split; [exact Hin |].
  intro Hdef.
  destruct (find_available_drivers_returns haversine_km db lat lon radius_km Hdef)
    as [l Hl].
  exists l. split; [exact Hl | exact (Hin l Hl)].
Qed.

(** A run of the theorem: driver 10 reports latitude 0, some 720 km from
    the restaurant, and is listed at 8 km for the radius of 10 km. *)
Lemma zero_coordinate_is_unknown_location_witness :
  exists l,
    find_available_drivers scenario.grid_km scenario.db_two_rated
      (Some (65244 # 10000)) (Some (33792 # 10000)) (10 # 1) = Return l /\
    In (synthetic (10 # 1)
          (scenario.availability_row 10 true true (Some 0%Q) (Some (33792 # 10000))
             (30 # 10))) l /\
    forall x, In x l ->
      c_availability x
        = scenario.availability_row 10 true true (Some 0%Q) (Some (33792 # 10000))
            (30 # 10) ->
      c_distance x = ((10 # 1) * (8 # 10))%Q.
Proof.
  apply (zero_coordinate_is_unknown_location scenario.grid_km scenario.db_two_rated
           (65244 # 10000) (33792 # 10000) (10 # 1) _ 0%Q).
  - split; [right; right; left; reflexivity |]. split; [reflexivity |].
    split; [exists (scenario.driver_user 10); repeat split | left; reflexivity].
  - left. reflexivity.
  - reflexivity.
  - reflexivity.
Defined.

(** * Further properties of the dispatch code *)

(** ** What [find_available_drivers] lists *)

Section MatcherFacts.

Variable haversine_km : Q -> Q -> Q -> Q -> option Q.

(** Every entry of the loop's result comes from a row of its input. *)
Lemma nearby_loop_source (rlat rlon : option Q) (radius_km : Q)
  (l : list DriverAvailability) (c : list Candidate) (x : Candidate) :
  nearby_loop haversine_km rlat rlon radius_km l = Return c ->
  In x c -> In (c_availability x) l /\ c_driver x = av_driver (c_availability x).
Proof.
  revert c. induction l as [| b l IH]; intros c Hc Hin; simpl in Hc.
  - injection Hc as <-. contradiction.
  - destruct (truthy (current_latitude b) && truthy (current_longitude b)).
    + destruct (calculate_distance _ _ _ _ _); [| discriminate].
      destruct (nearby_loop haversine_km rlat rlon radius_km l) as [tl |];
        [| discriminate].
      destruct (Qle_bool _ _); injection Hc as <-.
      * destruct Hin as [<- | Hin]; [simpl; auto |].
        destruct (IH tl eq_refl Hin). auto with datatypes.
      * destruct (IH tl eq_refl Hin). auto with datatypes.
    + destruct (nearby_loop haversine_km rlat rlon radius_km l) as [tl |];
        [| discriminate].
      injection Hc as <-. destruct Hin as [<- | Hin]; [simpl; auto |].
      destruct (IH tl eq_refl Hin). auto with datatypes.
Qed.

Lemma calculate_distance_returned (lat lon : Q) (a : DriverAvailability) (distance : Q) :
  located a = true ->
  calculate_distance haversine_km (Some lat) (Some lon)
    (current_latitude a) (current_longitude a) = Return distance ->
  distance_of haversine_km lat lon a = Some distance /\
  located_distance haversine_km lat lon a = distance.
Proof.
  intros Hloc H. rewrite (calculate_distance_located haversine_km lat lon a Hloc) in H.
  unfold located_distance.
  destruct (distance_of haversine_km lat lon a) as [d |]; [| discriminate].
  injection H as ->. split; reflexivity.
Qed.

(** A located row is listed, with its Haversine distance, when that
    distance is within the radius. *)
Lemma nearby_loop_located_in (lat lon radius_km : Q) (l : list DriverAvailability)
  (c : list Candidate) (a : DriverAvailability) :
  nearby_loop haversine_km (Some lat) (Some lon) radius_km l = Return c ->
  In a l -> located a = true ->
  (located_distance haversine_km lat lon a <= radius_km)%Q ->
  In (located_entry haversine_km lat lon a) c.
Proof.
  revert c. induction l as [| b l IH]; intros c Hc Hin Hloc Hle; [contradiction |].
  simpl in Hc. fold (located b) in Hc.
  destruct (nearby_loop haversine_km (Some lat) (Some lon) radius_km l) as [tl |] eqn:Etl.
  2:{ destruct (located b); [| discriminate].
      destruct (calculate_distance _ _ _ _ _); discriminate. }
  destruct Hin as [-> | Hin].
  - rewrite Hloc in Hc.
    destruct (calculate_distance haversine_km (Some lat) (Some lon)
                (current_latitude a) (current_longitude a))
      as [distance |] eqn:Ecd; [| discriminate].
    destruct (calculate_distance_returned lat lon a distance Hloc Ecd) as [_ Hd].
    unfold located_entry. rewrite Hd in Hle |- *.
    apply Qle_bool_iff in Hle. rewrite Hle in Hc. injection Hc as <-.
    left. reflexivity.
  - specialize (IH tl eq_refl Hin Hloc Hle). destruct (located b) eqn:Eb.
    + destruct (calculate_distance _ _ _ _ _); [| discriminate].
      destruct (Qle_bool _ _); injection Hc as <-; [right |]; exact IH.
    + injection Hc as <-. right. exact IH.
Qed.

(** Every entry made for a located row carries the Haversine distance,
    which is within the radius. *)
Lemma nearby_loop_located_only (lat lon radius_km : Q) (l : list DriverAvailability)
  (c : list Candidate) (x : Candidate) :
  nearby_loop haversine_km (Some lat) (Some lon) radius_km l = Return c ->
  In x c -> located (c_availability x) = true ->
  x = located_entry haversine_km lat lon (c_availability x) /\
  (c_distance x <= radius_km)%Q.
Proof.
  revert c. induction l as [| b l IH]; intros c Hc Hin Hloc; simpl in Hc.
  - injection Hc as <-. contradiction.
  - fold (located b) in Hc.
    destruct (nearby_loop haversine_km (Some lat) (Some lon) radius_km l)
      as [tl |] eqn:Etl.
    2:{ destruct (located b); [| discriminate].
        destruct (calculate_distance _ _ _ _ _); discriminate. }
    destruct (located b) eqn:Eb.
    + destruct (calculate_distance haversine_km (Some lat) (Some lon)
                  (current_latitude b) (current_longitude b))
        as [distance |] eqn:Ecd; [| discriminate].
      destruct (calculate_distance_returned lat lon b distance Eb Ecd) as [_ Hd].
      destruct (Qle_bool _ _) eqn:El; injection Hc as <-.
      * destruct Hin as [<- | Hin]; [| exact (IH tl eq_refl Hin Hloc)].
        split; [unfold located_entry; simpl; rewrite Hd; reflexivity |].
        simpl. apply Qle_bool_iff. exact El.
      * exact (IH tl eq_refl Hin Hloc).
    + injection Hc as <-. destruct Hin as [<- | Hin].
      * simpl in Hloc. congruence.
      * exact (IH tl eq_refl Hin Hloc).
Qed.

(** Without pickup coordinates the loop fails at the first located row. *)
Lemma nearby_loop_missing_pickup (rlat rlon : option Q) (radius_km : Q)
  (l : list DriverAvailability) :
  rlat = None \/ rlon = None ->
  if existsb located l
  then exists msg, nearby_loop haversine_km rlat rlon radius_km l = Raise (TypeError msg)
  else nearby_loop haversine_km rlat rlon radius_km l
       = Return (map (synthetic radius_km) l).
Proof.
  intro Hnone. induction l as [| b l IH]; simpl; [reflexivity |].
  fold (located b). destruct (located b) eqn:Eb; simpl.
  - destruct (located_coordinates b Eb) as (la & lo & Hla & Hlo).
    rewrite Hla, Hlo. unfold calculate_distance.
    destruct Hnone as [-> | ->]; simpl.
    + eexists. reflexivity.
    + destruct rlat; simpl; eexists; reflexivity.
  - destruct (existsb located l).
    + destruct IH as [msg IH]. rewrite IH. exists msg. reflexivity.
    + rewrite IH. reflexivity.
Qed.

End MatcherFacts.

(** X1.  Every entry that [find_available_drivers] returns belongs to a row
    that passes both filters (online, verified and active, and flagged
    available or without an active delivery), and names that row's driver:
    a driver who is offline, unverified, deactivated, or busy with an active
    delivery is never listed. *)
Theorem candidates_qualify (haversine_km : Q -> Q -> Q -> Q -> option Q) (db : DB)
  (rlat rlon : option Q) (radius_km : Q) (l : list Candidate) (x : Candidate) :
  find_available_drivers haversine_km db rlat rlon radius_km = Return l ->
  In x l ->
  qualifies db (c_availability x) /\ c_driver x = av_driver (c_availability x).
Proof.
  unfold find_available_drivers. intros Hl Hx.
  destruct (nearby_loop haversine_km rlat rlon radius_km (truly_available db))
    as [nearby |] eqn:Hn; [| discriminate].
  injection Hl as <-.
  apply (Permutation_in x (Permutation_sym (sort_by_key_perm nearby))) in Hx.
  destruct (nearby_loop_source haversine_km _ _ _ _ _ x Hn Hx) as [Hin Hd].
  split; [| exact Hd]. apply qualifies_truly_available. exact Hin.
Qed.

(** A run of the theorem: the entry of driver 7 in the list for the fresh
    order. *)
Lemma candidates_qualify_witness :
  qualifies scenario.db_fresh scenario.driver7 /\ 7 = av_driver scenario.driver7.
Proof.
  exact (candidates_qualify scenario.grid_km scenario.db_fresh
           (Some (65244 # 10000)) (Some (33792 # 10000)) (10 # 1)
           [synthetic (10 # 1) scenario.driver7] (synthetic (10 # 1) scenario.driver7)
           eq_refl (or_introl eq_refl)).
Defined.

(** X2.  The radius filter, for a qualifying driver whose two coordinates
    are set and nonzero.  In every list that [find_available_drivers]
    returns the driver's Haversine distance was computed, the driver is
    listed with that distance exactly when it is at most [radius_km] (the
    boundary included), and no entry of that driver carries another
    distance.  When the arithmetic fails for that driver the call raises
    [ValueError] and lists nobody; it returns whenever the arithmetic goes
    through for all located drivers that pass the filters. *)
Theorem radius_filter (haversine_km : Q -> Q -> Q -> Q -> option Q) (db : DB)
  (lat lon radius_km : Q) (a : DriverAvailability) :
  qualifies db a ->
  located a = true ->
  (forall l : list Candidate,
     find_available_drivers haversine_km db (Some lat) (Some lon) radius_km = Return l ->
     exists distance,
       distance_of haversine_km lat lon a = Some distance /\
       (In {| c_driver := av_driver a; c_availability := a; c_distance := distance |} l
        <-> (distance <= radius_km)%Q) /\
       (forall x, In x l -> c_availability x = a ->
                  x = {| c_driver := av_driver a; c_availability := a;
                         c_distance := distance |})) /\
  (distance_of haversine_km lat lon a = None ->
   exists msg,
     find_available_drivers haversine_km db (Some lat) (Some lon) radius_km
     = Raise (ValueError msg)) /\
  (distances_defined haversine_km lat lon (truly_available db) = true ->
   exists l,
     find_available_drivers haversine_km db (Some lat) (Some lon) radius_km = Return l).
Proof.
  intros Hq Hloc. apply qualifies_truly_available in Hq.
  split; [| split].
  - intros l Hl. unfold find_available_drivers in Hl.
    destruct (nearby_loop haversine_km (Some lat) (Some lon) radius_km
                (truly_available db)) as [nearby |] eqn:Hn; [| discriminate].
    injection Hl as <-.
    destruct (nearby_loop_distance_of haversine_km lat lon radius_km _ _ a Hn Hq Hloc)
      as [distance Hd].
    assert (He : located_entry haversine_km lat lon a
                 = {| c_driver := av_driver a; c_availability := a;
                      c_distance := distance |}).
    { unfold located_entry, located_distance. rewrite Hd. reflexivity. }
    assert (Hback : forall x, In x (sort_by_key nearby) -> In x nearby).
    { intros x Hx.
      exact (Permutation_in x (Permutation_sym (sort_by_key_perm nearby)) Hx). }
    exists distance. split; [exact Hd |]. split; [split |].
    + intro Hin. apply Hback in Hin.
      destruct (nearby_loop_located_only haversine_km lat lon radius_km _ _ _ Hn Hin Hloc)
        as [_ Hle].
      exact Hle.
    + intro Hle. eapply Permutation_in; [apply sort_by_key_perm |].
      rewrite <- He.
      apply (nearby_loop_located_in haversine_km lat lon radius_km _ _ a Hn Hq Hloc).
      unfold located_distance. rewrite Hd. exact Hle.
    + intros x Hx Hxa. apply Hback in Hx. rewrite <- Hxa in Hloc.
      rewrite <- He, <- Hxa.
      exact (proj1 (nearby_loop_located_only haversine_km lat lon radius_km _ _ _
                      Hn Hx Hloc)).
  - intro Hnone.
    pose proof (find_available_drivers_outcome haversine_km db lat lon radius_km) as Ho.
    rewrite (distances_defined_false haversine_km lat lon _ a Hq Hloc Hnone) in Ho.
    eexists. exact Ho.
  - apply find_available_drivers_returns.
Qed.

(** A run of the theorem: driver 8, some 3 km from the restaurant, is
    listed. *)
Lemma radius_filter_witness :
  exists l distance,
    find_available_drivers scenario.grid_km scenario.db_two_rated
      (Some (65244 # 10000)) (Some (33792 # 10000)) (10 # 1) = Return l /\
    distance_of scenario.grid_km (65244 # 10000) (33792 # 10000)
      (scenario.availability_row 8 true true (Some (65514 # 10000))
         (Some (33792 # 10000)) (48 # 10)) = Some distance /\
    In {| c_driver := 8;
          c_availability :=
            scenario.availability_row 8 true true (Some (65514 # 10000))
              (Some (33792 # 10000)) (48 # 10);
          c_distance := distance |} l.
Proof.
  destruct (radius_filter scenario.grid_km scenario.db_two_rated
              (65244 # 10000) (33792 # 10000) (10 # 1)
              (scenario.availability_row 8 true true (Some (65514 # 10000))
                 (Some (33792 # 10000)) (48 # 10)))
    as (Hlisted & _ & Hreturns).
  - split; [right; left; reflexivity |]. split; [reflexivity |].
    split; [exists (scenario.driver_user 8); repeat split | left; reflexivity].
  - reflexivity.
  - destruct (Hreturns eq_refl) as [l Hl].
    destruct (Hlisted l Hl) as (distance & Hd & Hiff & _).
    exists l, distance. split; [exact Hl |]. split; [exact Hd |].
    apply Hiff. vm_compute in Hd. injection Hd as <-. unfold Qle. simpl. lia.
Defined.

(** X3.  For a radius that is not negative, no entry of the returned list
    is farther than the radius: a located driver passed the filter, and the
    synthetic distance is 0.8 of the radius. *)
Theorem candidate_distance_within_radius (haversine_km : Q -> Q -> Q -> Q -> option Q)
  (db : DB) (lat lon radius_km : Q) (l : list Candidate) (x : Candidate) :
  (0 <= radius_km)%Q ->
  find_available_drivers haversine_km db (Some lat) (Some lon) radius_km = Return l ->
  In x l ->
  (c_distance x <= radius_km)%Q.
Proof.
  unfold find_available_drivers. intros Hr Hl Hx.
  destruct (nearby_loop haversine_km (Some lat) (Some lon) radius_km (truly_available db))
    as [nearby |] eqn:Hn; [| discriminate].
  injection Hl as <-.
  apply (Permutation_in x (Permutation_sym (sort_by_key_perm nearby))) in Hx.
  destruct (located (c_availability x)) eqn:Eloc.
  - exact (proj2 (nearby_loop_located_only haversine_km lat lon radius_km _ _ _
                    Hn Hx Eloc)).
  - rewrite (nearby_loop_unlocated_only haversine_km _ _ _ _ _ x Hn Hx Eloc). simpl.
    rewrite <- (Qmult_1_r radius_km) at 2.
    rewrite (Qmult_comm radius_km (8 # 10)), (Qmult_comm radius_km 1).
    apply Qmult_le_compat_r; [| exact Hr]. unfold Qle. simpl. lia.
Qed.

(** A run of the theorem: driver 10, listed at the synthetic 8 km. *)
Lemma candidate_distance_within_radius_witness :
  (c_distance
     (synthetic (10 # 1)
        (scenario.availability_row 10 true true (Some 0%Q) (Some (33792 # 10000))
           (30 # 10))) <= 10 # 1)%Q.
Proof.
  apply (candidate_distance_within_radius scenario.grid_km scenario.db_two_rated
           (65244 # 10000) (33792 # 10000) (10 # 1)
           (sort_by_key
              [located_entry scenario.grid_km (65244 # 10000) (33792 # 10000)
                 (scenario.availability_row 9 true true (Some (65334 # 10000))
                    (Some (33792 # 10000)) (42 # 10));
               located_entry scenario.grid_km (65244 # 10000) (33792 # 10000)
                 (scenario.availability_row 8 true true (Some (65514 # 10000))
                    (Some (33792 # 10000)) (48 # 10));
               synthetic (10 # 1)
                 (scenario.availability_row 10 true true (Some 0%Q)
                    (Some (33792 # 10000)) (30 # 10))])).
  - unfold Qle. simpl. lia.
  - vm_compute. reflexivity.
  - vm_compute. right. right. left. reflexivity.
Defined.

(** X4.  When a pickup coordinate is missing ([None]),
    [find_available_drivers] raises [TypeError] as soon as one driver that
    passes the filters has a usable location; when none has, it returns all
    of them at the synthetic distance. *)
Theorem missing_pickup_coordinates (haversine_km : Q -> Q -> Q -> Q -> option Q) (db : DB)
  (rlat rlon : option Q) (radius_km : Q) :
  rlat = None \/ rlon = None ->
  if existsb located (truly_available db)
  then exists msg,
         find_available_drivers haversine_km db rlat rlon radius_km
         = Raise (TypeError msg)
  else find_available_drivers haversine_km db rlat rlon radius_km
       = Return (sort_by_key (map (synthetic radius_km) (truly_available db))).
Proof.
  intro Hnone. unfold find_available_drivers.
  pose proof (nearby_loop_missing_pickup haversine_km rlat rlon radius_km
                (truly_available db) Hnone) as H.
  destruct (existsb located (truly_available db)).
  - destruct H as [msg H]. rewrite H. exists msg. reflexivity.
  - rewrite H. reflexivity.
Qed.

(** A run of the theorem: a delivery without pickup coordinates, with the
    located drivers 8 and 9 online. *)
Lemma missing_pickup_coordinates_witness :
  exists msg,
    find_available_drivers scenario.grid_km scenario.db_two_rated None None (10 # 1)
    = Raise (TypeError msg).
Proof.
  exact (missing_pickup_coordinates scenario.grid_km scenario.db_two_rated
           None None (10 # 1) (or_introl eq_refl)).
Defined.

(** X5.  The first entry of the returned list, the one the callers assign,
    has the highest rating of all entries, and among the entries of that
    same rating the smallest distance. *)
Theorem best_candidate_is_first (haversine_km : Q -> Q -> Q -> Q -> option Q) (db : DB)
  (rlat rlon : option Q) (radius_km : Q) (best : Candidate) (rest : list Candidate)
  (x : Candidate) :
  find_available_drivers haversine_km db rlat rlon radius_km = Return (best :: rest) ->
  In x rest ->
  (average_rating (c_availability x) <= average_rating (c_availability best))%Q /\
  ((average_rating (c_availability x) == average_rating (c_availability best))%Q ->
   (c_distance best <= c_distance x)%Q).
Proof.
  unfold find_available_drivers. intros Hl Hx.
  destruct (nearby_loop haversine_km rlat rlon radius_km (truly_available db))
    as [nearby |]; [| discriminate].
  injection Hl as Hl.
  pose proof (sort_by_key_sorted nearby) as Hs. rewrite Hl in Hs.
  apply StronglySorted_inv in Hs. destruct Hs as [_ Hall].
  rewrite Forall_forall in Hall. specialize (Hall x Hx).
  apply ordered_by_lt_key_le in Hall. unfold key_le in Hall.
  destruct Hall as [Hlt | [Heq Hle]].
  - apply Qopp_lt_compat in Hlt. rewrite !Qopp_involutive in Hlt. split.
    + apply Qlt_le_weak. exact Hlt.
    + intro E. rewrite E in Hlt. exfalso. exact (Qlt_irrefl _ Hlt).
  - assert (E : (average_rating (c_availability best)
                 == average_rating (c_availability x))%Q).
    { rewrite <- (Qopp_involutive (average_rating (c_availability best))).
      rewrite Heq. apply Qopp_involutive. }
    split.
    + rewrite E. apply Qle_refl.
    + intros _. exact Hle.
Qed.

(** A run of the theorem: driver 8 (4.8) leads the list, driver 9 (4.2)
    follows. *)
Lemma best_candidate_is_first_witness :
  ((42 # 10) <= (48 # 10))%Q.
Proof.
  exact (proj1
    (best_candidate_is_first scenario.grid_km scenario.db_two_rated
       (Some (65244 # 10000)) (Some (33792 # 10000)) (10 # 1)
       (located_entry scenario.grid_km (65244 # 10000) (33792 # 10000)
          (scenario.availability_row 8 true true (Some (65514 # 10000))
             (Some (33792 # 10000)) (48 # 10)))
       [located_entry scenario.grid_km (65244 # 10000) (33792 # 10000)
          (scenario.availability_row 9 true true (Some (65334 # 10000))
             (Some (33792 # 10000)) (42 # 10));
        synthetic (10 # 1)
          (scenario.availability_row 10 true true (Some 0%Q) (Some (33792 # 10000))
             (30 # 10))]
       (located_entry scenario.grid_km (65244 # 10000) (33792 # 10000)
          (scenario.availability_row 9 true true (Some (65334 # 10000))
             (Some (33792 # 10000)) (42 # 10)))
       ltac:(vm_compute; reflexivity) (or_introl eq_refl))).
Defined.

(** ** Reading rows back, continued *)

Lemma Delivery_get_update (db : DB) (pk k : Z) (f : Delivery -> Delivery) :
  (forall row, id row = pk -> id (f row) = pk) ->
  Delivery_get (update_delivery pk f db) k
  = option_map (fun row => if id row =? pk then f row else row) (Delivery_get db k).
Proof.
  intro Hf. unfold Delivery_get, update_delivery. simpl.
  apply (find_map_key id). intro x.
  destruct (id x =? pk) eqn:E; [| reflexivity].
  apply Z.eqb_eq in E. rewrite (Hf x E). symmetry. exact E.
Qed.

Lemma Order_get_update (db : DB) (pk k : Z) (f : Order -> Order) :
  (forall row, order_pk row = pk -> order_pk (f row) = pk) ->
  Order_get (update_order pk f db) k
  = option_map (fun row => if order_pk row =? pk then f row else row) (Order_get db k).
Proof.
  intro Hf. unfold Order_get, update_order. simpl.
  apply (find_map_key order_pk). intro x.
  destruct (order_pk x =? pk) eqn:E; [| reflexivity].
  apply Z.eqb_eq in E. rewrite (Hf x E). symmetry. exact E.
Qed.

Lemma Delivery_get_key (db : DB) (k : Z) (d : Delivery) :
  Delivery_get db k = Some d -> id d = k.
Proof.
  unfold Delivery_get. intro H. apply find_some in H. apply Z.eqb_eq. exact (proj2 H).
Qed.

Lemma Order_get_key (db : DB) (k : Z) (o : Order) :
  Order_get db k = Some o -> order_pk o = k.
Proof.
  unfold Order_get. intro H. apply find_some in H. apply Z.eqb_eq. exact (proj2 H).
Qed.

Lemma Delivery_get_by_order_key (db : DB) (k : Z) (d : Delivery) :
  Delivery_get_by_order db k = Some d -> order_id d = k.
Proof.
  unfold Delivery_get_by_order. intro H. apply find_some in H.
  apply Z.eqb_eq. exact (proj2 H).
Qed.

Lemma truthy_Some (x : option Q) : truthy x = true -> exists q, x = Some q.
Proof.
  destruct x as [q |]; [intros _; exists q; reflexivity | discriminate].
Qed.

(** ** [assign_delivery_to_driver] *)

Section AssignFacts.

Variable haversine_km : Q -> Q -> Q -> Q -> option Q.
Variable distance_column : Q -> Q.

(** The rest of [assign_delivery_to_driver] once the order is known not to
    be assigned. *)
Ltac search_outcome order db :=
  destruct (truthy (latitude (restaurant order))) eqn:Elat; simpl;
    [| right; left; reflexivity];
  destruct (truthy (longitude (restaurant order))) eqn:Elon; simpl;
    [| right; left; reflexivity];
  let la := fresh "la" in
  let lo := fresh "lo" in
  let Hla := fresh "Hla" in
  let Hlo := fresh "Hlo" in
  let Ho := fresh "Ho" in
  let Edef := fresh "Edef" in
  destruct (truthy_Some _ Elat) as [la Hla];
  destruct (truthy_Some _ Elon) as [lo Hlo];
  rewrite Hla, Hlo;
  pose proof (find_available_drivers_outcome haversine_km db la lo (10 # 1)) as Ho;
  destruct (distances_defined haversine_km la lo (truly_available db)) eqn:Edef;
    [ let l := fresh "l" in
      let Hl := fresh "Hl" in
      destruct Ho as [l Hl]; rewrite Hl; destruct l; simpl;
      [ right; left; reflexivity | left; do 3 eexists; reflexivity ]
    | rewrite Ho; simpl; right; right; exists order, la, lo; auto ].

(** The three ways in which [assign_delivery_to_driver] ends: with a
    delivery; with [None], having done nothing; or with the [ValueError]
    of the distance arithmetic, which nothing catches here, having done
    nothing either. *)
Lemma assign_delivery_to_driver_outcome (now oid : Z) (db : DB) :
  (exists d db' ev,
      assign_delivery_to_driver haversine_km distance_column now oid db
      = (Return (Some d), db', ev)) \/
  assign_delivery_to_driver haversine_km distance_column now oid db
  = (Return None, db, []) \/
  (exists order la lo,
      Order_get db oid = Some order /\
      latitude (restaurant order) = Some la /\
      longitude (restaurant order) = Some lo /\
      distances_defined haversine_km la lo (truly_available db) = false /\
      assign_delivery_to_driver haversine_km distance_column now oid db
      = (Raise (ValueError "math domain error"), db, [])).
Proof.
  run. destruct (Order_get db oid) as [order |] eqn:Eo; simpl;
    [| right; left; reflexivity].
  destruct (Delivery_get_by_order db oid) as [d |] eqn:Ed; simpl.
  - destruct (truthy_driver (driver d)) eqn:Edrv; simpl;
      [left; do 3 eexists; reflexivity |].
    search_outcome order db.
  - search_outcome order db.
Qed.

(** X6.  A call of [assign_delivery_to_driver] that does not produce a
    delivery has changed nothing.  When it returns [None] (unknown order,
    restaurant without coordinates, no candidate) it has written nothing
    and notified nobody; when it raises, the exception is the [ValueError]
    of the distance arithmetic, which the function does not catch, and
    again nothing has been written or sent.  It returns whenever that
    arithmetic goes through, from the restaurant's position, for the
    located drivers that pass the filters. *)
Theorem assign_failure_changes_nothing (now oid : Z) (db : DB) :
  (forall (db' : DB) (ev : list Event),
     assign_delivery_to_driver haversine_km distance_column now oid db
     = (Return None, db', ev) ->
     db' = db /\ ev = []) /\
  (forall (e : Exc) (db' : DB) (ev : list Event),
     assign_delivery_to_driver haversine_km distance_column now oid db
     = (Raise e, db', ev) ->
     (exists msg, e = ValueError msg) /\ db' = db /\ ev = []) /\
  ((forall (order : Order) (la lo : Q),
      Order_get db oid = Some order ->
      latitude (restaurant order) = Some la ->
      longitude (restaurant order) = Some lo ->
      distances_defined haversine_km la lo (truly_available db) = true) ->
   exists r db' ev,
     assign_delivery_to_driver haversine_km distance_column now oid db
     = (Return r, db', ev)).
Proof.
  destruct (assign_delivery_to_driver_outcome now oid db)
    as [(d & db1 & ev1 & H) | [H | (order & la & lo & Ho & Hla & Hlo & Hdef & H)]];
    rewrite H; (split; [| split]).
  - intros db' ev E. discriminate E.
  - intros e db' ev E. discriminate E.
  - intros _. do 3 eexists. reflexivity.
  - intros db' ev E. injection E as <- <-. auto.
  - intros e db' ev E. discriminate E.
  - intros _. do 3 eexists. reflexivity.
  - intros db' ev E. discriminate E.
  - intros e db' ev E. injection E as <- <- <-. eauto.
  - intro Hall. rewrite (Hall order la lo Ho Hla Hlo) in Hdef. discriminate Hdef.
Qed.

End AssignFacts.

(** A run of the theorem: driver 11 is stored at the point opposite the
    restaurant of order 1, and the assignment of order 1 fails with the
    [ValueError]. *)
Lemma assign_failure_changes_nothing_witness :
  exists e db' ev,
    assign_delivery_to_driver scenario.grid_km scenario.two_places 1000 1
      scenario.db_antipode = (Raise e, db', ev) /\
    (exists msg, e = ValueError msg) /\ db' = scenario.db_antipode /\ ev = [].
Proof.
  do 3 eexists. split; [vm_compute; reflexivity |].
  apply (proj1 (proj2 (assign_failure_changes_nothing scenario.grid_km
                         scenario.two_places 1000 1 scenario.db_antipode))).
  vm_compute. reflexivity.
Defined.

Section AssignSuccess.

Variable haversine_km : Q -> Q -> Q -> Q -> option Q.
Variable distance_column : Q -> Q.

(** X7.  Let the order exist, its restaurant have coordinates, no delivery
    of the order have a driver, and the candidate list start with [best].
    Then [assign_delivery_to_driver] returns the order's delivery (the
    existing row, or a new one) assigned to [best]'s driver at [now], with
    the restaurant's coordinates as pickup and [best]'s distance, and
    exactly one new-delivery notice has gone to the driver.  Afterwards the
    order is [confirmed] and the order's lookup finds the row of this
    delivery: the returned instance with [distance_km] as the column holds
    it, that is [best]'s distance rounded, while the returned instance
    keeps the float. *)
Theorem assign_success (now oid : Z) (db : DB) (order : Order) (best : Candidate)
  (rest : list Candidate) :
  Order_get db oid = Some order ->
  (forall d, Delivery_get_by_order db oid = Some d -> driver d = None) ->
  truthy (latitude (restaurant order)) = true ->
  truthy (longitude (restaurant order)) = true ->
  find_available_drivers haversine_km db (latitude (restaurant order))
    (longitude (restaurant order)) (10 # 1) = Return (best :: rest) ->
  exists delivery db',
    assign_delivery_to_driver haversine_km distance_column now oid db
      = (Return (Some delivery), db',
         [NotifyDriverNewDelivery (c_driver best) (id delivery)]) /\
    delivery
      = assigned_row now order best
          match Delivery_get_by_order db oid with
          | Some d => d
          | None => new_delivery (next_delivery_id db) oid
          end /\
    distance_km delivery = Some (c_distance best) /\
    Delivery_get_by_order db' oid
      = Some (with_distance_km (Some (distance_column (c_distance best))) delivery) /\
    Order_get db' oid = Some (with_order_status o_confirmed order).
Proof.
  intros Ho Hd Hlat Hlon Hl. pose proof (Order_get_key _ _ _ Ho) as Ko.
  run. rewrite Ho.
  destruct (Delivery_get_by_order db oid) as [d |] eqn:Ed; simpl.
  - rewrite (Hd d eq_refl). simpl. rewrite Hlat, Hlon, Hl. simpl.
    pose proof (Delivery_get_by_order_key _ _ _ Ed) as Kd.
    exists (assigned_row now order best d). eexists.
    split; [reflexivity |]. split; [reflexivity |]. split; [reflexivity |]. split.
    + unfold Delivery_get_by_order, update_order, update_delivery, all_columns in *.
      simpl.
      apply (find_replace (fun x => order_id x =? oid) id d); [exact Ed |].
      simpl. rewrite Kd. apply Z.eqb_refl.
    + unfold Order_get, update_order, update_delivery, all_columns in *. simpl.
      apply (find_replace (fun x => order_pk x =? oid) order_pk order); [exact Ho |].
      simpl. rewrite Ko. apply Z.eqb_refl.
  - rewrite Hlat, Hlon, Hl. simpl.
    exists (assigned_row now order best (new_delivery (next_delivery_id db) oid)).
    eexists. split; [reflexivity |]. split; [reflexivity |].
    split; [reflexivity |]. split.
    + unfold Delivery_get_by_order, update_order, insert_delivery in *. simpl.
      apply find_app_new; [exact Ed |]. simpl. apply Z.eqb_refl.
    + unfold Order_get, update_order, insert_delivery, all_columns in *. simpl.
      apply (find_replace (fun x => order_pk x =? oid) order_pk order); [exact Ho |].
      simpl. rewrite Ko. apply Z.eqb_refl.
Qed.

(** X8.  [assign_delivery_to_driver] never adds a delivery row for an order
    that already has one; in any case it adds at most one row. *)
Theorem assign_row_count (now oid : Z) (db : DB) :
  let db' := snd (fst (assign_delivery_to_driver haversine_km distance_column
      now oid db)) in
  ((exists d, Delivery_get_by_order db oid = Some d) ->
   List.length (deliveries db') = List.length (deliveries db)) /\
  (List.length (deliveries db) <= List.length (deliveries db')
   <= S (List.length (deliveries db)))%nat.
Proof.
  run. destruct (Order_get db oid) as [order |]; simpl.
  2:{ split; [reflexivity | lia]. }
  destruct (Delivery_get_by_order db oid) as [d |]; simpl.
  - destruct (truthy_driver (driver d)); simpl; [split; [reflexivity | lia] |].
    destruct (negb _ || negb _); simpl; [split; [reflexivity | lia] |].
    destruct (find_available_drivers _ _ _ _ _) as [[| best rest] | e]; simpl;
      rewrite ?length_map; split; try reflexivity; lia.
  - destruct (negb _ || negb _); simpl.
    + split; [intros [d Hd]; discriminate | lia].
    + destruct (find_available_drivers _ _ _ _ _) as [[| best rest] | e]; simpl;
        rewrite ?length_app; simpl; (split; [intros [d Hd]; discriminate | lia]).
Qed.

End AssignSuccess.

(** A run of X7: the fresh order 1 goes to driver 8, some 2.997 km away;
    the returned delivery carries that distance and its row carries 3.00. *)
Lemma assign_success_witness :
  exists delivery db' row,
    assign_delivery_to_driver scenario.grid_km scenario.two_places 1000 1
      scenario.db_two_rated
      = (Return (Some delivery), db', [NotifyDriverNewDelivery 8 (id delivery)]) /\
    Delivery_get_by_order db' 1 = Some row /\
    (forall x, distance_km delivery = Some x -> (x == 2997 # 1000)%Q) /\
    distance_km row = Some (300 # 100) /\
    driver row = Some 8 /\ status row = assigned.
Proof.
  destruct (assign_success scenario.grid_km scenario.two_places 1000 1
              scenario.db_two_rated scenario.order1
              (located_entry scenario.grid_km (65244 # 10000) (33792 # 10000)
                 (scenario.availability_row 8 true true (Some (65514 # 10000))
                    (Some (33792 # 10000)) (48 # 10)))
              [located_entry scenario.grid_km (65244 # 10000) (33792 # 10000)
                 (scenario.availability_row 9 true true (Some (65334 # 10000))
                    (Some (33792 # 10000)) (42 # 10));
               synthetic (10 # 1)
                 (scenario.availability_row 10 true true (Some 0%Q)
                    (Some (33792 # 10000)) (30 # 10))])
    as (delivery & db' & Hrun & Hdel & Hdist & Hrow & _).
  - reflexivity.
  - intros d Hd. vm_compute in Hd. discriminate.
  - reflexivity.
  - reflexivity.
  - vm_compute. reflexivity.
  - exists delivery, db'. eexists.
    split; [exact Hrun |]. split; [exact Hrow |]. split.
    + intros x Hx. rewrite Hdist in Hx. injection Hx as <-. vm_compute. reflexivity.
    + subst delivery. split; [vm_compute; reflexivity |]. split; reflexivity.
Defined.

(** A run of X8: order 1 has a pending delivery, which is reused. *)
Lemma assign_row_count_witness :
  List.length
    (deliveries
       (snd (fst (assign_delivery_to_driver scenario.grid_km scenario.two_places
           1000 1 scenario.db_pending))))
  = List.length (deliveries scenario.db_pending).
Proof.
  apply (proj1 (assign_row_count scenario.grid_km scenario.two_places
      1000 1 scenario.db_pending)).
  exists (scenario.delivery_row 1 1 None pending None). reflexivity.
Defined.

(** ** [process_delivery_assignment] *)

Section ServiceFacts.

Variable haversine_km : Q -> Q -> Q -> Q -> option Q.
Variable distance_column : Q -> Q.

(** X9.  An order whose restaurant lacks a coordinate (null or zero) is not
    dispatched although drivers are online: within the retry budget
    [process_delivery_assignment] answers the retryable failure
    ['All drivers busy'] and writes nothing. *)
Theorem restaurant_without_coordinates (now oid max_retries current_retry : Z)
  (db : DB) (order : Order) :
  Order_get db oid = Some order ->
  (forall d, Delivery_get_by_order db oid = Some d -> driver d = None) ->
  online_verified_active db <> [] ->
  truthy (latitude (restaurant order)) = false \/
  truthy (longitude (restaurant order)) = false ->
  current_retry < max_retries ->
  process_delivery_assignment haversine_km distance_column
      now oid max_retries current_retry db
  = (Return (failure "All drivers busy" true), db, []).
Proof.
  intros Ho Hd Hon Hcoord Hlt.
  assert (Hassign :
    assign_delivery_to_driver haversine_km distance_column
        now oid db = (Return None, db, [])).
  { run. rewrite Ho.
    assert (Hbad : negb (truthy (latitude (restaurant order)))
                   || negb (truthy (longitude (restaurant order))) = true).
    { destruct Hcoord as [-> | ->]; simpl; [reflexivity | apply orb_true_r]. }
    destruct (Delivery_get_by_order db oid) as [d |]; simpl.
    - rewrite (Hd d eq_refl). simpl. rewrite Hbad. reflexivity.
    - rewrite Hbad. reflexivity. }
  run_service. rewrite Ho.
  destruct (Delivery_get_by_order db oid) as [d |].
  - rewrite (Hd d eq_refl). simpl.
    destruct (online_verified_active db) as [| a l]; [contradiction |]. simpl.
    rewrite Hassign. simpl.
    destruct (Z.geb_spec current_retry max_retries); [lia | reflexivity].
  - destruct (online_verified_active db) as [| a l]; [contradiction |]. simpl.
    rewrite Hassign. simpl.
    destruct (Z.geb_spec current_retry max_retries); [lia | reflexivity].
Qed.

End ServiceFacts.

(** A run of X9: order 2, of the restaurant on the equator. *)
Lemma restaurant_without_coordinates_witness :
  process_delivery_assignment scenario.grid_km scenario.two_places
      1000 2 3 0 scenario.db_equator
  = (Return (failure "All drivers busy" true), scenario.db_equator, []).
Proof.
  apply (restaurant_without_coordinates scenario.grid_km scenario.two_places
      1000 2 3 0 scenario.db_equator
           scenario.order2).
  - reflexivity.
  - intros d Hd. vm_compute in Hd. discriminate.
  - discriminate.
  - left. reflexivity.
  - lia.
Defined.

(** The branch of the service that reports ['All drivers busy']. *)
Ltac busy_branch oid db1 :=
  right; left; destruct (_ >=? _);
  [ let db' := fresh "db'" in
    let d := fresh "d" in
    let Hm := fresh "Hm" in
    destruct (mark_for_manual_assignment_marks oid "All drivers busy" db1)
      as (db' & d & Hm & _);
    rewrite Hm; simpl; exists db'; do 2 eexists;
    split; [reflexivity | right; reflexivity]
  | exists db1; do 2 eexists; split; [reflexivity | left; reflexivity] ].

Section ServiceFrame.

Variable haversine_km : Q -> Q -> Q -> Q -> option Q.
Variable distance_column : Q -> Q.

Lemma mark_for_manual_assignment_frame (oid : Z) (reason : string) (db : DB) :
  users (snd (fst (_mark_for_manual_assignment oid reason db))) = users db /\
  availabilities (snd (fst (_mark_for_manual_assignment oid reason db)))
    = availabilities db /\
  orders (snd (fst (_mark_for_manual_assignment oid reason db))) = orders db.
Proof.
  unfold _mark_for_manual_assignment, models.catch, models.bind, models.get_db,
    models.put_db, Delivery_save. simpl.
  destruct (Delivery_get_by_order db oid); simpl; auto.
Qed.

Lemma assign_delivery_to_driver_users (now oid : Z) (db : DB) :
  users (snd (fst (assign_delivery_to_driver haversine_km distance_column
      now oid db))) = users db.
Proof.
  run. destruct (Order_get db oid) as [order |]; simpl; [| reflexivity].
  destruct (Delivery_get_by_order db oid) as [d |]; simpl.
  - destruct (truthy_driver (driver d)); simpl; [reflexivity |].
    destruct (negb _ || negb _); simpl; [reflexivity |].
    destruct (find_available_drivers _ _ _ _ _) as [[| best rest] | e]; reflexivity.
  - destruct (negb _ || negb _); simpl; [reflexivity |].
    destruct (find_available_drivers _ _ _ _ _) as [[| best rest] | e]; reflexivity.
Qed.

(** The replies of the service, step by step. *)
Lemma process_delivery_assignment_cases (now oid max_retries current_retry : Z)
  (db : DB) :
  (Order_get db oid = None /\
   process_delivery_assignment haversine_km distance_column
       now oid max_retries current_retry db
   = (Return (failure "Order not found" false), db, [])) \/
  (exists order d drv,
      Order_get db oid = Some order /\
      Delivery_get_by_order db oid = Some d /\ driver d = Some drv /\
      status d <> pending /\
      process_delivery_assignment haversine_km distance_column
          now oid max_retries current_retry db
      = (Return {| success := true; error := None; retry := None;
                   delivery_id := Some (id d); driver_id := None;
                   already_assigned := Some true |}, db, [])) \/
  (exists db' again,
      online_verified_active db = [] /\
      process_delivery_assignment haversine_km distance_column
          now oid max_retries current_retry db
      = (Return (failure "No drivers online" again), db', []) /\
      (db' = db \/
       db' = snd (fst (_mark_for_manual_assignment oid "No drivers online" db)))) \/
  (exists order delivery drv db1 ev1,
      Order_get db oid = Some order /\
      online_verified_active db <> [] /\
      assign_delivery_to_driver haversine_km distance_column now oid db
      = (Return (Some delivery), db1, ev1) /\
      driver delivery = Some drv /\
      process_delivery_assignment haversine_km distance_column
          now oid max_retries current_retry db
      = (Return {| success := true; error := None; retry := None;
                   delivery_id := Some (id delivery); driver_id := Some drv;
                   already_assigned := None |}, db1,
         ev1 ++ [NotifyDriverNewDelivery drv (id delivery);
                 NotifyCustomerOrderStatus (order_id delivery) "driver_assigned";
                 SendEmailAsync "send_driver_new_delivery_email" (order_id delivery)])) \/
  (exists db' ev again,
      process_delivery_assignment haversine_km distance_column now oid max_retries
        current_retry db
      = (Return (failure "All drivers busy" again), db', ev) /\
      (db' = snd (fst (assign_delivery_to_driver haversine_km distance_column now oid db))
       \/
       db' = snd (fst (_mark_for_manual_assignment oid "All drivers busy"
                         (snd (fst (assign_delivery_to_driver haversine_km
                                      distance_column now oid db))))))) \/
  (online_verified_active db <> [] /\
   assign_delivery_to_driver haversine_km distance_column now oid db
   = (Raise (ValueError "math domain error"), db, []) /\
   process_delivery_assignment haversine_km distance_column now oid max_retries
     current_retry db
   = (Return (failure "math domain error" true), db, [])).
Proof.
  run_service.
  destruct (Order_get db oid) as [order |] eqn:Eo; [| left; auto]. right.
  destruct
    (match Delivery_get_by_order db oid with
     | Some existing_delivery =>
         if truthy_driver (driver existing_delivery)
            && negb (Status_eqb (status existing_delivery) pending)
         then Some existing_delivery else None
     | None => None
     end) as [e |] eqn:Echeck.
  - left. destruct (Delivery_get_by_order db oid) as [d |]; [| discriminate].
    destruct (truthy_driver (driver d) && negb (Status_eqb (status d) pending)) eqn:Eb;
      [| discriminate].
    injection Echeck as <-. apply andb_true_iff in Eb. destruct Eb as [Hd Hs].
    destruct (driver d) as [drv |] eqn:Edrv; [| discriminate].
    apply negb_true_iff, Status_eqb_neq in Hs.
    exists order, d, drv. auto.
  - right. clear Echeck.
    destruct (online_verified_active db) as [| a l] eqn:Eon; simpl.
    + left. destruct (current_retry >=? max_retries).
      * destruct (mark_for_manual_assignment_marks oid "No drivers online" db)
          as (db' & d & Hm & _).
        rewrite Hm. simpl. exists db', false. split; [reflexivity |].
        split; [reflexivity |]. right. reflexivity.
      * exists db, true. auto.
    + right.
      destruct (assign_delivery_to_driver_outcome haversine_km distance_column now oid db)
        as [(delivery & db1 & ev1 & Ha) | [Ha | (o & la & lo & _ & _ & _ & _ & Ha)]];
        rewrite Ha; simpl.
      * destruct (driver delivery) as [drv |] eqn:Edrv; simpl.
        -- left. exists order, delivery, drv, db1, ev1.
           split; [reflexivity |]. split; [discriminate |].
           split; [reflexivity |]. split; [exact Edrv |]. reflexivity.
        -- busy_branch oid db1.
      * busy_branch oid db.
      * right. right. split; [discriminate |]. split; reflexivity.
Qed.

End ServiceFrame.

Lemma online_verified_active_ext (db db' : DB) :
  users db' = users db -> availabilities db' = availabilities db ->
  online_verified_active db' = online_verified_active db.
Proof.
  unfold online_verified_active, User_get. intros -> ->. reflexivity.
Qed.

Section ServiceReplies.

Variable haversine_km : Q -> Q -> Q -> Q -> option Q.
Variable distance_column : Q -> Q.

(** X10.  [process_delivery_assignment] never raises.  A success reply
    carries a [delivery_id]; a failure reply carries an [error] text and a
    [retry] flag and no [delivery_id]. *)
Theorem service_always_answers (now oid max_retries current_retry : Z) (db : DB) :
  exists res db' ev,
    process_delivery_assignment haversine_km distance_column
        now oid max_retries current_retry db
      = (Return res, db', ev) /\
    (success res = true -> exists i, delivery_id res = Some i) /\
    (success res = false ->
       exists msg again,
         error res = Some msg /\ retry res = Some again /\ delivery_id res = None).
Proof.
  destruct (process_delivery_assignment_cases haversine_km distance_column
      now oid max_retries
              current_retry db)
    as [[_ H] | [(o & d & drv & _ & _ & _ & _ & H) | [(db' & again & _ & H & _)
       | [(o & dl & drv & db1 & ev1 & _ & _ & _ & _ & H)
       | [(db' & ev & again & H & _) | (_ & _ & H)]]]]];
    rewrite H; do 3 eexists; (split; [reflexivity |]); simpl; split; intro E;
    try discriminate E; eauto.
Qed.

(** X11.  [process_delivery_assignment] writes no row of
    [DriverAvailability] and no row of [User], whatever its outcome: it
    neither claims nor releases a driver. *)
Theorem service_leaves_drivers_alone (now oid max_retries current_retry : Z) (db : DB) :
  availabilities
    (snd (fst (process_delivery_assignment haversine_km distance_column now oid max_retries
                 current_retry db)))
  = availabilities db /\
  users
    (snd (fst (process_delivery_assignment haversine_km distance_column now oid max_retries
                 current_retry db)))
  = users db.
Proof.
  pose proof (assign_delivery_to_driver_availabilities haversine_km distance_column
      now oid db) as Hav.
  pose proof (assign_delivery_to_driver_users haversine_km distance_column
      now oid db) as Hus.
  destruct (process_delivery_assignment_cases haversine_km distance_column
      now oid max_retries
              current_retry db)
    as [[_ H] | [(o & d & drv & _ & _ & _ & _ & H) | [(db' & again & _ & H & Hdb)
       | [(o & dl & drv & db1 & ev1 & _ & _ & Ha & _ & H)
       | [(db' & ev & again & H & Hdb) | (_ & _ & H)]]]]];
    rewrite H; simpl; auto.
  - destruct Hdb as [-> | ->]; [auto |].
    destruct (mark_for_manual_assignment_frame oid "No drivers online" db)
      as (Hu & Ha & _).
    auto.
  - rewrite Ha in Hav, Hus. simpl in Hav, Hus. auto.
  - destruct Hdb as [-> | ->]; [auto |].
    destruct (mark_for_manual_assignment_frame oid "All drivers busy"
                (snd (fst (assign_delivery_to_driver haversine_km distance_column
                    now oid db))))
      as (Hu & Ha & _).
    rewrite Hu, Ha. auto.
Qed.

(** What a delivery returned by [assign_delivery_to_driver] leaves in the
    database: a row of the order with the same key and driver. *)
Lemma assign_result_stored (now oid : Z) (db db1 : DB) (order : Order)
  (delivery : Delivery) (ev : list Event) :
  Order_get db oid = Some order ->
  assign_delivery_to_driver haversine_km distance_column now oid db
  = (Return (Some delivery), db1, ev) ->
  (exists row, Delivery_get_by_order db1 oid = Some row /\
               id row = id delivery /\ driver row = driver delivery) /\
  exists order', Order_get db1 oid = Some order'.
Proof.
  intros Ho. pose proof (Order_get_key _ _ _ Ho) as Ko.
  run. rewrite Ho.
  destruct (Delivery_get_by_order db oid) as [d |] eqn:Ed; simpl.
  - destruct (truthy_driver (driver d)); simpl.
    + intro H. injection H as <- <- _. split; [exists d; auto | eauto].
    + destruct (negb _ || negb _); simpl; [discriminate |].
      destruct (find_available_drivers _ _ _ _ _) as [[| best rest] | e]; simpl;
        try discriminate.
      intro H. injection H as <- <- _.
      pose proof (Delivery_get_by_order_key _ _ _ Ed) as Kd. split.
      * eexists. split.
        { unfold Delivery_get_by_order, update_order, update_delivery, all_columns in *.
          simpl.
          apply (find_replace (fun x => order_id x =? oid) id d); [exact Ed |].
          simpl. rewrite Kd. apply Z.eqb_refl. }
        split; reflexivity.
      * eexists. unfold Order_get, update_order, update_delivery, all_columns in *.
        simpl.
        apply (find_replace (fun x => order_pk x =? oid) order_pk order); [exact Ho |].
        simpl. rewrite Ko. apply Z.eqb_refl.
  - destruct (negb _ || negb _); simpl; [discriminate |].
    destruct (find_available_drivers _ _ _ _ _) as [[| best rest] | e]; simpl;
      try discriminate.
    intro H. injection H as <- <- _. split.
    + eexists. split.
      { unfold Delivery_get_by_order, update_order, insert_delivery in *. simpl.
        apply find_app_new; [exact Ed |]. simpl. apply Z.eqb_refl. }
      split; reflexivity.
    + eexists. unfold Order_get, update_order, insert_delivery, all_columns in *.
      simpl.
      apply (find_replace (fun x => order_pk x =? oid) order_pk order); [exact Ho |].
      simpl. rewrite Ko. apply Z.eqb_refl.
Qed.

(** The service called on a state where the order's delivery has a driver. *)
Lemma service_finds_assigned (now oid max_retries current_retry : Z) (db : DB)
  (order : Order) (delivery : Delivery) (drv : Z) :
  Order_get db oid = Some order ->
  Delivery_get_by_order db oid = Some delivery ->
  driver delivery = Some drv ->
  (status delivery = pending -> online_verified_active db <> []) ->
  exists res ev,
    process_delivery_assignment haversine_km distance_column
        now oid max_retries current_retry db
      = (Return res, db, ev) /\
    success res = true /\ delivery_id res = Some (id delivery).
Proof.
  intros Ho Hd Hdrv Hon. run_service. rewrite Ho, Hd, Hdrv. simpl.
  destruct (Status_eqb (status delivery) pending) eqn:Es; simpl.
  - apply Status_eqb_eq in Es. specialize (Hon Es).
    destruct (online_verified_active db) as [| a l]; [contradiction |]. simpl.
    assert (Ha : assign_delivery_to_driver haversine_km distance_column now oid db
                 = (Return (Some delivery), db, [])).
    { run. rewrite Ho, Hd, Hdrv. reflexivity. }
    rewrite Ha. simpl. rewrite Hdrv. simpl.
    do 2 eexists. split; [reflexivity |]. split; reflexivity.
  - do 2 eexists. split; [reflexivity |]. split; reflexivity.
Qed.

(** X12.  Repeating a successful call.  If [process_delivery_assignment]
    answered success for an order, then calling it again for that order on
    the state it left (at any later time, with any retry counters) answers
    success with the same [delivery_id] and leaves the database exactly as
    it is. *)
Theorem service_repeat_is_stable (now now2 oid max_retries current_retry
  max_retries2 current_retry2 : Z) (db db1 : DB) (r1 : AssignmentResult)
  (ev1 : list Event) :
  process_delivery_assignment haversine_km distance_column
      now oid max_retries current_retry db
    = (Return r1, db1, ev1) ->
  success r1 = true ->
  exists r2 ev2,
    process_delivery_assignment haversine_km distance_column
        now2 oid max_retries2 current_retry2 db1
      = (Return r2, db1, ev2) /\
    success r2 = true /\ delivery_id r2 = delivery_id r1.
Proof.
  intros H1 Hs.
  destruct (process_delivery_assignment_cases haversine_km distance_column
      now oid max_retries
              current_retry db)
    as [[_ H] | [(o & d & drv & Ho & Hd & Hdrv & Hst & H) | [(db' & again & _ & H & _)
       | [(o & dl & drv & db2 & ev & Ho & Hon & Ha & Hdrv & H)
       | [(db' & ev & again & H & _) | (_ & _ & H)]]]]];
    rewrite H in H1; injection H1 as <- <- <-; try discriminate Hs.
  - apply (service_finds_assigned now2 oid max_retries2 current_retry2 db o d drv
             Ho Hd Hdrv).
    intro. contradiction.
  - destruct (assign_result_stored now oid db db2 o dl ev Ho Ha)
      as [(row & Hd' & Kid & Kdrv) [o' Ho']].
    rewrite <- Kid. rewrite <- Kdrv in Hdrv.
    apply (service_finds_assigned now2 oid max_retries2 current_retry2 db2 o' row drv
             Ho' Hd' Hdrv).
    intros _.
    pose proof (assign_delivery_to_driver_availabilities haversine_km distance_column
        now oid db) as Hav.
    pose proof (assign_delivery_to_driver_users haversine_km distance_column
        now oid db) as Hus.
    rewrite Ha in Hav, Hus. simpl in Hav, Hus.
    rewrite (online_verified_active_ext db db2 Hus Hav). exact Hon.
Qed.

End ServiceReplies.

(** A run of X10: the fresh order 1 is assigned, and the reply carries the
    delivery's id. *)
Lemma service_always_answers_witness :
  exists res db' ev i,
    process_delivery_assignment scenario.grid_km scenario.two_places
        1000 1 3 0 scenario.db_fresh
      = (Return res, db', ev) /\
    delivery_id res = Some i.
Proof.
  destruct (service_always_answers scenario.grid_km scenario.two_places
      1000 1 3 0 scenario.db_fresh)
    as (res & db' & ev & H & Hok & _).
  assert (Hs : success res = true).
  { vm_compute in H. injection H as <- _ _. reflexivity. }
  destruct (Hok Hs) as [i Hi].
  exists res, db', ev, i. split; assumption.
Defined.

(** A run of X12: order 1 is assigned at time 1000 and the call is repeated
    at time 2000 with the retry budget used up. *)
Lemma service_repeat_is_stable_witness :
  exists r2 ev2,
    process_delivery_assignment scenario.grid_km scenario.two_places 2000 1 3 3
      (snd (fst (process_delivery_assignment scenario.grid_km scenario.two_places 1000 1 3 0
                   scenario.db_fresh)))
    = (Return r2,
       snd (fst (process_delivery_assignment scenario.grid_km scenario.two_places 1000 1 3 0
                   scenario.db_fresh)), ev2) /\
    success r2 = true /\ delivery_id r2 = Some 1.
Proof.
  apply (service_repeat_is_stable scenario.grid_km scenario.two_places 1000 2000 1 3 0 3 3
           scenario.db_fresh _
           {| success := true; error := None; retry := None;
              delivery_id := Some 1; driver_id := Some 7; already_assigned := None |}
           [NotifyDriverNewDelivery 7 1; NotifyDriverNewDelivery 7 1;
            NotifyCustomerOrderStatus 1 "driver_assigned";
            SendEmailAsync "send_driver_new_delivery_email" 1]).
  - vm_compute. reflexivity.
  - reflexivity.
Defined.

(** ** [reassign_delivery] *)

Section ReassignOutcome.

Variable haversine_km : Q -> Q -> Q -> Q -> option Q.

(** The run of [reassign_delivery] up to the search for a new driver. *)
Lemma reassign_delivery_unfold (now did : Z) (db : DB) (delivery : Delivery) :
  Delivery_get db did = Some delivery ->
  reassign_delivery haversine_km now did db
  = match find_available_drivers haversine_km (released db (driver delivery))
            (pickup_latitude delivery) (pickup_longitude delivery) (10 # 1) with
    | Return [] =>
        (Return None,
         update_delivery (id delivery)
           (all_columns (with_driver None (with_status pending delivery)))
           (released db (driver delivery)), [])
    | Return (best :: _) =>
        (Return (Some (with_assigned_at (Some now)
                         (with_status assigned
                            (with_driver (Some (c_driver best)) delivery)))),
         update_delivery (id delivery)
           (all_columns (with_assigned_at (Some now)
                           (with_status assigned
                              (with_driver (Some (c_driver best)) delivery))))
           (released db (driver delivery)),
         [NotifyDriverNewDelivery (c_driver best) (id delivery)])
    | Raise e => (Raise e, released db (driver delivery), [])
    end.
Proof.
  intro Hd. run. rewrite Hd. simpl.
  destruct (driver delivery) as [p |]; simpl.
  - destruct (DriverAvailability_get db p) as [a |] eqn:Ea; simpl.
    + rewrite (DriverAvailability_get_key _ _ _ Ea).
      destruct (find_available_drivers _ _ _ _ _) as [[| best rest] | e]; reflexivity.
    + destruct (find_available_drivers _ _ _ _ _) as [[| best rest] | e]; reflexivity.
  - destruct (find_available_drivers _ _ _ _ _) as [[| best rest] | e]; reflexivity.
Qed.

Lemma Delivery_get_replaced (db : DB) (did : Z) (delivery delivery' : Delivery) :
  Delivery_get db did = Some delivery ->
  id delivery' = id delivery ->
  Delivery_get (update_delivery (id delivery) (all_columns delivery') db) did
  = Some delivery'.
Proof.
  intros Hd Hid. pose proof (Delivery_get_key _ _ _ Hd) as Kd.
  unfold Delivery_get, update_delivery, all_columns in *. simpl.
  apply (find_replace (fun x => id x =? did) id delivery); [exact Hd |].
  simpl. rewrite Hid, Kd. apply Z.eqb_refl.
Qed.

Lemma Delivery_get_released (db : DB) (p : option Z) (did : Z) :
  Delivery_get (released db p) did = Delivery_get db did.
Proof.
  destruct p as [drv |]; simpl; [| reflexivity].
  destruct (DriverAvailability_get db drv); reflexivity.
Qed.

(** X13.  When the search after the release finds nobody,
    [reassign_delivery] returns [None] and leaves the delivery [pending]
    without a driver, so that [get_pending_deliveries] lists it; nobody is
    notified. *)
Theorem reassign_without_candidate (now did : Z) (db : DB) (delivery : Delivery) :
  Delivery_get db did = Some delivery ->
  find_available_drivers haversine_km (released db (driver delivery))
    (pickup_latitude delivery) (pickup_longitude delivery) (10 # 1) = Return [] ->
  exists db',
    reassign_delivery haversine_km now did db = (Return None, db', []) /\
    Delivery_get db' did = Some (with_driver None (with_status pending delivery)) /\
    In (with_driver None (with_status pending delivery)) (get_pending_deliveries db').
Proof.
  intros Hd Hnone. rewrite (reassign_delivery_unfold now did db delivery Hd), Hnone.
  eexists. split; [reflexivity |].
  assert (Hget :
    Delivery_get
      (update_delivery (id delivery)
         (all_columns (with_driver None (with_status pending delivery)))
         (released db (driver delivery))) did
    = Some (with_driver None (with_status pending delivery))).
  { apply Delivery_get_replaced; [| reflexivity].
    rewrite Delivery_get_released. exact Hd. }
  split; [exact Hget |].
  unfold get_pending_deliveries. apply filter_In. split; [| reflexivity].
  unfold Delivery_get in Hget. apply find_some in Hget. exact (proj1 Hget).
Qed.

(** X14.  When the search after the release finds candidates,
    [reassign_delivery] gives the delivery to the first one: it returns the
    delivery with that driver, status [assigned] and [assigned_at = now],
    the other columns as they were, stores it, and sends one new-delivery
    notice to that driver. *)
Theorem reassign_success (now did : Z) (db : DB) (delivery : Delivery)
  (best : Candidate) (rest : list Candidate) :
  Delivery_get db did = Some delivery ->
  find_available_drivers haversine_km (released db (driver delivery))
    (pickup_latitude delivery) (pickup_longitude delivery) (10 # 1)
    = Return (best :: rest) ->
  exists db',
    reassign_delivery haversine_km now did db
    = (Return (Some (with_assigned_at (Some now)
                       (with_status assigned
                          (with_driver (Some (c_driver best)) delivery)))),
       db', [NotifyDriverNewDelivery (c_driver best) (id delivery)]) /\
    Delivery_get db' did
    = Some (with_assigned_at (Some now)
              (with_status assigned (with_driver (Some (c_driver best)) delivery))).
Proof.
  intros Hd Hl. rewrite (reassign_delivery_unfold now did db delivery Hd), Hl.
  eexists. split; [reflexivity |].
  apply Delivery_get_replaced; [| reflexivity].
  rewrite Delivery_get_released. exact Hd.
Qed.

End ReassignOutcome.

(** A run of X13: driver 7 is offline, so the delivery goes back to
    pending. *)
Lemma reassign_without_candidate_witness :
  exists db',
    reassign_delivery scenario.grid_km 1000 1 scenario.db_assigned_offline
      = (Return None, db', []) /\
    Delivery_get db' 1
      = Some (with_driver None
                (with_status pending
                   (scenario.delivery_row 1 1 (Some 7) assigned (Some 0)))) /\
    In (with_driver None
          (with_status pending (scenario.delivery_row 1 1 (Some 7) assigned (Some 0))))
       (get_pending_deliveries db').
Proof.
  apply (reassign_without_candidate scenario.grid_km 1000 1
           scenario.db_assigned_offline
           (scenario.delivery_row 1 1 (Some 7) assigned (Some 0))).
  - reflexivity.
  - reflexivity.
Defined.

(** A run of X14: the pending delivery of order 1 goes to driver 7. *)
Lemma reassign_success_witness :
  exists db',
    reassign_delivery scenario.grid_km 1000 1 scenario.db_pending
    = (Return (Some (with_assigned_at (Some 1000)
                       (with_status assigned
                          (with_driver (Some 7)
                             (scenario.delivery_row 1 1 None pending None))))),
       db', [NotifyDriverNewDelivery 7 1]) /\
    Delivery_get db' 1
    = Some (with_assigned_at (Some 1000)
              (with_status assigned
                 (with_driver (Some 7) (scenario.delivery_row 1 1 None pending None)))).
Proof.
  apply (reassign_success scenario.grid_km 1000 1 scenario.db_pending
           (scenario.delivery_row 1 1 None pending None)
           (synthetic (10 # 1) scenario.driver7) []).
  - reflexivity.
  - reflexivity.
Defined.

(** ** The scheduled tasks *)

Section TaskFacts.

Variable haversine_km : Q -> Q -> Q -> Q -> option Q.
Variable distance_column : Q -> Q.

(** X15.  [check_assignment_timeout] leaves alone every delivery that is no
    longer [assigned], and every assigned delivery whose timeout has not run
    out yet: it reports [action: none] with the delivery's status, writes
    nothing and notifies nobody. *)
Theorem timeout_check_before_timeout (setting : option Z) (now did : Z) (db : DB)
  (delivery : Delivery) :
  Delivery_get db did = Some delivery ->
  status delivery <> assigned \/
  (exists t, assigned_at delivery = Some t /\
             (total_seconds (now - t) < inject_Z (timeout_seconds setting))%Q) ->
  check_assignment_timeout haversine_km setting now did db
  = (Return (ActionNone (status delivery)), db, []).
Proof.
  intros Hd Hcase.
  unfold check_assignment_timeout, models.bind, models.get_db, models.lift, models.ret.
  rewrite Hd. destruct Hcase as [Hs | (t & Ht & Hlt)].
  - apply Status_eqb_neq in Hs. rewrite Hs. reflexivity.
  - destruct (Status_eqb (status delivery) assigned); [| reflexivity].
    rewrite Ht. simpl. fold (timeout_seconds setting).
    destruct (Qle_bool (inject_Z (timeout_seconds setting)) (total_seconds (now - t)))
      eqn:El; [| reflexivity].
    apply Qle_bool_iff in El. exfalso. exact (Qlt_not_le _ _ Hlt El).
Qed.

(** X16.  The retry schedule of [assign_delivery_async] when nobody is
    online, for an order that exists and is not assigned.  On the attempts
    with [retries < 3] the task asks to be retried after [30 * (retries + 1)]
    seconds and has written nothing; from [retries = 3] on it returns a
    failure that is not retryable, the order's delivery being [pending] with
    the note ['No drivers online - requires manual assignment'] in
    [driver_notes]. *)
Theorem async_retry_schedule (now oid retries : Z) (db : DB) (order : Order) :
  Order_get db oid = Some order ->
  (forall d, Delivery_get_by_order db oid = Some d ->
             driver d = None \/ status d = pending) ->
  online_verified_active db = [] ->
  (retries < 3 ->
     assign_delivery_async haversine_km distance_column now oid retries db
     = (Return (RetryIn (30 * (retries + 1))), db, [])) /\
  (3 <= retries ->
     exists db' d,
       assign_delivery_async haversine_km distance_column now oid retries db
       = (Return (Done (failure "No drivers online" false)), db', []) /\
       Delivery_get_by_order db' oid = Some d /\ status d = pending /\
       driver_notes d = "No drivers online - requires manual assignment"%string).
Proof.
  intros Ho Hna Hnone.
  assert (Hcheck :
    match Delivery_get_by_order db oid with
    | Some existing_delivery =>
        if truthy_driver (driver existing_delivery)
           && negb (Status_eqb (status existing_delivery) pending)
        then Some existing_delivery else None
    | None => None
    end = None).
  { destruct (Delivery_get_by_order db oid) as [d |]; [| reflexivity].
    destruct (Hna d eq_refl) as [H | H]; rewrite H; simpl; [reflexivity |].
    rewrite andb_false_r. reflexivity. }
  unfold assign_delivery_async. unfold models.bind at 1. run_service.
  rewrite Ho, Hcheck, Hnone. simpl. split; intro Hr.
  - destruct (Z.geb_spec retries 3); [lia |]. reflexivity.
  - destruct (Z.geb_spec retries 3); [| lia].
    destruct (mark_for_manual_assignment_marks oid "No drivers online" db)
      as (db' & d & Hm & Hd).
    rewrite Hm. simpl. exists db', d. split; [reflexivity | exact Hd].
Qed.

End TaskFacts.

(** A run of X15: order 1 was assigned at time 0; 299 seconds later the
    check does nothing. *)
Lemma timeout_check_before_timeout_witness :
  check_assignment_timeout scenario.grid_km None 299000000 1 scenario.db_assigned
  = (Return (ActionNone assigned), scenario.db_assigned, []).
Proof.
  apply (timeout_check_before_timeout scenario.grid_km None 299000000 1
           scenario.db_assigned (scenario.delivery_row 1 1 (Some 7) assigned (Some 0))).
  - reflexivity.
  - right. exists 0. split; [reflexivity |].
    unfold Qlt, total_seconds, timeout_seconds. simpl. lia.
Defined.

(** A run of X16: nobody is online for order 1 and the three retries are
    used up. *)
Lemma async_retry_schedule_witness :
  exists db' d,
    assign_delivery_async scenario.grid_km scenario.two_places 1000 1 3 scenario.db_nobody
    = (Return (Done (failure "No drivers online" false)), db', []) /\
    Delivery_get_by_order db' 1 = Some d /\ status d = pending /\
    driver_notes d = "No drivers online - requires manual assignment"%string.
Proof.
  apply (proj2 (async_retry_schedule scenario.grid_km scenario.two_places 1000 1 3
                  scenario.db_nobody scenario.order1 eq_refl
                  ltac:(intros d Hd; vm_compute in Hd; discriminate) eq_refl)).
  lia.
Defined.

(** ** [run_task_safe], continued *)

(** X17.  [run_task_safe] returns true exactly when the work has been
    handed to one of the three tiers.  The work goes on the queue only when
    the queue is not switched off and the submission succeeded, and it is
    run inline only when the thread could not be started. *)
Theorem run_task_safe_reports_placement {Args Ret : Type} (ENABLE_CELERY : option bool)
  (delay : Args -> outcome Z) (thread_start : Args -> outcome unit)
  (sync_func : Args -> outcome Ret) (args : Args) :
  let result := run_task_safe ENABLE_CELERY delay thread_start sync_func args in
  (fst result = true <-> exists tier, snd result = Some tier) /\
  (snd result = Some Queue ->
     ENABLE_CELERY <> Some false /\ is_return (delay args) = true) /\
  (snd result = Some Inline ->
     is_return (thread_start args) = false /\ is_return (sync_func args) = true).
Proof.
  unfold run_task_safe, fallback.
  destruct ENABLE_CELERY as [[|] |]; simpl;
    destruct (delay args), (thread_start args), (sync_func args); simpl;
    repeat split; intros; try discriminate; try reflexivity; eauto;
    match goal with
    | H : exists _, None = Some _ |- _ => destruct H; discriminate
    end.
Qed.

(** A run of X17: the broker is down and no thread can be started. *)
Lemma run_task_safe_reports_placement_witness :
  is_return (scenario.no_thread 1) = false /\
  is_return (scenario.fallback_completes 1) = true.
Proof.
  exact (proj2 (proj2
           (run_task_safe_reports_placement (Some true) scenario.broker_down
              scenario.no_thread scenario.fallback_completes 1))
           eq_refl).
Defined.

(** ** Driver records *)

(** X18.  [increment_deliveries] counts one more delivery, as successful or
    as cancelled, and keeps the counters adding up
    ([total = successful + cancelled]), in the instance and in the stored
    row; it writes the three counters only, so the stored flags stay. *)
Theorem increment_deliveries_keeps_counts (self row : DriverAvailability)
  (successful : bool) (db : DB) :
  DriverAvailability_get db (av_driver self) = Some row ->
  counts_consistent self ->
  exists self' db' row',
    increment_deliveries self successful db = (Return self', db', []) /\
    total_deliveries self' = total_deliveries self + 1 /\
    successful_deliveries self'
      = successful_deliveries self + (if successful then 1 else 0) /\
    counts_consistent self' /\
    DriverAvailability_get db' (av_driver self) = Some row' /\
    total_deliveries row' = total_deliveries self' /\
    counts_consistent row' /\
    is_available row' = is_available row /\ is_online row' = is_online row.
Proof.
  unfold counts_consistent. intros Hrow Hc.
  pose proof (DriverAvailability_get_key _ _ _ Hrow) as Krow.
  unfold increment_deliveries, models.bind, models.ret, DriverAvailability_save.
  destruct successful; simpl.
  - do 3 eexists. split; [reflexivity |]. simpl.
    split; [reflexivity |]. split; [reflexivity |]. split; [lia |].
    rewrite DriverAvailability_get_update by (intros r Hr; exact Hr).
    rewrite Hrow. simpl. rewrite Krow, Z.eqb_refl.
    split; [reflexivity |]. simpl. repeat split; lia.
  - do 3 eexists. split; [reflexivity |]. simpl.
    split; [reflexivity |]. split; [lia |]. split; [lia |].
    rewrite DriverAvailability_get_update by (intros r Hr; exact Hr).
    rewrite Hrow. simpl. rewrite Krow, Z.eqb_refl.
    split; [reflexivity |]. simpl. repeat split; lia.
Qed.

(** A run of X18: driver 7 with 4 deliveries on record, 3 successful and 1
    cancelled, completes another one. *)
Lemma increment_deliveries_keeps_counts_witness :
  exists self' db' row',
    increment_deliveries scenario.driver7_busy true scenario.db_accepted
      = (Return self', db', []) /\
    total_deliveries self' = 4 + 1 /\
    successful_deliveries self' = 3 + 1 /\
    counts_consistent self' /\
    DriverAvailability_get db' 7 = Some row' /\
    total_deliveries row' = total_deliveries self' /\
    counts_consistent row' /\
    is_available row' = false /\ is_online row' = true.
Proof.
  exact (increment_deliveries_keeps_counts scenario.driver7_busy scenario.driver7_busy
           true scenario.db_accepted eq_refl eq_refl).
Defined.

(** X19.  [success_rate] is a percentage: for counters with
    [0 <= successful <= total] it lies between 0 and 100; it is 0 for a
    driver without deliveries (no division by zero) and 100 when every
    delivery was successful. *)
Theorem success_rate_is_a_percentage (a : DriverAvailability) :
  0 <= successful_deliveries a <= total_deliveries a ->
  (0 <= success_rate a)%Q /\ (success_rate a <= inject_Z 100)%Q /\
  (total_deliveries a = 0 -> success_rate a = 0%Q) /\
  (0 < total_deliveries a -> successful_deliveries a = total_deliveries a ->
   (success_rate a == inject_Z 100)%Q).
Proof.
  intros [Hs Ht]. unfold success_rate.
  destruct (Z.eqb_spec (total_deliveries a) 0) as [E | E].
  - split; [apply Qle_refl |]. split; [unfold Qle; simpl; lia |].
    split; [reflexivity | lia].
  - assert (Hpos : (0 < inject_Z (total_deliveries a))%Q).
    { unfold Qlt. simpl. lia. }
    assert (H0 : (0 <= inject_Z (successful_deliveries a)
                       / inject_Z (total_deliveries a))%Q).
    { apply Qle_shift_div_l; [exact Hpos |]. rewrite Qmult_0_l.
      unfold Qle. simpl. lia. }
    assert (H1 : (inject_Z (successful_deliveries a)
                  / inject_Z (total_deliveries a) <= 1)%Q).
    { apply Qle_shift_div_r; [exact Hpos |]. rewrite Qmult_1_l.
      unfold Qle. simpl. lia. }
    split; [| split; [| split]].
    + apply Qmult_le_0_compat; [exact H0 |]. unfold Qle. simpl. lia.
    + rewrite <- (Qmult_1_l (inject_Z 100)) at 2.
      apply Qmult_le_compat_r; [exact H1 |]. unfold Qle. simpl. lia.
    + intro H. contradiction.
    + intros _ Heq. rewrite Heq.
      unfold Qdiv. rewrite Qmult_inv_r.
      * apply Qmult_1_l.
      * intro Hz. rewrite Hz in Hpos. exact (Qlt_irrefl _ Hpos).
Qed.

(** A run of X19: 3 successful deliveries out of 4. *)
Lemma success_rate_is_a_percentage_witness :
  (0 <= success_rate scenario.driver7_busy)%Q /\
  (success_rate scenario.driver7_busy <= inject_Z 100)%Q.
Proof.
  destruct (success_rate_is_a_percentage scenario.driver7_busy) as (H0 & H1 & _).
  - simpl. lia.
  - split; assumption.
Defined.

Lemma updated_rows_are_offline (db : DB) (k : Z)
  (f : DriverAvailability -> DriverAvailability) (a : DriverAvailability) :
  (forall row, is_online (f row) = false) ->
  In a (availabilities (update_availability k f db)) ->
  av_driver a = k -> is_online a = false.
Proof.
  intros Hf Hin Hk. unfold update_availability in Hin. simpl in Hin.
  apply in_map_iff in Hin. destruct Hin as (a0 & Ha & _).
  destruct (av_driver a0 =? k) eqn:E.
  - rewrite <- Ha. apply Hf.
  - subst a. apply Z.eqb_neq in E. contradiction.
Qed.

(** X20.  After [go_offline] the driver is in no candidate list: whatever
    the pickup point and the radius, [find_available_drivers] on the
    resulting state returns no entry of that driver. *)
Theorem offline_driver_is_not_listed (haversine_km : Q -> Q -> Q -> Q -> option Q)
  (self : DriverAvailability) (db : DB) (rlat rlon : option Q) (radius_km : Q)
  (l : list Candidate) (x : Candidate) :
  find_available_drivers haversine_km (snd (fst (go_offline self db))) rlat rlon radius_km
    = Return l ->
  In x l ->
  c_driver x <> av_driver self.
Proof.
  unfold find_available_drivers. intros Hl Hx Heq.
  destruct (nearby_loop haversine_km rlat rlon radius_km
              (truly_available (snd (fst (go_offline self db)))))
    as [nearby |] eqn:Hn; [| discriminate].
  injection Hl as <-.
  apply (Permutation_in x (Permutation_sym (sort_by_key_perm nearby))) in Hx.
  destruct (nearby_loop_source haversine_km _ _ _ _ _ x Hn Hx) as [Hin Hd].
  apply qualifies_truly_available in Hin.
  destruct Hin as (Hrow & Hon & _).
  unfold go_offline, models.bind, models.ret, DriverAvailability_save in Hrow.
  simpl in Hrow.
  assert (Hoff : is_online (c_availability x) = false).
  { apply (updated_rows_are_offline db (av_driver self)
             (fun row => with_is_available false (with_is_online false row))).
    - intro row. reflexivity.
    - exact Hrow.
    - rewrite <- Hd. exact Heq. }
  congruence.
Qed.

(** A run of X20: driver 9 goes offline; driver 8 is still listed, and is
    not driver 9. *)
Lemma offline_driver_is_not_listed_witness :
  c_driver
    (located_entry scenario.grid_km (65244 # 10000) (33792 # 10000)
       (scenario.availability_row 8 true true (Some (65514 # 10000))
          (Some (33792 # 10000)) (48 # 10)))
  <> 9.
Proof.
  apply (offline_driver_is_not_listed scenario.grid_km
           (scenario.availability_row 9 true true (Some (65334 # 10000))
              (Some (33792 # 10000)) (42 # 10))
           scenario.db_two_rated (Some (65244 # 10000)) (Some (33792 # 10000)) (10 # 1)
           [located_entry scenario.grid_km (65244 # 10000) (33792 # 10000)
              (scenario.availability_row 8 true true (Some (65514 # 10000))
                 (Some (33792 # 10000)) (48 # 10));
            synthetic (10 # 1)
              (scenario.availability_row 10 true true (Some 0%Q) (Some (33792 # 10000))
                 (30 # 10))]).
  - vm_compute. reflexivity.
  - left. reflexivity.
Defined.

(** What [mark_delivered] does for a delivery whose order and driver record
    exist. *)
Lemma mark_delivered_run (now : Z) (self : Delivery) (db : DB) (order : Order)
  (drv : Z) (a : DriverAvailability) :
  Order_get db (order_id self) = Some order ->
  driver self = Some drv ->
  DriverAvailability_get db drv = Some a ->
  exists db' ev,
    mark_delivered now self db = (Return (delivered_row now self), db', ev) /\
    DriverAvailability_get db' drv = Some (counted_row a) /\
    Order_get db' (order_id self)
      = Some (with_delivered_at (Some now) (with_order_status o_delivered order)) /\
    deliveries db' = deliveries (update_delivery (id self) (delivered_row now) db).
Proof.
  intros Ho Hdrv Ha.
  pose proof (DriverAvailability_get_key _ _ _ Ha) as Ka.
  pose proof (Order_get_key _ _ _ Ho) as Ko.
  assert (Horder : forall dbx,
    orders dbx = orders db ->
    Order_get
      (update_order (order_pk order)
         (fun row => with_delivered_at (Some now) (with_order_status o_delivered row))
         dbx) (order_id self)
    = Some (with_delivered_at (Some now) (with_order_status o_delivered order))).
  { intros dbx Hx. rewrite Order_get_update by (intros r Hr; exact Hr).
    unfold Order_get in *. rewrite Hx, Ho. simpl. rewrite Ko, Z.eqb_refl. reflexivity. }
  run_model. unfold Order_get in Ho |- *. simpl. rewrite Ho. simpl.
  rewrite Hdrv. simpl. autorewrite with db_read. rewrite Ha. simpl.
  destruct (is_online a) eqn:Eon; simpl.
  - do 2 eexists. split; [reflexivity |]. split; [| split; [| reflexivity]].
    + rewrite DriverAvailability_get_update by (intros r Hr; exact Hr).
      rewrite DriverAvailability_get_update by (intros r Hr; exact Hr).
      autorewrite with db_read. rewrite Ha. simpl.
      rewrite Ka, Z.eqb_refl. simpl. rewrite Ka, Z.eqb_refl.
      unfold counted_row. rewrite Eon. reflexivity.
    + apply (Horder (update_delivery (id self)
                       (fun row => with_actual_delivery_time (Some now)
                                     (with_status delivered row)) db)).
      reflexivity.
  - do 2 eexists. split; [reflexivity |]. split; [| split; [| reflexivity]].
    + rewrite DriverAvailability_get_update by (intros r Hr; exact Hr).
      autorewrite with db_read. rewrite Ha. simpl.
      rewrite Ka, Z.eqb_refl.
      unfold counted_row. rewrite Eon. reflexivity.
    + apply (Horder (update_delivery (id self)
                       (fun row => with_actual_delivery_time (Some now)
                                     (with_status delivered row)) db)).
      reflexivity.
Qed.

(** X21.  Completing a delivery, for a delivery whose order and driver
    record exist: [mark_delivered] counts one more successful delivery for
    the driver (total and successful go up by one, cancelled stays), makes
    the driver available again if online (and leaves the flag untouched if
    offline), and marks the order [delivered] at [now]. *)
Theorem mark_delivered_credits_driver (now : Z) (self : Delivery) (db : DB)
  (order : Order) (drv : Z) (a : DriverAvailability) :
  Order_get db (order_id self) = Some order ->
  driver self = Some drv ->
  DriverAvailability_get db drv = Some a ->
  exists db' ev a' order',
    mark_delivered now self db = (Return (delivered_row now self), db', ev) /\
    DriverAvailability_get db' drv = Some a' /\
    total_deliveries a' = total_deliveries a + 1 /\
    successful_deliveries a' = successful_deliveries a + 1 /\
    cancelled_deliveries a' = cancelled_deliveries a /\
    is_online a' = is_online a /\
    is_available a' = (is_online a || is_available a) /\
    Order_get db' (order_id self) = Some order' /\
    order_status order' = o_delivered /\ delivered_at order' = Some now.
Proof.
  intros Ho Hdrv Ha.
  destruct (mark_delivered_run now self db order drv a Ho Hdrv Ha)
    as (db' & ev & Hrun & Hrow & Hord & _).
  exists db', ev, (counted_row a),
    (with_delivered_at (Some now) (with_order_status o_delivered order)).
  split; [exact Hrun |]. split; [exact Hrow |].
  unfold counted_row. destruct (is_online a) eqn:Eon; simpl; repeat split; auto.
Qed.

(** A run of X21: driver 7 completes the accepted delivery of order 1. *)
Lemma mark_delivered_credits_driver_witness :
  exists db' ev a' order',
    mark_delivered 9000 (scenario.delivery_row 1 1 (Some 7) accepted (Some 0))
      scenario.db_accepted
    = (Return (delivered_row 9000 (scenario.delivery_row 1 1 (Some 7) accepted (Some 0))),
       db', ev) /\
    DriverAvailability_get db' 7 = Some a' /\
    total_deliveries a' = 4 + 1 /\
    successful_deliveries a' = 3 + 1 /\
    cancelled_deliveries a' = 1 /\
    is_online a' = true /\
    is_available a' = (true || false) /\
    Order_get db' 1 = Some order' /\
    order_status order' = o_delivered /\ delivered_at order' = Some 9000.
Proof.
  exact (mark_delivered_credits_driver 9000
           (scenario.delivery_row 1 1 (Some 7) accepted (Some 0)) scenario.db_accepted
           scenario.order1 7 scenario.driver7_busy eq_refl eq_refl eq_refl).
Defined.

(** ** The driver's endpoints *)

Lemma find_refined {A : Type} (p p' : A -> bool) (d : A) (l : list A) :
  find p l = Some d ->
  (forall x, p' x = true -> p x = true) ->
  p' d = true ->
  find p' l = Some d.
Proof.
  intros Hf Himp Hd. induction l as [| x l IH]; simpl in *; [discriminate |].
  destruct (p x) eqn:Ex.
  - injection Hf as ->. rewrite Hd. reflexivity.
  - destruct (p' x) eqn:Ex'; [| exact (IH Hf)].
    rewrite (Himp x Ex') in Ex. discriminate.
Qed.

Lemma Delivery_get_overwritten (db : DB) (did : Z) (d0 d' : Delivery) :
  Delivery_get db did = Some d0 ->
  id d' = did ->
  Delivery_get (update_delivery did (all_columns d') db) did = Some d'.
Proof.
  intros Hd Hid. pose proof (Delivery_get_key _ _ _ Hd) as Kd.
  rewrite Delivery_get_update by (intros; exact Hid).
  rewrite Hd. simpl. rewrite Kd, Z.eqb_refl. reflexivity.
Qed.

Lemma Delivery_get_columns (db : DB) (did : Z) (d0 : Delivery)
  (f : Delivery -> Delivery) :
  Delivery_get db did = Some d0 ->
  (forall row, id (f row) = id row) ->
  Delivery_get (update_delivery did f db) did = Some (f d0).
Proof.
  intros Hd Hf. pose proof (Delivery_get_key _ _ _ Hd) as Kd.
  rewrite Delivery_get_update by (intros row Hr; rewrite Hf; exact Hr).
  rewrite Hd. simpl. rewrite Kd, Z.eqb_refl. reflexivity.
Qed.

(** X22.  Rejection through [reject_delivery] of [delivery/views.py], by
    the driver who holds the delivery while it is [assigned] or [pending]:
    the reply is 200, the delivery is stored [pending] without a driver and
    [get_pending_deliveries] lists it, the driver is available again if
    online (an offline driver's flag is left as it is), the customer is told
    and a new assignment is requested through [run_task_safe]. *)
Theorem reject_returns_delivery_to_pool (request_user : User) (did : Z) (db : DB)
  (delivery : Delivery) :
  is_driver request_user = true ->
  Delivery_get db did = Some delivery ->
  driver delivery = Some (user_id request_user) ->
  status delivery = assigned \/ status delivery = pending ->
  exists db',
    reject_delivery request_user did db
    = (Return (JsonResponse 200 true), db',
       [NotifyCustomerOrderStatus (order_id delivery) "rejected";
        RunTaskSafe "assign_delivery_async" (order_id delivery)]) /\
    Delivery_get db' did = Some (with_driver None (with_status pending delivery)) /\
    In (with_driver None (with_status pending delivery)) (get_pending_deliveries db') /\
    DriverAvailability_get db' (user_id request_user)
    = option_map
        (fun a => if is_online a then with_is_available true a else a)
        (DriverAvailability_get db (user_id request_user)).
Proof.
  intros Hdrv Hd Hmine Hst.
  pose proof (Delivery_get_key _ _ _ Hd) as Kd.
  assert (Hfind :
    find
      (fun d =>
         (id d =? did)
         && match driver d with
            | Some x => x =? user_id request_user
            | None => false
            end
         && (Status_eqb (status d) assigned || Status_eqb (status d) pending))
      (deliveries db) = Some delivery).
  { apply (find_refined (fun d => id d =? did)); [exact Hd | |].
    - intros x Hx. apply andb_true_iff in Hx. destruct Hx as [Hx _].
      apply andb_true_iff in Hx. exact (proj1 Hx).
    - rewrite Kd, Z.eqb_refl, Hmine, Z.eqb_refl. simpl.
      destruct Hst as [-> | ->]; reflexivity. }
  run_model. rewrite Hdrv. simpl. rewrite Hfind. simpl.
  autorewrite with db_read.
  assert (Hget : forall dbx,
    deliveries dbx
      = deliveries (update_delivery (id delivery)
                      (all_columns (with_driver None (with_status pending delivery))) db) ->
    Delivery_get dbx did = Some (with_driver None (with_status pending delivery)) /\
    In (with_driver None (with_status pending delivery)) (get_pending_deliveries dbx)).
  { intros dbx Hx.
    assert (Hg : Delivery_get dbx did
                 = Some (with_driver None (with_status pending delivery))).
    { unfold Delivery_get. rewrite Hx. rewrite Kd.
      apply (Delivery_get_overwritten db did delivery); [exact Hd | exact Kd]. }
    split; [exact Hg |].
    unfold get_pending_deliveries. apply filter_In. split; [| reflexivity].
    unfold Delivery_get in Hg. apply find_some in Hg. exact (proj1 Hg). }
  destruct (DriverAvailability_get db (user_id request_user)) as [a |] eqn:Ea; simpl.
  - destruct (is_online a) eqn:Eon; simpl.
    + eexists. split; [reflexivity |].
      split; [apply Hget; reflexivity |]. split; [apply Hget; reflexivity |].
      rewrite DriverAvailability_get_update by (intros r Hr; exact Hr).
      autorewrite with db_read. rewrite Ea. simpl.
      rewrite (DriverAvailability_get_key _ _ _ Ea), Z.eqb_refl. reflexivity.
    + eexists. split; [reflexivity |].
      split; [apply Hget; reflexivity |]. split; [apply Hget; reflexivity |].
      autorewrite with db_read. exact Ea.
  - eexists. split; [reflexivity |].
    split; [apply Hget; reflexivity |]. split; [apply Hget; reflexivity |].
    autorewrite with db_read. exact Ea.
Qed.

(** A run of X22: driver 7 rejects the delivery of order 1. *)
Lemma reject_returns_delivery_to_pool_witness :
  exists db',
    reject_delivery (scenario.driver_user 7) 1 scenario.db_assigned
    = (Return (JsonResponse 200 true), db',
       [NotifyCustomerOrderStatus 1 "rejected"; RunTaskSafe "assign_delivery_async" 1]) /\
    Delivery_get db' 1
    = Some (with_driver None
              (with_status pending (scenario.delivery_row 1 1 (Some 7) assigned (Some 0)))) /\
    In (with_driver None
          (with_status pending (scenario.delivery_row 1 1 (Some 7) assigned (Some 0))))
       (get_pending_deliveries db') /\
    DriverAvailability_get db' 7
    = option_map
        (fun a => if is_online a then with_is_available true a else a)
        (DriverAvailability_get scenario.db_assigned 7).
Proof.
  apply (reject_returns_delivery_to_pool (scenario.driver_user 7) 1 scenario.db_assigned
           (scenario.delivery_row 1 1 (Some 7) assigned (Some 0))).
  - reflexivity.
  - reflexivity.
  - reflexivity.
  - left. reflexivity.
Defined.

Lemma DriverAvailability_get_inserted (db : DB) (drv : Z) :
  DriverAvailability_get db drv = None ->
  DriverAvailability_get
    (with_availabilities (availabilities db ++ [new_availability drv]) db) drv
  = Some (new_availability drv).
Proof.
  intro H. unfold DriverAvailability_get in *. simpl.
  apply find_app_new; [exact H |]. simpl. apply Z.eqb_refl.
Qed.

(** X23.  [toggle_driver_availability] flips the driver's presence and sets
    [is_available] to the new presence: a driver who was offline (or had no
    record yet) ends online and available, whatever [is_available] was; a
    driver who was online ends offline and unavailable.  The reply names
    the new state. *)
Theorem toggle_flips_presence (request_user : User) (db : DB) :
  is_driver request_user = true ->
  let before :=
    match DriverAvailability_get db (user_id request_user) with
    | Some a => a
    | None => new_availability (user_id request_user)
    end in
  exists db' a',
    views_driver.toggle_driver_availability request_user db
    = (Return (views_driver.Toggled
                 (if is_online before then "offline" else "online")
                 (negb (is_online before))), db', []) /\
    DriverAvailability_get db' (user_id request_user) = Some a' /\
    is_online a' = negb (is_online before) /\
    is_available a' = negb (is_online before).
Proof.
  intros Hdrv before. subst before.
  unfold views_driver.toggle_driver_availability, DriverAvailability_get_or_create,
    go_online, go_offline, models.bind, models.ret, models.get_db, models.put_db,
    DriverAvailability_save.
  rewrite Hdrv. simpl.
  destruct (DriverAvailability_get db (user_id request_user)) as [a |] eqn:Ea; simpl.
  - pose proof (DriverAvailability_get_key _ _ _ Ea) as Ka.
    destruct (is_online a) eqn:Eon; simpl;
      do 2 eexists; (split; [reflexivity |]);
      rewrite DriverAvailability_get_update by (intros r Hr; exact Hr);
      rewrite Ea; simpl; rewrite Ka, Z.eqb_refl;
      (split; [reflexivity |]); split; reflexivity.
  - do 2 eexists. split; [reflexivity |].
    rewrite DriverAvailability_get_update by (intros r Hr; exact Hr).
    rewrite (DriverAvailability_get_inserted db _ Ea). simpl.
    rewrite Z.eqb_refl. split; [reflexivity |]. split; reflexivity.
Qed.

(** A run of X23: driver 7, online and busy with the accepted delivery,
    toggles and is offline. *)
Lemma toggle_flips_presence_witness :
  exists db' a',
    views_driver.toggle_driver_availability (scenario.driver_user 7) scenario.db_accepted
    = (Return (views_driver.Toggled "offline" false), db', []) /\
    DriverAvailability_get db' 7 = Some a' /\
    is_online a' = false /\ is_available a' = false.
Proof.
  exact (toggle_flips_presence (scenario.driver_user 7) scenario.db_accepted eq_refl).
Defined.

Ltac run_accept :=
  unfold views_driver.accept_delivery, api_views.accept_delivery,
    models.accept_delivery, assign_to_driver, Delivery_order,
    models.catch, models.bind, models.ret, models.raise, models.get_db,
    models.put_db, models.emit, Delivery_save, DriverAvailability_save, Order_save.

Lemma find_pending_or_assigned (db : DB) (did : Z) (delivery : Delivery) :
  Delivery_get db did = Some delivery ->
  status delivery = pending \/ status delivery = assigned ->
  find
    (fun d =>
       (id d =? did)
       && (Status_eqb (status d) pending || Status_eqb (status d) assigned))
    (deliveries db) = Some delivery.
Proof.
  intros Hd Hst. pose proof (Delivery_get_key _ _ _ Hd) as Kd.
  apply (find_refined (fun d => id d =? did)); [exact Hd | |].
  - intros x Hx. apply andb_true_iff in Hx. exact (proj1 Hx).
  - rewrite Kd, Z.eqb_refl. destruct Hst as [-> | ->]; reflexivity.
Qed.

(** X24.  Refusals of [accept_delivery] of [delivery/views.py].  A delivery
    held by another driver, and a delivery without a driver requested by a
    driver who has no availability record, is offline, or is flagged busy,
    are answered with 400; nothing is written and nobody is notified. *)
Theorem accept_refusals (now : Z) (request_user : User) (did : Z) (db : DB)
  (delivery : Delivery) :
  is_driver request_user = true ->
  Delivery_get db did = Some delivery ->
  status delivery = pending \/ status delivery = assigned ->
  (exists other, driver delivery = Some other /\ other <> user_id request_user) \/
  (driver delivery = None /\
   match DriverAvailability_get db (user_id request_user) with
   | Some a => is_online a = false \/ is_available a = false
   | None => True
   end) ->
  views_driver.accept_delivery now request_user did db
  = (Return (views_driver.Json 400 false), db, []).
Proof.
  intros Hdrv Hd Hst Hcase. run_accept.
  rewrite Hdrv. simpl. rewrite (find_pending_or_assigned db did delivery Hd Hst).
  destruct Hcase as [(other & Ho & Hne) | (Hnone & Hav)].
  - rewrite Ho. simpl. apply Z.eqb_neq in Hne. rewrite Hne. reflexivity.
  - rewrite Hnone. simpl.
    destruct (DriverAvailability_get db (user_id request_user)) as [a |];
      [| reflexivity].
    destruct (is_online a); simpl; [| reflexivity].
    destruct Hav as [Hav | Hav]; [discriminate |]. rewrite Hav. reflexivity.
Qed.

(** A run of X24: driver 8 asks for the delivery that is assigned to
    driver 7. *)
Lemma accept_refusals_witness :
  views_driver.accept_delivery 1000 (scenario.driver_user 8) 1 scenario.db_assigned
  = (Return (views_driver.Json 400 false), scenario.db_assigned, []).
Proof.
  apply (accept_refusals 1000 (scenario.driver_user 8) 1 scenario.db_assigned
           (scenario.delivery_row 1 1 (Some 7) assigned (Some 0))).
  - reflexivity.
  - reflexivity.
  - right. reflexivity.
  - left. exists 7. split; [reflexivity | discriminate].
Defined.

(** The keywords that [accept_delivery] of [delivery/views.py] passes to
    [notify_customer_order_status] are no parameters of it. *)
Lemma accept_notification_call_fails (db : DB) :
  views_driver.call_with_keywords "notify_customer_order_status"
    views_driver.notify_customer_order_status_params
    [ "driver_name"; "driver_phone" ]%string db
  = (Raise (TypeError
       "notify_customer_order_status() got an unexpected keyword argument 'driver_name'"),
     db, []).
Proof. reflexivity. Qed.

(** X25.  A driver who accepts the delivery that is assigned to them,
    through [accept_delivery] of [delivery/views.py], is not refused, also
    when offline or flagged busy: the delivery is stored [accepted] with
    [accepted_at = now] and its other columns as they were, and the
    driver's record (if there is one) is flagged unavailable.  The request
    then fails: the call of [notify_customer_order_status] passes the
    keywords [driver_name] and [driver_phone], which the function does not
    take, so a [TypeError] leaves the view after the writes, the customer
    is not told and no JSON reply is made. *)
Theorem accept_own_delivery (now : Z) (request_user : User) (did : Z) (db : DB)
  (delivery : Delivery) (order : Order) :
  is_driver request_user = true ->
  Delivery_get db did = Some delivery ->
  status delivery = pending \/ status delivery = assigned ->
  driver delivery = Some (user_id request_user) ->
  Order_get db (order_id delivery) = Some order ->
  exists db',
    views_driver.accept_delivery now request_user did db
    = (Raise (TypeError
         "notify_customer_order_status() got an unexpected keyword argument 'driver_name'"),
       db', []) /\
    Delivery_get db' did
    = Some (with_accepted_at (Some now) (with_status accepted delivery)) /\
    DriverAvailability_get db' (user_id request_user)
    = option_map (with_is_available false)
        (DriverAvailability_get db (user_id request_user)).
Proof.
  intros Hdrv Hd Hst Hmine Ho. pose proof (Delivery_get_key _ _ _ Hd) as Kd.
  run_accept.
  rewrite Hdrv. simpl. rewrite (find_pending_or_assigned db did delivery Hd Hst).
  rewrite Hmine. simpl. rewrite Z.eqb_refl. simpl. rewrite ?Hmine. simpl.
  autorewrite with db_read.
  assert (Hget : forall dbx,
    deliveries dbx
      = deliveries (update_delivery (id delivery)
                      (fun row => with_accepted_at (Some now) (with_status accepted row))
                      db) ->
    Delivery_get dbx did
    = Some (with_accepted_at (Some now) (with_status accepted delivery))).
  { intros dbx Hx. unfold Delivery_get. rewrite Hx, Kd.
    apply (Delivery_get_columns db did delivery); [exact Hd |].
    intro row. reflexivity. }
  unfold Order_get in Ho |- *.
  destruct (DriverAvailability_get db (user_id request_user)) as [a |] eqn:Ea; simpl;
    rewrite Ho; simpl.
  - eexists. split; [reflexivity |]. split; [apply Hget; reflexivity |].
    rewrite DriverAvailability_get_update by (intros r Hr; exact Hr).
    autorewrite with db_read. rewrite Ea. simpl.
    rewrite (DriverAvailability_get_key _ _ _ Ea), Z.eqb_refl. reflexivity.
  - eexists. split; [reflexivity |]. split; [apply Hget; reflexivity |].
    autorewrite with db_read. exact Ea.
Qed.

(** A run of X25: driver 7 accepts the delivery of order 1. *)
Lemma accept_own_delivery_witness :
  exists db',
    views_driver.accept_delivery 1000 (scenario.driver_user 7) 1 scenario.db_assigned
    = (Raise (TypeError
         "notify_customer_order_status() got an unexpected keyword argument 'driver_name'"),
       db', []) /\
    Delivery_get db' 1
    = Some (with_accepted_at (Some 1000)
              (with_status accepted
                 (scenario.delivery_row 1 1 (Some 7) assigned (Some 0)))) /\
    DriverAvailability_get db' 7
    = option_map (with_is_available false)
        (DriverAvailability_get scenario.db_assigned 7).
Proof.
  apply (accept_own_delivery 1000 (scenario.driver_user 7) 1 scenario.db_assigned
           (scenario.delivery_row 1 1 (Some 7) assigned (Some 0)) scenario.order1).
  - reflexivity.
  - reflexivity.
  - right. reflexivity.
  - reflexivity.
  - reflexivity.
Defined.

(** ** The REST endpoints *)

Lemma find_owned (request_user : User) (db : DB) (did : Z) (delivery : Delivery) :
  Delivery_get db did = Some delivery ->
  driver delivery = Some (user_id request_user) ->
  find (api_views.owned_by request_user did) (deliveries db) = Some delivery.
Proof.
  intros Hd Hmine. pose proof (Delivery_get_key _ _ _ Hd) as Kd.
  apply (find_refined (fun d => id d =? did)); [exact Hd | |].
  - intros x Hx. unfold api_views.owned_by in Hx.
    apply andb_true_iff in Hx. exact (proj1 Hx).
  - unfold api_views.owned_by. rewrite Kd, Z.eqb_refl, Hmine, Z.eqb_refl. reflexivity.
Qed.

(** X26.  The REST [accept_delivery] checks the status: for the driver's
    own delivery in any status other than [assigned] it answers 400 and
    writes nothing; for an assigned one (whose order exists) it answers 200,
    stores the delivery [accepted] with [accepted_at = now], sets the order
    to [confirmed] and flags the driver's record unavailable. *)
Theorem api_accept_only_assigned (now : Z) (request_user : User) (did : Z) (db : DB)
  (delivery : Delivery) :
  is_driver request_user = true ->
  Delivery_get db did = Some delivery ->
  driver delivery = Some (user_id request_user) ->
  (status delivery <> assigned ->
     api_views.accept_delivery now request_user did db
     = (Return (api_views.Response 400), db, [])) /\
  (status delivery = assigned ->
     forall order : Order,
       Order_get db (order_id delivery) = Some order ->
       exists db',
         api_views.accept_delivery now request_user did db
         = (Return (api_views.Response 200), db', []) /\
         Delivery_get db' did
         = Some (with_accepted_at (Some now) (with_status accepted delivery)) /\
         Order_get db' (order_id delivery)
         = Some (with_order_status o_confirmed order) /\
         DriverAvailability_get db' (user_id request_user)
         = option_map (with_is_available false)
             (DriverAvailability_get db (user_id request_user))).
Proof.
  intros Hdrv Hd Hmine. pose proof (Delivery_get_key _ _ _ Hd) as Kd.
  split.
  - intro Hst. run_accept. rewrite Hdrv. simpl.
    rewrite (find_owned request_user db did delivery Hd Hmine).
    apply Status_eqb_neq in Hst. rewrite Hst. reflexivity.
  - intros Hst order Ho. pose proof (Order_get_key _ _ _ Ho) as Ko.
    run_accept. rewrite Hdrv. simpl.
    rewrite (find_owned request_user db did delivery Hd Hmine).
    rewrite Hst. simpl. rewrite Hmine. simpl. autorewrite with db_read.
    assert (Hget : forall dbx,
      deliveries dbx
        = deliveries (update_delivery (id delivery)
                        (fun row => with_accepted_at (Some now) (with_status accepted row))
                        db) ->
      Delivery_get dbx did
      = Some (with_accepted_at (Some now) (with_status accepted delivery))).
    { intros dbx Hx. unfold Delivery_get. rewrite Hx, Kd.
      apply (Delivery_get_columns db did delivery); [exact Hd |].
      intro row. reflexivity. }
    assert (Hord : forall dbx,
      orders dbx = orders db ->
      Order_get (update_order (order_pk order)
                   (all_columns (with_order_status o_confirmed order)) dbx)
        (order_id delivery)
      = Some (with_order_status o_confirmed order)).
    { intros dbx Hx. unfold Order_get, update_order, all_columns in *. simpl.
      rewrite Hx.
      apply (find_replace (fun x => order_pk x =? order_id delivery) order_pk order);
        [exact Ho |].
      simpl. rewrite Ko. apply Z.eqb_refl. }
    destruct (DriverAvailability_get db (user_id request_user)) as [a |] eqn:Ea; simpl.
    + unfold Order_get in Ho |- *. simpl. rewrite Ho. simpl.
      eexists. split; [reflexivity |]. split; [apply Hget; reflexivity |].
      split; [apply Hord; reflexivity |].
      autorewrite with db_read.
      rewrite DriverAvailability_get_update by (intros r Hr; exact Hr).
      autorewrite with db_read. rewrite Ea. simpl.
      rewrite (DriverAvailability_get_key _ _ _ Ea), Z.eqb_refl. reflexivity.
    + unfold Order_get in Ho |- *. simpl. rewrite Ho. simpl.
      eexists. split; [reflexivity |]. split; [apply Hget; reflexivity |].
      split; [apply Hord; reflexivity |].
      autorewrite with db_read. exact Ea.
Qed.

(** A run of X26: the delivery of order 1 is already accepted, and a second
    acceptance is refused. *)
Lemma api_accept_only_assigned_witness :
  api_views.accept_delivery 1000 (scenario.driver_user 7) 1 scenario.db_accepted
  = (Return (api_views.Response 400), scenario.db_accepted, []).
Proof.
  apply (proj1 (api_accept_only_assigned 1000 (scenario.driver_user 7) 1
                  scenario.db_accepted
                  (scenario.delivery_row 1 1 (Some 7) accepted (Some 0))
                  eq_refl eq_refl eq_refl)).
  discriminate.
Defined.

(** X27.  Completion through the REST [update_delivery_status] counts the
    delivery twice.  [mark_delivered] credits the driver once, and the
    endpoint then calls [increment_deliveries] again on the stored record:
    for the driver's own delivery (order and driver record present) the
    request with status ['delivered'] is answered 200, the delivery is
    stored [delivered], and the driver's [total_deliveries] and
    [successful_deliveries] have each gone up by 2; the record is flagged
    available whether or not the driver is online. *)
Theorem api_delivered_counts_twice (now : Z) (request_user : User) (did : Z) (db : DB)
  (delivery : Delivery) (order : Order) (a : DriverAvailability) :
  is_driver request_user = true ->
  Delivery_get db did = Some delivery ->
  driver delivery = Some (user_id request_user) ->
  Order_get db (order_id delivery) = Some order ->
  DriverAvailability_get db (user_id request_user) = Some a ->
  exists db' ev a' d',
    api_views.update_delivery_status now request_user did (Some "delivered"%string) db
    = (Return (api_views.Response 200), db', ev) /\
    DriverAvailability_get db' (user_id request_user) = Some a' /\
    total_deliveries a' = total_deliveries a + 2 /\
    successful_deliveries a' = successful_deliveries a + 2 /\
    cancelled_deliveries a' = cancelled_deliveries a /\
    is_available a' = true /\ is_online a' = is_online a /\
    Delivery_get db' did = Some d' /\ status d' = delivered.
Proof.
  intros Hdrv Hd Hmine Ho Ha.
  pose proof (Delivery_get_key _ _ _ Hd) as Kd.
  pose proof (DriverAvailability_get_key _ _ _ Ha) as Ka.
  destruct (mark_delivered_run now delivery db order (user_id request_user) a
              Ho Hmine Ha)
    as (db1 & ev1 & Hrun & Hrow & _ & Hdel).
  unfold api_views.update_delivery_status, models.bind, models.ret, models.get_db.
  rewrite Hdrv. simpl.
  rewrite (find_owned request_user db did delivery Hd Hmine). simpl.
  rewrite Hrun. rewrite Hrow.
  unfold increment_deliveries, DriverAvailability_save, models.bind, models.ret.
  simpl.
  assert (Hk : av_driver (if is_online a then with_is_available true a else a)
               = user_id request_user).
  { destruct (is_online a); simpl; exact Ka. }
  assert (Hon : is_online (if is_online a then with_is_available true a else a)
                = is_online a).
  { destruct (is_online a) eqn:E; simpl; congruence. }
  do 4 eexists. split; [reflexivity |]. rewrite !Hk. split.
  - rewrite DriverAvailability_get_update
      by (intros r _; unfold all_columns, counted_row; simpl; exact Hk).
    rewrite DriverAvailability_get_update by (intros r Hr; exact Hr).
    rewrite Hrow. unfold all_columns, counted_row. simpl.
    rewrite !Hk, !Z.eqb_refl. simpl. rewrite ?Hk, ?Z.eqb_refl. reflexivity.
  - simpl. rewrite Hon.
    split; [lia |]. split; [lia |]. split; [reflexivity |].
    split; [reflexivity |]. split; [reflexivity |].
    assert (Hg :
      Delivery_get
        (update_availability (user_id request_user)
           (all_columns
              (with_counters (total_deliveries a + 1 + 1)
                 (successful_deliveries a + 1 + 1) (cancelled_deliveries a)
                 (with_is_available true (counted_row a))))
           (update_availability (user_id request_user)
              (fun row =>
                 with_counters (total_deliveries a + 1 + 1)
                   (successful_deliveries a + 1 + 1) (cancelled_deliveries a) row)
              db1)) did
      = Some (delivered_row now delivery)).
    { unfold Delivery_get, update_availability. simpl. rewrite Hdel, <- Kd.
      apply (Delivery_get_columns db (id delivery) delivery (delivered_row now)).
      - rewrite Kd. exact Hd.
      - intro row. reflexivity. }
    split; [exact Hg | reflexivity].
Qed.

(** A run of X27: driver 7, with 4 deliveries on record, completes the
    accepted delivery of order 1 through the REST endpoint and has 6. *)
Lemma api_delivered_counts_twice_witness :
  exists db' ev a' d',
    api_views.update_delivery_status 9000 (scenario.driver_user 7) 1
      (Some "delivered"%string) scenario.db_accepted
    = (Return (api_views.Response 200), db', ev) /\
    DriverAvailability_get db' 7 = Some a' /\
    total_deliveries a' = 4 + 2 /\
    successful_deliveries a' = 3 + 2 /\
    cancelled_deliveries a' = 1 /\
    is_available a' = true /\ is_online a' = true /\
    Delivery_get db' 1 = Some d' /\ status d' = delivered.
Proof.
  exact (api_delivered_counts_twice 9000 (scenario.driver_user 7) 1
           scenario.db_accepted
           (scenario.delivery_row 1 1 (Some 7) accepted (Some 0)) scenario.order1
           scenario.driver7_busy eq_refl eq_refl eq_refl eq_refl eq_refl).
Defined.

(** X28.  Both [update_delivery_status] endpoints accept the three values
    ['picked_up'], ['en_route'] and ['delivered'] only: for the driver's own
    delivery any other value, or a request without the field, is answered
    400 and nothing is written. *)
Theorem unknown_status_is_refused (now : Z) (request_user : User) (did : Z) (db : DB)
  (delivery : Delivery) (new_status : option string) :
  Delivery_get db did = Some delivery ->
  driver delivery = Some (user_id request_user) ->
  views_driver.status_is new_status "picked_up" = false ->
  views_driver.status_is new_status "en_route" = false ->
  views_driver.status_is new_status "delivered" = false ->
  views_driver.update_delivery_status now request_user did new_status db
  = (Return (views_driver.Json 400 false), db, []) /\
  (is_driver request_user = true ->
   api_views.update_delivery_status now request_user did new_status db
   = (Return (api_views.Response 400), db, [])).
Proof.
  intros Hd Hmine H1 H2 H3. pose proof (Delivery_get_key _ _ _ Hd) as Kd. split.
  - unfold views_driver.update_delivery_status, models.bind, models.get_db, models.ret.
    assert (Hfind :
      find (fun d => (id d =? did) && views_driver.is_user request_user (driver d))
        (deliveries db) = Some delivery).
    { apply (find_refined (fun d => id d =? did)); [exact Hd | |].
      - intros x Hx. apply andb_true_iff in Hx. exact (proj1 Hx).
      - rewrite Kd, Z.eqb_refl, Hmine. simpl. apply Z.eqb_refl. }
    rewrite Hfind, H1, H2, H3. reflexivity.
  - intro Hdrv.
    unfold api_views.update_delivery_status, api_views.allowed_status,
      models.bind, models.get_db, models.ret.
    rewrite Hdrv. simpl.
    rewrite (find_owned request_user db did delivery Hd Hmine), H1, H2, H3.
    reflexivity.
Qed.

(** A run of X28: a request without the status field. *)
Lemma unknown_status_is_refused_witness :
  views_driver.update_delivery_status 1000 (scenario.driver_user 7) 1 None
    scenario.db_assigned
  = (Return (views_driver.Json 400 false), scenario.db_assigned, []) /\
  (is_driver (scenario.driver_user 7) = true ->
   api_views.update_delivery_status 1000 (scenario.driver_user 7) 1 None
     scenario.db_assigned
   = (Return (api_views.Response 400), scenario.db_assigned, [])).
Proof.
  exact (unknown_status_is_refused 1000 (scenario.driver_user 7) 1 scenario.db_assigned
           (scenario.delivery_row 1 1 (Some 7) assigned (Some 0)) None
           eq_refl eq_refl eq_refl eq_refl eq_refl).
Defined.
